(** * Kirby Gate enforcement tracker: calculation engine, deadline
      scheduler and audit model of [kirbygate.py]

    The Python functions of the calculation engine ([calc_pct] ...
    [calc_settlement]), the two commands that change a parcel
    ([update_parcel], the square-footage adjustment of
    [prorata_calculator]), [set_packet_sent] and the urgency flags of
    [view_deadlines] are embedded as Rocq functions; so are the commands
    [log_enforcement], [mark_packet_sent] and the entries of
    [lender_research_tracker], the views [view_deadlines], [view_timeline]
    and [dashboard] up to what they print, the display helpers [money] and
    [trunc], and the seeding of a new database in [get_db].

    - Python [float] is the kernel's binary64 type [PrimFloat.float]; the
      operators [+ - * /] are the IEEE operations, so every figure below is
      the very double the program computes.
    - Python [int] is [Z].  A number whose dynamic type matters is a [pynum].
    - A Python exception is a [Raise e] result; what follows the
      statement that raised is not run.
    - The SQLite tables are a finite map of parcel rows keyed by the primary
      key and a list of audit rows in insertion order. *)

From Stdlib Require Import ZArith Lia Bool String Ascii List Sorted.
From Stdlib Require Import Uint63 Floats.
From stdpp Require Import base option strings gmap list.

Set Warnings "-inexact-float".
Local Open Scope string_scope.
Local Open Scope Z_scope.

(* ================================================================= *)
(** ** Python exceptions and results *)

Inductive exn : Type :=
  | ValueError
  | ZeroDivisionError
  | OverflowError
  | IntegrityError
  | TypeError.

Inductive result (A : Type) : Type :=
  | Ok (a : A)
  | Raise (e : exn).
Arguments Ok {A} a.
Arguments Raise {A} e.

#[global] Instance result_ret : MRet result := @Ok.
#[global] Instance result_bind : MBind result := λ A B f m,
  match m with
  | Ok a => f a
  | Raise e => Raise e
  end.
#[global] Instance result_fmap : FMap result := λ A B f m,
  match m with
  | Ok a => Ok (f a)
  | Raise e => Raise e
  end.

Definition is_ok {A} (r : result A) : bool :=
  match r with Ok _ => true | Raise _ => false end.

(* ================================================================= *)
(** ** Python numbers *)

Module Py.

(** Magnitudes from [DBL_OVERFLOW] on round (to nearest, ties to even) to
    2^1024, which no double holds: the largest double is 2^1024 - 2^971 and
    the midpoint to 2^1024 goes to the even neighbour. *)
Definition DBL_OVERFLOW : Z := Eval vm_compute in 2 ^ 1024 - 2 ^ 970.

(** Integers below 2^53 in magnitude are doubles as they are. *)
Definition TWO_53 : Z := Eval vm_compute in 2 ^ 53.
Definition is_small (z : Z) : bool := Z.abs z <? TWO_53.

(** [float(z)] for an int that fits: the nearest double. *)
Definition Z_to_float (z : Z) : float :=
  if is_small z then
    if z <? 0 then (- of_uint63 (of_Z (- z)))%float else of_uint63 (of_Z z)
  else SF2Prim (binary_normalize prec emax z 0 false).

(** The implicit int -> float conversion of mixed arithmetic. *)
Definition float_of_int (z : Z) : result float :=
  if DBL_OVERFLOW <=? Z.abs z then Raise OverflowError else Ok (Z_to_float z).

(** The correctly rounded quotient of two integers, [b <> 0]. *)
Definition rounded_quotient (a b : Z) : spec_float :=
  let s := xorb (a <? 0) (b <? 0) in
  match a with
  | Z0 => S754_zero s
  | _ =>
    let '(q, e, l) := SFdiv_core_binary prec emax (Z.abs a) 0 (Z.abs b) 0 in
    binary_round_aux prec emax s q e l
  end.

(** [a / b] on ints (true division): small operands are divided as
    doubles, large ones are rounded once from the exact quotient. *)
Definition int_truediv (a b : Z) : result float :=
  if b =? 0 then Raise ZeroDivisionError
  else if is_small a && is_small b then Ok (Z_to_float a / Z_to_float b)%float
  else if DBL_OVERFLOW * Z.abs b <=? Z.abs a then Raise OverflowError
  else Ok (SF2Prim (rounded_quotient a b)).

Inductive pynum : Type :=
  | PInt (z : Z)
  | PFloat (f : float).

Definition to_float (x : pynum) : result float :=
  match x with
  | PInt z => float_of_int z
  | PFloat f => Ok f
  end.

(** [+], [-], [*]: exact on two ints, otherwise on doubles. *)
Definition arith (iop : Z → Z → Z) (fop : float → float → float)
    (x y : pynum) : result pynum :=
  match x, y with
  | PInt a, PInt b => Ok (PInt (iop a b))
  | _, _ => a ← to_float x; b ← to_float y; Ok (PFloat (fop a b))
  end.

Definition add := arith Z.add PrimFloat.add.
Definition sub := arith Z.sub PrimFloat.sub.
Definition mul := arith Z.mul PrimFloat.mul.

(** [/]: always a float; a zero divisor raises. *)
Definition truediv (x y : pynum) : result pynum :=
  match x, y with
  | PInt a, PInt b => PFloat <$> int_truediv a b
  | _, _ =>
    a ← to_float x; b ← to_float y;
    if (b =? 0)%float then Raise ZeroDivisionError else Ok (PFloat (a / b)%float)
  end.

(** [x != 0] on a float. *)
Definition float_nonzero (f : float) : bool := negb (f =? 0)%float.

(** [bool(x)], the truth value used by [if x] and [x or y]. *)
Definition truthy (x : pynum) : bool :=
  match x with
  | PInt z => negb (z =? 0)
  | PFloat f => float_nonzero f
  end.

End Py.

(* ================================================================= *)
(** ** Strings and the built-in parsers [int()] and [float()] *)

(** Text is ASCII.  (The parsers of Python also read the other decimal
    digits and spaces of Unicode, which these strings do not hold.) *)

Module Str.

Definition chars : string → list ascii := list_ascii_of_string.
Definition of_chars : list ascii → string := string_of_list_ascii.

Definition code (c : ascii) : Z := Z.of_N (N_of_ascii c).

Definition digit_val (c : ascii) : option Z :=
  let n := code c in
  if (48 <=? n) && (n <=? 57) then Some (n - 48) else None.

Definition is_digit (c : ascii) : bool := bool_decide (is_Some (digit_val c)).

(** ASCII white space as [str.strip] and the parsers see it. *)
Definition is_space (c : ascii) : bool :=
  let n := code c in
  (n =? 32) || ((9 <=? n) && (n <=? 13)) || ((28 <=? n) && (n <=? 31)).

Definition lower (c : ascii) : ascii :=
  let n := code c in
  if (65 <=? n) && (n <=? 90) then ascii_of_N (Z.to_N (n + 32)) else c.

(** [s.replace(c, "")] for a one-character [c]. *)
Definition remove_char (c : ascii) (s : string) : string :=
  of_chars (filter (λ x, x ≠ c) (chars s)).

Fixpoint lstrip (l : list ascii) : list ascii :=
  match l with
  | c :: l' => if is_space c then lstrip l' else l
  | [] => []
  end.

Definition strip (l : list ascii) : list ascii :=
  rev (lstrip (rev (lstrip l))).

(** A run of digits in which single underscores may separate digits:
    the value read, the number of digits, and what follows the run. *)
Fixpoint scan_digits (l : list ascii) (acc n : Z) : Z * Z * list ascii :=
  match l with
  | c :: l' =>
    match digit_val c with
    | Some d => scan_digits l' (10 * acc + d) (n + 1)
    | None =>
      if bool_decide (c = "_"%char) && (0 <? n) then
        match l' with
        | c' :: _ => if is_digit c' then scan_digits l' acc n else (acc, n, l)
        | [] => (acc, n, l)
        end
      else (acc, n, l)
    end
  | [] => (acc, n, l)
  end.

(** An optional sign: [true] for a minus. *)
Definition scan_sign (l : list ascii) : bool * list ascii :=
  match l with
  | "-"%char :: l' => (true, l')
  | "+"%char :: l' => (false, l')
  | _ => (false, l)
  end.

(** [sys.get_int_max_str_digits()], as shipped. *)
Definition MAX_STR_DIGITS : Z := 4300.

(** [int(s)] in base ten; [None] is [ValueError]. *)
Definition py_int (s : string) : option Z :=
  let '(neg, l) := scan_sign (strip (chars s)) in
  let '(v, n, rest) := scan_digits l 0 0 in
  if (0 <? n) && (n <=? MAX_STR_DIGITS) && bool_decide (rest = [])
  then Some (if neg then - v else v)
  else None.

(** The double nearest to [m * 10^e10], [0 <= m] written with [nd] digits. *)
Definition decimal_to_float (m nd e10 : Z) : float :=
  if m =? 0 then 0%float
  else if 310 <? e10 then infinity
  else if nd + e10 <? -330 then 0%float
  else
    let a := if 0 <=? e10 then m * 10 ^ e10 else m in
    let b := if 0 <=? e10 then 1 else 10 ^ (- e10) in
    if Py.DBL_OVERFLOW * b <=? a then infinity
    else SF2Prim (Py.rounded_quotient a b).

Definition scan_exponent (l : list ascii) : option (Z * list ascii) :=
  match l with
  | c :: l' =>
    if bool_decide (lower c = "e"%char) then
      let '(neg, l'') := scan_sign l' in
      let '(v, n, rest) := scan_digits l'' 0 0 in
      if 0 <? n then Some (if neg then - v else v, rest) else None
    else Some (0, l)
  | [] => Some (0, l)
  end.

(** [float(s)]; [None] is [ValueError]. *)
Definition py_float (s : string) : option float :=
  let '(neg, l) := scan_sign (strip (chars s)) in
  let sgn (f : float) := if neg then (- f)%float else f in
  let word := of_chars (map lower l) in
  if bool_decide (word = "inf"%string) || bool_decide (word = "infinity"%string)
  then Some (sgn infinity)
  else if bool_decide (word = "nan"%string) then Some nan
  else
    let '(ip, n1, r1) := scan_digits l 0 0 in
    let '(m, n2, r2) :=
      match r1 with
      | "."%char :: r => scan_digits r ip 0
      | _ => (ip, 0, r1)
      end in
    if 0 <? n1 + n2 then
      match scan_exponent r2 with
      | Some (e, []) => Some (sgn (decimal_to_float m (n1 + n2) (e - n2)))
      | _ => None
      end
    else None.

End Str.

(* ================================================================= *)
(** ** Calendar dates: [datetime.strptime], [+ timedelta(days=n)],
       [strftime] *)

Module Cal.

Record date : Type := Date { year : Z; month : Z; day : Z }.

#[global] Instance date_eq_dec : EqDecision date.
Proof. solve_decision. Defined.

Definition MINYEAR : Z := 1.
Definition MAXYEAR : Z := 9999.

Definition is_leap (y : Z) : bool :=
  (y mod 4 =? 0) && (negb (y mod 100 =? 0) || (y mod 400 =? 0)).

(** Days before January 1st of year [y]. *)
Definition days_before_year (y : Z) : Z :=
  let y := y - 1 in y * 365 + y / 4 - y / 100 + y / 400.

Definition days_in_month (y m : Z) : Z :=
  if (m =? 2) && is_leap y then 29
  else nth (Z.to_nat m) [-1; 31; 28; 31; 30; 31; 30; 31; 31; 30; 31; 30; 31] 0.

Definition DAYS_BEFORE_MONTH : list Z :=
  [-1; 0; 31; 59; 90; 120; 151; 181; 212; 243; 273; 304; 334].

(** Days in year [y] before the first of month [m]. *)
Definition days_before_month (y m : Z) : Z :=
  nth (Z.to_nat m) DAYS_BEFORE_MONTH 0
  + (if (2 <? m) && is_leap y then 1 else 0).

(** The proleptic Gregorian ordinal, 0001-01-01 being day 1. *)
Definition ymd2ord (d : date) : Z :=
  days_before_year (year d) + days_before_month (year d) (month d) + day d.

Definition DI400Y : Z := 146097.
Definition DI100Y : Z := 36524.
Definition DI4Y : Z := 1461.
Definition MAXORDINAL : Z := 3652059.

(** Month and day of the day numbered [n] from 0 within its year: the
    estimate [(n + 50) >> 5] is the month or the month after it. *)
Definition month_day (n : Z) (leapyear : bool) : Z * Z :=
  let m := (n + 50) / 32 in
  let preceding :=
    nth (Z.to_nat m) DAYS_BEFORE_MONTH 0
    + (if (2 <? m) && leapyear then 1 else 0) in
  if n <? preceding then
    let m := m - 1 in
    let preceding :=
      preceding
      - (nth (Z.to_nat m) [-1; 31; 28; 31; 30; 31; 30; 31; 31; 30; 31; 30; 31] 0
         + (if (m =? 2) && leapyear then 1 else 0)) in
    (m, n - preceding + 1)
  else (m, n - preceding + 1).

(** The date of an ordinal, by 400-, 100-, 4- and 1-year cycles. *)
Definition ord2ymd (n : Z) : date :=
  let n := n - 1 in
  let n400 := n / DI400Y in
  let n := n mod DI400Y in
  let n100 := n / DI100Y in
  let n := n mod DI100Y in
  let n4 := n / DI4Y in
  let n := n mod DI4Y in
  let n1 := n / 365 in
  let n := n mod 365 in
  let y := n400 * 400 + 1 + n100 * 100 + n4 * 4 + n1 in
  if (n1 =? 4) || (n100 =? 4) then Date (y - 1) 12 31
  else
    let leapyear := (n1 =? 3) && (negb (n4 =? 24) || (n100 =? 3)) in
    let '(m, d) := month_day n leapyear in
    Date y m d.

(** What the [datetime] constructor accepts. *)
Definition valid (d : date) : bool :=
  (MINYEAR <=? year d) && (year d <=? MAXYEAR)
  && (1 <=? month d) && (month d <=? 12)
  && (1 <=? day d) && (day d <=? days_in_month (year d) (month d)).

(** [d + timedelta(days=n)]: [OverflowError] outside years 1..9999. *)
Definition add_days (d : date) (n : Z) : result date :=
  let o := ymd2ord d + n in
  if (0 <? o) && (o <=? MAXORDINAL) then Ok (ord2ymd o)
  else Raise OverflowError.

(** [(d1 - d2).days]. *)
Definition days_between (d1 d2 : date) : Z := ymd2ord d1 - ymd2ord d2.

Definition digit_char (n : Z) : ascii := ascii_of_N (Z.to_N (48 + n mod 10)).

(** [n] in decimal, zero-padded to [w] digits. *)
Fixpoint zero_pad (w : nat) (n : Z) : list ascii :=
  match w with
  | O => []
  | S w' => zero_pad w' (n / 10) ++ [digit_char n]
  end.

(** [d.strftime("%Y-%m-%d")], the year on four digits as the library
    documents [%Y].  From the year 1000 on this is the text on every
    platform; below it the C library of some platforms (glibc) drops the
    leading zeros, and the properties of the text read back are stated
    for years from 1000 on. *)
Definition strftime (d : date) : string :=
  Str.of_chars
    (zero_pad 4 (year d) ++ ["-"%char] ++ zero_pad 2 (month d)
     ++ ["-"%char] ++ zero_pad 2 (day d)).

Definition two_digits (c1 c2 : ascii) : option Z :=
  a ← Str.digit_val c1; b ← Str.digit_val c2; Some (10 * a + b).

(** The month directive: [1[0-2]|0[1-9]|[1-9]], then the hyphen. *)
Definition scan_month (l : list ascii) : option (Z * list ascii) :=
  match l with
  | c1 :: c2 :: "-"%char :: rest =>
    m ← two_digits c1 c2;
    if (1 <=? m) && (m <=? 12) then Some (m, rest) else None
  | c1 :: "-"%char :: rest =>
    m ← Str.digit_val c1;
    if 1 <=? m then Some (m, rest) else None
  | _ => None
  end.

(** The day directive, which must end the text:
    [3[0-1]|[1-2]\d|0[1-9]|[1-9]| [1-9]]. *)
Definition scan_day (l : list ascii) : option Z :=
  match l with
  | [c1; c2] =>
    if bool_decide (c1 = " "%char) then
      d ← Str.digit_val c2; if 1 <=? d then Some d else None
    else
      d ← two_digits c1 c2;
      if (1 <=? d) && (d <=? 31) then Some d else None
  | [c1] => d ← Str.digit_val c1; if 1 <=? d then Some d else None
  | _ => None
  end.

(** [datetime.strptime(s, "%Y-%m-%d")], the time of day being midnight. *)
Definition strptime (s : string) : result date :=
  match Str.chars s with
  | y1 :: y2 :: y3 :: y4 :: "-"%char :: rest =>
    match two_digits y1 y2, two_digits y3 y4, scan_month rest with
    | Some yh, Some yl, Some (m, rest') =>
      match scan_day rest' with
      | Some d =>
        let r := Date (100 * yh + yl) m d in
        if valid r then Ok r else Raise ValueError
      | None => Raise ValueError
      end
    | _, _, _ => Raise ValueError
    end
  | _ => Raise ValueError
  end.

End Cal.

(* ================================================================= *)
(** ** Constants *)

Definition TOTAL_CAMPUS_SQFT : Z := 672718.
Definition HISTORIC_WEEKLY_RATE : float := 6069.52.
Definition CURRENT_WEEKLY_RATE : float := 9000.00.
Definition ARREARS_WEEKS : Z := 156.
Definition LIEN_DEADLINE : string := "2026-04-01".

Definition VALID_STATUSES : list string :=
  ["CURRENT"; "DELINQUENT"; "DISPUTED"; "RECON"; "VERIFY"; "SETTLED"].
Definition VALID_STEPS : list string :=
  ["Paying"; "Demand Drafted"; "Demand Sent"; "Response Received";
   "In Negotiation"; "Settlement Agreed"; "Lien Filed";
   "Attorney Letter Received"; "Research"; "Resolved"].

(* ================================================================= *)
(** ** The store *)

(** A row of [parcels].  The numeric columns are fields; the TEXT columns
    are kept by column name, an absent name being NULL.  The two
    verification flags, which nothing below reads or writes, are left
    out, and so is the key: it is the row's key in [parcels]. *)
Record Parcel : Type := {
  sqft : option Z;
  pct_campus : option float;
  past_due_balance : option float;
  weekly_rate : option float;
  text : gmap string string
}.

Definition status (p : Parcel) : option string := text p !! "status".
Definition enforcement_step (p : Parcel) : option string :=
  text p !! "enforcement_step".
Definition next_action (p : Parcel) : option string := text p !! "next_action".
Definition certified_mail_tracking (p : Parcel) : option string :=
  text p !! "certified_mail_tracking".
Definition date_packet_sent (p : Parcel) : option string :=
  text p !! "date_packet_sent".
Definition cure_deadline (p : Parcel) : option string :=
  text p !! "cure_deadline".
Definition lien_filing_date (p : Parcel) : option string :=
  text p !! "lien_filing_date".
Definition attorney_referral_date (p : Parcel) : option string :=
  text p !! "attorney_referral_date".

Definition set_area (a : Z) (pct : option float) (p : Parcel) : Parcel :=
  {| sqft := Some a; pct_campus := pct;
     past_due_balance := past_due_balance p; weekly_rate := weekly_rate p;
     text := text p |}.
Definition set_past_due_balance (v : option float) (p : Parcel) : Parcel :=
  {| sqft := sqft p; pct_campus := pct_campus p;
     past_due_balance := v; weekly_rate := weekly_rate p; text := text p |}.
Definition set_weekly_rate (v : option float) (p : Parcel) : Parcel :=
  {| sqft := sqft p; pct_campus := pct_campus p;
     past_due_balance := past_due_balance p; weekly_rate := v;
     text := text p |}.
Definition set_text (t : gmap string string) (p : Parcel) : Parcel :=
  {| sqft := sqft p; pct_campus := pct_campus p;
     past_due_balance := past_due_balance p; weekly_rate := weekly_rate p;
     text := t |}.

(** A piece of an f-string: the numbers are kept, not rendered. *)
Inductive piece : Type :=
  | Txt (s : string)
  | Num (x : Py.pynum)
  | Grouped (z : Z).

(** A row of [enforcement_log]; its key is its position in the log. *)
Record LogEntry : Type := {
  parcel_id : option Z;
  timestamp : string;
  action : list piece;
  sent_via : option string;
  response_due : option string;
  response_received : option string;
  next_step : option string;
  attorney : option string;
  cost : option float;
  notes : option string
}.

Record Tables : Type := {
  parcels : gmap Z Parcel;
  enforcement_log : list LogEntry
}.

(** A connection: what is committed, and what the connection sees, its
    own uncommitted writes included. *)
Record Conn : Type := {
  committed : Tables;
  session : Tables
}.

(** A statement run on a connection: its result and the connection
    afterwards.  A statement that raises writes nothing, and what follows
    it is not run. *)
Definition cmd (A : Type) : Type := Conn → result A * Conn.

#[global] Instance cmd_ret : MRet cmd := λ A a c, (Ok a, c).
#[global] Instance cmd_bind : MBind cmd := λ A B f m c,
  match m c with
  | (Ok a, c') => f a c'
  | (Raise e, c') => (Raise e, c')
  end.

Definition lift {A} (r : result A) : cmd A := λ c, (r, c).

(** What the binding of a Python value to a statement parameter stores:
    an int outside 64 bits raises, a NaN is stored as NULL. *)
Definition in_int64 (z : Z) : bool := (- 2 ^ 63 <=? z) && (z <? 2 ^ 63).
Definition bind_int (z : Z) : result Z :=
  if in_int64 z then Ok z else Raise OverflowError.
Definition bind_real (f : float) : option float :=
  if is_nan f then None else Some f.

(** [SELECT * FROM parcels WHERE id = ?], [fetchone()]. *)
Definition select_parcel (pid : Z) : cmd (option Parcel) :=
  λ c, (Ok (parcels (session c) !! pid), c).

(** [UPDATE parcels SET ... WHERE id = ?]: no row, no change. *)
Definition update_parcels (pid : Z) (f : Parcel → Parcel) : cmd () :=
  λ c, (Ok (),
        {| committed := committed c;
           session := {| parcels := alter f pid (parcels (session c));
                         enforcement_log := enforcement_log (session c) |} |}).

(** [INSERT INTO enforcement_log]: with foreign keys on, the parcel a row
    refers to must exist. *)
Definition insert_log (e : LogEntry) : cmd () :=
  λ c,
    let ok := match parcel_id e with
              | Some pid => bool_decide (is_Some (parcels (session c) !! pid))
              | None => true
              end in
    if ok then
      (Ok (),
       {| committed := committed c;
          session := {| parcels := parcels (session c);
                        enforcement_log := enforcement_log (session c) ++ [e] |} |})
    else (Raise IntegrityError, c).

Definition commit : cmd () :=
  λ c, (Ok (), {| committed := session c; session := session c |}).

(* ================================================================= *)
(** ** Calculation engine *)

(** [sqft / total]: the body of [calc_pct], the divisor an argument. *)
Definition pct_of (total : Z) (sqft : Py.pynum) : result Py.pynum :=
  Py.truediv sqft (Py.PInt total).

Definition calc_pct (sqft : Py.pynum) : result Py.pynum :=
  pct_of TOTAL_CAMPUS_SQFT sqft.

Definition calc_historic_weekly (sqft : Py.pynum) : result Py.pynum :=
  p ← calc_pct sqft; Py.mul (Py.PFloat HISTORIC_WEEKLY_RATE) p.

Definition calc_current_weekly (sqft : Py.pynum) : result Py.pynum :=
  p ← calc_pct sqft; Py.mul (Py.PFloat CURRENT_WEEKLY_RATE) p.

Definition calc_arrears_36mo (sqft : Py.pynum) : result Py.pynum :=
  w ← calc_historic_weekly sqft; Py.mul w (Py.PInt ARREARS_WEEKS).

Definition calc_forward_monthly (sqft : Py.pynum) : result Py.pynum :=
  w ← calc_current_weekly sqft; Py.mul w (Py.PFloat 4.333).

(** [row["sqft"] or 0]. *)
Definition sqft_or_0 (row : Parcel) : Py.pynum :=
  match sqft row with
  | Some z => if z =? 0 then Py.PInt 0 else Py.PInt z
  | None => Py.PInt 0
  end.

Definition non_payer (st : option string) : bool :=
  match st with
  | Some s => bool_decide (s ∈ ["DELINQUENT"; "DISPUTED"; "RECON"])
  | None => false
  end.

Definition get_arrears (row : Parcel) : result Py.pynum :=
  match past_due_balance row with
  | Some b =>
    if Py.float_nonzero b then Ok (Py.PFloat b)
    else if non_payer (status row) then calc_arrears_36mo (sqft_or_0 row)
    else Ok (Py.PInt 0)
  | None =>
    if non_payer (status row) then calc_arrears_36mo (sqft_or_0 row)
    else Ok (Py.PInt 0)
  end.

Definition get_weekly (row : Parcel) : result Py.pynum :=
  match weekly_rate row with
  | Some w =>
    if Py.float_nonzero w then Ok (Py.PFloat w)
    else calc_current_weekly (sqft_or_0 row)
  | None => calc_current_weekly (sqft_or_0 row)
  end.

Definition get_forward_monthly (row : Parcel) : result Py.pynum :=
  w ← get_weekly row; Py.mul w (Py.PFloat 4.333).

Record Deadlines : Type := {
  dl_cure : string;
  dl_lien : string;
  dl_attorney : string
}.

Definition calc_deadlines (date_sent_str : string) : result Deadlines :=
  sent ← Cal.strptime date_sent_str;
  c ← Cal.add_days sent 30;
  l ← Cal.add_days sent 45;
  a ← Cal.add_days sent 60;
  Ok {| dl_cure := Cal.strftime c;
        dl_lien := Cal.strftime l;
        dl_attorney := Cal.strftime a |}.

(** [COALESCE(?, certified_mail_tracking)] and the six other columns of
    the [UPDATE] in [set_packet_sent]. *)
Definition packet_sent_columns (date_sent_str : string)
    (tracking_number : option string) (d : Deadlines)
    (t : gmap string string) : gmap string string :=
  let t := <["date_packet_sent" := date_sent_str]> t in
  let t := match tracking_number with
           | Some n => <["certified_mail_tracking" := n]> t
           | None => t
           end in
  let t := <["cure_deadline" := dl_cure d]> t in
  let t := <["lien_filing_date" := dl_lien d]> t in
  let t := <["attorney_referral_date" := dl_attorney d]> t in
  let t := <["enforcement_step" := "Demand Sent"]> t in
  <["next_action" := "Await cure by " +:+ dl_cure d]> t.

Definition packet_sent_entry (now : string) (pid : Z) (date_sent_str : string)
    (tracking_number : option string) (d : Deadlines) : LogEntry :=
  let tracking_note :=
    match tracking_number with
    | Some n => if bool_decide (n = "") then "" else ", tracking: " +:+ n
    | None => ""
    end in
  {| parcel_id := Some pid;
     timestamp := now;
     action := [Txt ("Demand packet sent on " +:+ date_sent_str +:+ tracking_note)];
     sent_via := Some "USPS Certified";
     response_due := Some (dl_cure d);
     response_received := None;
     next_step := Some ("Cure by " +:+ dl_cure d +:+ ", lien by " +:+ dl_lien d
                        +:+ ", attorney by " +:+ dl_attorney d);
     attorney := Some "Rosenblum";
     cost := Some 0%float;
     notes := Some ("30-day cure: " +:+ dl_cure d +:+ " | 45-day lien: "
                    +:+ dl_lien d +:+ " | 60-day attorney: " +:+ dl_attorney d) |}.

(** [now] is the [datetime.now()] text of the call.  [pid] is a key that
    SQLite can bind, an integer of 64 bits: [mark_packet_sent] has looked
    the parcel up with it. *)
Definition set_packet_sent (now : string) (pid : Z) (date_sent_str : string)
    (tracking_number : option string) : cmd Deadlines :=
  deadlines ← lift (calc_deadlines date_sent_str);
  _ ← update_parcels pid
        (λ p, set_text (packet_sent_columns date_sent_str tracking_number
                          deadlines (text p)) p);
  _ ← insert_log (packet_sent_entry now pid date_sent_str tracking_number deadlines);
  _ ← commit;
  mret deadlines.

Record Settlement : Type := {
  settled_amount : Py.pynum;
  monthly_no_interest : Py.pynum;
  total_with_interest : Py.pynum;
  monthly_with_interest : Py.pynum;
  savings_vs_full : Py.pynum;
  savings_pct : Py.pynum;
  savings_vs_litigation : Py.pynum
}.

Definition calc_settlement (principal discount_pct interest_rate term_months : Py.pynum)
    : result Settlement :=
  settled ← (k ← Py.sub (Py.PInt 1) discount_pct; Py.mul principal k);
  monthly_no_int ←
    (if Py.truthy term_months then Py.truediv settled term_months
     else Ok (Py.PInt 0));
  total_with_int ←
    (y ← Py.truediv term_months (Py.PInt 12);
     i ← Py.mul interest_rate y;
     k ← Py.add (Py.PInt 1) i;
     Py.mul settled k);
  monthly_with_int ←
    (if Py.truthy term_months then Py.truediv total_with_int term_months
     else Ok (Py.PInt 0));
  litigation_est ← Py.mul principal (Py.PFloat 1.40);
  savings_vs_full ← Py.sub principal settled;
  savings_vs_lit ← Py.sub litigation_est total_with_int;
  Ok {| settled_amount := settled;
        monthly_no_interest := monthly_no_int;
        total_with_interest := total_with_int;
        monthly_with_interest := monthly_with_int;
        savings_vs_full := savings_vs_full;
        savings_pct := discount_pct;
        savings_vs_litigation := savings_vs_lit |}.

(* ================================================================= *)
(** ** Commands that change a parcel *)

(** What a command printed before it returned. *)
Inductive outcome : Type :=
  | InvalidID
  | NoParcel
  | Cancelled
  | InvalidNumber
  | Updated.

(** Menu choice -> (column, label, values offered). *)
Definition field_map : list (string * (string * string * option (list string))) :=
  [("1", ("status", "Status", Some VALID_STATUSES));
   ("2", ("enforcement_step", "Enforcement Step", Some VALID_STEPS));
   ("3", ("next_action", "Next Action", None));
   ("4", ("deadline", "Deadline (YYYY-MM-DD)", None));
   ("5", ("corporate_target", "Corporate Target", None));
   ("6", ("entity_owner", "Entity/Owner", None));
   ("7", ("notes", "Notes", None));
   ("8", ("business_name", "Business Name", None));
   ("9", ("sqft", "Square Footage", None));
   ("10", ("past_due_balance", "Past Due Balance", None));
   ("11", ("weekly_rate", "Weekly Rate", None));
   ("12", ("county_parcel_id", "County Parcel ID", None));
   ("13", ("mailing_address", "Mailing Address", None));
   ("14", ("lender_name", "Lender Name", None));
   ("15", ("lender_address", "Lender Address", None));
   ("16", ("deed_of_trust_ref", "Deed of Trust Ref (book/page)", None));
   ("17", ("lender_contact", "Lender Contact", None));
   ("18", ("loan_number", "Loan Number", None));
   ("19", ("title_company", "Title Company", None))].

Fixpoint assoc {A} (k : string) (l : list (string * A)) : option A :=
  match l with
  | (k', v) :: l' => if bool_decide (k = k') then Some v else assoc k l'
  | [] => None
  end.

(** The value meant by what was typed: a number picks one of the values
    offered, anything else is taken as typed. *)
Definition chosen_value (options : option (list string)) (sel : string) : string :=
  match options with
  | Some opts =>
    match Str.py_int sel with
    | Some n =>
      let idx := n - 1 in
      if (0 <=? idx) && (idx <? Z.of_nat (length opts))
      then nth (Z.to_nat idx) opts sel
      else sel
    | None => sel
    end
  | None => sel
  end.

(** The audit row both commands write. *)
Definition change_entry (now : string) (pid : Z) (act : list piece)
    (note : string) : LogEntry :=
  {| parcel_id := Some pid; timestamp := now; action := act;
     sent_via := None; response_due := None; response_received := None;
     next_step := None; attorney := None; cost := Some 0%float;
     notes := Some note |}.

(** [UPDATE parcels SET sqft = ?, pct_campus = ? WHERE id = ?]. *)
Definition execute_area_update (pid value : Z) (pct : float) : cmd () :=
  v ← lift (bind_int value);
  update_parcels pid (set_area v (bind_real pct)).

(** [update_parcel] from the three texts typed at its prompts, each
    already stripped: the parcel ID, the menu choice, the new value. *)
Definition update_parcel (now pid_in choice sel : string) : cmd outcome :=
  match Str.py_int pid_in with
  | None => mret InvalidID
  | Some pid =>
    row ← select_parcel pid;
    match row with
    | None => mret NoParcel
    | Some _ =>
      match assoc choice field_map with
      | None => mret Cancelled
      | Some (field, label, options) =>
        let value := chosen_value options sel in
        let log (v : piece) :=
          _ ← insert_log (change_entry now pid
                 [Txt "Updated "; Txt label; Txt " to: "; v] "Changed by user");
          _ ← commit;
          mret Updated in
        if bool_decide (field = "sqft") then
          match Str.py_int (Str.remove_char "," value) with
          | None => mret InvalidNumber
          | Some value =>
            pct ← lift (Py.int_truediv value TOTAL_CAMPUS_SQFT);
            _ ← execute_area_update pid value pct;
            log (Num (Py.PInt value))
          end
        else if bool_decide (field = "past_due_balance") then
          match Str.py_float (Str.remove_char "," (Str.remove_char "$" value)) with
          | None => mret InvalidNumber
          | Some value =>
            _ ← update_parcels pid (set_past_due_balance (bind_real value));
            log (Num (Py.PFloat value))
          end
        else if bool_decide (field = "weekly_rate") then
          match Str.py_float (Str.remove_char "," (Str.remove_char "$" value)) with
          | None => mret InvalidNumber
          | Some value =>
            _ ← update_parcels pid (set_weekly_rate (bind_real value));
            log (Num (Py.PFloat value))
          end
        else
          _ ← update_parcels pid (λ p, set_text (<[field := value]> (text p)) p);
          log (Txt value)
      end
    end
  end.

(** The square-footage adjustment that ends [prorata_calculator], from
    the parcel ID and the new figure typed (stripped, the ID not empty). *)
Definition prorata_adjust (now adjust new_sf : string) : cmd outcome :=
  match Str.py_int adjust with
  | None => mret InvalidID
  | Some pid =>
    row ← select_parcel pid;
    match row with
    | None => mret NoParcel
    | Some row =>
      match Str.py_int (Str.remove_char "," new_sf) with
      | None => mret InvalidNumber
      | Some new_sf =>
        pct ← lift (Py.int_truediv new_sf TOTAL_CAMPUS_SQFT);
        _ ← execute_area_update pid new_sf pct;
        _ ← insert_log (change_entry now pid
               [Txt "SF updated to "; Grouped new_sf; Txt " (was ";
                Grouped (default 0 (sqft row)); Txt ")"]
               "Pro-rata calculator adjustment");
        _ ← commit;
        mret Updated
      end
    end
  end.

(* ================================================================= *)
(** ** Upcoming deadlines *)

Inductive urgency : Type :=
  | Overdue
  | Urgent
  | Soon
  | Normal.

#[global] Instance urgency_eq_dec : EqDecision urgency.
Proof. solve_decision. Defined.

(** [(dl_date - today).days]. *)
Definition days_left (deadline today : Cal.date) : Z :=
  Cal.days_between deadline today.

(** The flag printed beside a deadline: the [if]/[elif] chain. *)
Definition urgency_flag (days : Z) : urgency :=
  if days <? 0 then Overdue
  else if days <=? 7 then Urgent
  else if days <=? 14 then Soon
  else Normal.

Record DeadlineEntry : Type := {
  de_date : string;
  de_days_left : Z;
  de_type : string;
  de_id : Z
}.

(** The entries of one parcel row, one per deadline column that is set. *)
Definition row_deadlines (today : Cal.date) (pid : Z) (r : Parcel)
    : result (list DeadlineEntry) :=
  let entry (col : Parcel → option string) (label : string)
      : result (list DeadlineEntry) :=
    match col r with
    | Some s =>
      if bool_decide (s = "") then Ok []
      else
        dl ← Cal.strptime s;
        Ok [{| de_date := s; de_days_left := days_left dl today;
               de_type := label; de_id := pid |}]
    | None => Ok []
    end in
  a ← entry cure_deadline "30-Day CURE";
  b ← entry lien_filing_date "45-Day LIEN";
  c ← entry attorney_referral_date "60-Day ATTORNEY";
  Ok (a ++ b ++ c)%list.

(** The four summary counts: overdue, urgent, soon, later. *)
Definition summary_counts (ds : list DeadlineEntry) : nat * nat * nat * nat :=
  let count (P : Z → bool) := length (filter (λ d, P (de_days_left d) = true) ds) in
  (count (λ d, d <? 0),
   count (λ d, (0 <=? d) && (d <=? 7)),
   count (λ d, (7 <? d) && (d <=? 14)),
   count (λ d, 14 <? d)).

(* ================================================================= *)
(** ** The contracts of the specification, as it words them *)

(** The multiplier of forward billing as the specification derives it. *)
Definition AVERAGE_WEEKS_PER_MONTH : float := (365.25 / 12 / 7)%float.

(** The figures by which a settlement is judged: settled amount, monthly
    payment without interest, total with interest, monthly payment with
    interest, savings against the full balance and against litigation. *)
Definition figures : Type :=
  (Py.pynum * Py.pynum * Py.pynum * Py.pynum * Py.pynum * Py.pynum)%type.

Definition figures_of (r : Settlement) : figures :=
  (settled_amount r, monthly_no_interest r, total_with_interest r,
   monthly_with_interest r, savings_vs_full r, savings_vs_litigation r).

(** The settlement formulas as the specification words them, every
    division written out. *)
Definition settlement_formulas
    (principal discount_pct interest_rate term_months : Py.pynum)
    : result figures :=
  settled ← (k ← Py.sub (Py.PInt 1) discount_pct; Py.mul principal k);
  monthly_no_interest ← Py.truediv settled term_months;
  total_with_interest ←
    (y ← Py.truediv term_months (Py.PInt 12);
     i ← Py.mul interest_rate y;
     k ← Py.add (Py.PInt 1) i;
     Py.mul settled k);
  monthly_with_interest ← Py.truediv total_with_interest term_months;
  litigation_estimate ← Py.mul principal (Py.PFloat 1.40);
  savings_vs_full ← Py.sub principal settled;
  savings_vs_litigation ← Py.sub litigation_estimate total_with_interest;
  Ok (settled, monthly_no_interest, total_with_interest,
      monthly_with_interest, savings_vs_full, savings_vs_litigation).

(** A row whose campus share is its floor area over the campus total. *)
Definition campus_share_ok (p : Parcel) : Prop :=
  ∀ a, sqft p = Some a →
    ∃ pct, calc_pct (Py.PInt a) = Ok (Py.PFloat pct) ∧ pct_campus p = Some pct.

Definition table_ok (t : Tables) : Prop :=
  ∀ pid p, parcels t !! pid = Some p → campus_share_ok p.

Definition conn_ok (c : Conn) : Prop :=
  table_ok (committed c) ∧ table_ok (session c).

(** The stored past-due balance counts as absent: NULL or zero. *)
Definition balance_unset (row : Parcel) : Prop :=
  past_due_balance row = None
  ∨ ∃ b, past_due_balance row = Some b ∧ (b =? 0)%float = true.

(** [P] on every integer of [lo, lo + 2^n). *)
Fixpoint all_in_range (n : nat) (lo : Z) (P : Z → bool) : bool :=
  match n with
  | O => P lo
  | S n' => all_in_range n' lo P && all_in_range n' (lo + 2 ^ Z.of_nat n') P
  end.

(** [calc_current_weekly] on an area from 0 to the campus total, where
    both operands of the division are doubles as they are. *)
Definition weekly_of (a : Z) : float :=
  (CURRENT_WEEKLY_RATE * (of_uint63 (of_Z a) / 672718))%float.

(** [current_weekly(a) + current_weekly(TOTAL_CAMPUS_SQFT - a)]. *)
Definition weekly_sum (a : Z) : result Py.pynum :=
  x ← calc_current_weekly (Py.PInt a);
  y ← calc_current_weekly (Py.PInt (TOTAL_CAMPUS_SQFT - a));
  Py.add x y.

Definition linear_within_ulp (a : Z) : bool :=
  (abs (weekly_of a + weekly_of (TOTAL_CAMPUS_SQFT - a) - 9000) <=? 0x1p-39)%float.

(** Within a year, the days before the month and the day of the month add
    up to the day of the year. *)
Definition month_day_ok (leapyear : bool) (n : Z) : bool :=
  if n <? 365 + (if leapyear then 1 else 0) then
    let '(m, d) := Cal.month_day n leapyear in
    (1 <=? m) && (m <=? 12) && (1 <=? d)
    && (nth (Z.to_nat m) Cal.DAYS_BEFORE_MONTH 0
        + (if (2 <? m) && leapyear then 1 else 0) + d =? n + 1)
  else true.

(** What a committed change of parcel [pid] leaves behind: the row is
    [p'], one audit row that refers to the parcel is appended, and nothing
    stays uncommitted. *)
Definition written (c c' : Conn) (pid : Z) (p' : Parcel) : Prop :=
  committed c' = session c'
  ∧ parcels (session c') = <[pid := p']> (parcels (session c))
  ∧ ∃ e, enforcement_log (session c') = (enforcement_log (session c) ++ [e])%list
         ∧ parcel_id e = Some pid.

(** ** Sample rows *)

Definition row_credit : Parcel :=
  {| sqft := Some 31061; pct_campus := None;
     past_due_balance := Some (-250.5)%float; weekly_rate := None;
     text := {["status" := "CURRENT"]} |}.
Definition row_delinquent : Parcel :=
  {| sqft := Some 31061; pct_campus := None;
     past_due_balance := Some 0%float; weekly_rate := None;
     text := {["status" := "DELINQUENT"]} |}.
Definition row_verify : Parcel :=
  {| sqft := Some 5000; pct_campus := None;
     past_due_balance := None; weekly_rate := None;
     text := {["status" := "VERIFY"]} |}.
Definition row_billed (w : float) : Parcel :=
  {| sqft := Some 31061; pct_campus := None; past_due_balance := None;
     weekly_rate := Some w; text := ∅ |}.

Definition tables_sample : Tables :=
  {| parcels := {[ 10 := row_delinquent ]}; enforcement_log := [] |}.
Definition conn_sample : Conn :=
  {| committed := tables_sample; session := tables_sample |}.

(* ================================================================= *)
(** ** What the engine returns *)

(** A float, or the OverflowError of an int too large for one. *)
Definition float_or_overflow (r : result Py.pynum) : Prop :=
  (∃ f, r = Ok (Py.PFloat f)) ∨ r = Raise OverflowError.

(* ================================================================= *)
(** ** The calendar, day by day *)

(** The day that [month_day] gives for the [n]-th day of a year is a day
    of its month. *)
Definition month_day_in_month (leapyear : bool) (n : Z) : bool :=
  if n <? 365 + (if leapyear then 1 else 0) then
    let '(m, d) := Cal.month_day n leapyear in
    d <=? (if (m =? 2) && leapyear then 29
           else nth (Z.to_nat m) [-1; 31; 28; 31; 30; 31; 30; 31; 31; 30; 31; 30; 31] 0)
  else true.

(* ================================================================= *)
(** ** Days counted by the clock *)

(** [datetime.now()]: the date and the microseconds since midnight. *)
Record datetime : Type := { dt_date : Cal.date; dt_us : Z }.

Definition US_PER_DAY : Z := 86400000000.

(** [(datetime.strptime(s, "%Y-%m-%d") - now).days] for the date parsed:
    the days of a [timedelta] are the floor of the difference. *)
Definition days_until (deadline : Cal.date) (now : datetime) : Z :=
  ((Cal.ymd2ord deadline - Cal.ymd2ord (dt_date now)) * US_PER_DAY - dt_us now)
  / US_PER_DAY.

(** What [view_timeline] prints after a key deadline. *)
Inductive due : Type :=
  | PastDue
  | DueIn (days : Z).

(** The flag of one key deadline: its text parsed, then the days. *)
Definition timeline_due (now : datetime) (deadline : string) : result due :=
  dl ← Cal.strptime deadline;
  let days := days_until dl now in
  Ok (if days <? 0 then PastDue else DueIn days).

(* ================================================================= *)
(** ** The order of texts *)

(** The order of two texts, character by character, as [String.compare]
    and Python's [<] on [str] take it. *)
Fixpoint lcompare (l1 l2 : list ascii) : comparison :=
  match l1, l2 with
  | [], [] => Eq
  | [], _ :: _ => Lt
  | _ :: _, [] => Gt
  | c1 :: l1', c2 :: l2' =>
    match Ascii.compare c1 c2 with
    | Eq => lcompare l1' l2'
    | o => o
    end
  end.

(** Three comparisons in lexicographic order. *)
Definition lex3 (c1 c2 c3 : comparison) : comparison :=
  match c1 with Eq => match c2 with Eq => c3 | o => o end | o => o end.

(* ================================================================= *)
(** ** The deadline view *)

(** A stable sort, as [list.sort] and [sorted] are: each element goes before
    the first one that is not below it. *)
Fixpoint insert_by {A} (le : A → A → bool) (x : A) (l : list A) : list A :=
  match l with
  | [] => [x]
  | y :: l' => if le x y then x :: l else y :: insert_by le x l'
  end.

Definition sort_by {A} (le : A → A → bool) (l : list A) : list A :=
  foldr (insert_by le) [] l.

(** The rows of [parcels] with their keys, in key order. *)
Definition rows_by_id (t : Tables) : list (Z * Parcel) :=
  sort_by (λ a b, a.1 <=? b.1) (map_to_list (parcels t)).

(** [ORDER BY] on a TEXT column: NULL first, then the texts in order. *)
Definition null_first (a b : option string) : bool :=
  match a, b with
  | None, _ => true
  | Some _, None => false
  | Some x, Some y => String.leb x y
  end.

Record DeadlinesView : Type := {
  dv_deadlines : list DeadlineEntry;
  dv_counts : nat * nat * nat * nat;
  dv_lien_days : Z;
  dv_packets : list (Z * Parcel)
}.

(** [view_deadlines] on the day [today]: [None] when no packet has been
    marked as sent. *)
Definition view_deadlines (today : Cal.date) : cmd (option DeadlinesView) :=
  λ c,
    let rows :=
      sort_by (λ a b, null_first (cure_deadline a.2) (cure_deadline b.2))
        (filter (λ r, is_Some (date_packet_sent r.2)) (rows_by_id (session c))) in
    match rows with
    | [] => (Ok None, c)
    | _ =>
      (ds ← mapM (λ r, row_deadlines today r.1 r.2) rows;
       let deadlines := sort_by (λ a b, String.leb (de_date a) (de_date b)) (concat ds) in
       lien ← Cal.strptime LIEN_DEADLINE;
       Ok (Some {| dv_deadlines := deadlines;
                   dv_counts := summary_counts deadlines;
                   dv_lien_days := days_left lien today;
                   dv_packets := rows |}), c)
    end.

(** A date as [strftime] writes it: it parses, and prints as it was. *)
Definition canonical_date (s : string) : bool :=
  match Cal.strptime s with
  | Ok d => bool_decide (Cal.strftime d = s)
  | Raise _ => false
  end.

Definition deadline_columns : list string :=
  ["cure_deadline"; "lien_filing_date"; "attorney_referral_date"].

(** The deadline columns of a row hold nothing or a date as [strftime]
    writes it. *)
Definition dates_canonical (p : Parcel) : Prop :=
  ∀ col s, col ∈ deadline_columns → text p !! col = Some s → canonical_date s = true.

(** Every row of a table satisfies [P]. *)
Definition rows_ok (P : Parcel → Prop) (t : Tables) : Prop :=
  ∀ pid p, parcels t !! pid = Some p → P p.

Definition conn_rows_ok (P : Parcel → Prop) (c : Conn) : Prop :=
  rows_ok P (committed c) ∧ rows_ok P (session c).

Definition dates_ok (c : Conn) : Prop := conn_rows_ok dates_canonical c.

(** An entry whose text is the date its count of days was taken from. *)
Definition entry_canonical (today : Cal.date) (e : DeadlineEntry) : Prop :=
  ∃ d, Cal.valid d = true ∧ de_date e = Cal.strftime d
       ∧ de_days_left e = days_left d today.

(* ================================================================= *)
(** ** Commands that write the audit log *)

(** [s.strip()] and [s.lower()]. *)
Definition stripped (s : string) : string := Str.of_chars (Str.strip (Str.chars s)).
Definition lowered (s : string) : string := Str.of_chars (map Str.lower (Str.chars s)).

(** [SELECT ... FROM parcels WHERE id = ?] with the key as typed: an
    integer outside 64 bits cannot be bound. *)
Definition select_by_id (pid : Z) : cmd (option Parcel) :=
  v ← lift (bind_int pid); select_parcel v.

(** What a number bound to a REAL column stores. *)
Definition stored_real (x : Py.pynum) : result (option float) :=
  match x with
  | Py.PInt z => v ← bind_int z; Ok (Some (Py.Z_to_float v))
  | Py.PFloat f => Ok (bind_real f)
  end.

(** What one of the commands below printed before it returned. *)
Inductive reply : Type :=
  | BadID
  | NoSuchParcel
  | NoAction
  | BadDate
  | NoChanges
  | Sent (d : Deadlines)
  | Done.

Definition sent_map : list (string * string) :=
  [("1", "USPS Certified"); ("2", "Email"); ("3", "Hand-delivered");
   ("4", "FedEx/UPS"); ("5", "Attorney (Rosenblum)"); ("6", "")].

(** The cost typed in [log_enforcement]: nothing, or no number, is 0. *)
Definition entered_cost (cost_str : string) : Py.pynum :=
  if bool_decide (cost_str = "") then Py.PInt 0
  else
    match Str.py_float (Str.remove_char "," (Str.remove_char "$" cost_str)) with
    | Some f => Py.PFloat f
    | None => Py.PInt 0
    end.

(** [x or y] on texts. *)
Definition or_else (x y : string) : string := if bool_decide (x = "") then y else x.
Definition or_none (x : string) : option string :=
  if bool_decide (x = "") then None else Some x.

(** [log_enforcement] once the parcel is known (none for "all"): the
    prompts for the action and its details, the audit row, the commit. *)
Definition log_action (now action_in sent_in due_in next_in attorney_in cost_in
    notes_in : string) (parcel : option Z) : cmd reply :=
  let action := stripped action_in in
  if bool_decide (action = "") then mret NoAction
  else
    let sent_choice := stripped sent_in in
    let sent_via := default sent_choice (assoc sent_choice sent_map) in
    let response_due := stripped due_in in
    let next_step := stripped next_in in
    let attorney := or_else (stripped attorney_in) "Rosenblum" in
    let cost := entered_cost (stripped cost_in) in
    let notes := stripped notes_in in
    stored ← lift (stored_real cost);
    _ ← insert_log {| parcel_id := parcel; timestamp := now;
                      action := [Txt action]; sent_via := Some sent_via;
                      response_due := or_none response_due;
                      response_received := None;
                      next_step := Some next_step; attorney := Some attorney;
                      cost := stored; notes := Some notes |};
    _ ← commit;
    mret Done.

(** [log_enforcement] from the texts typed at its prompts; [pid_in] is the
    parcel ID entered last (after the list of IDs, when that was asked for). *)
Definition log_enforcement (now pid_in action_in sent_in due_in next_in attorney_in
    cost_in notes_in : string) : cmd reply :=
  let pid := stripped pid_in in
  let log := log_action now action_in sent_in due_in next_in attorney_in cost_in
               notes_in in
  if bool_decide (lowered pid = "all") then log None
  else
    match Str.py_int pid with
    | None => mret BadID
    | Some parcel =>
      row ← select_by_id parcel;
      match row with
      | None => mret NoSuchParcel
      | Some _ => log (Some parcel)
      end
    end.

(** [mark_packet_sent] on the day [today], from the texts typed. *)
Definition mark_packet_sent (now : string) (today : Cal.date)
    (pid_in date_in tracking_in : string) : cmd reply :=
  match Str.py_int (stripped pid_in) with
  | None => mret BadID
  | Some pid =>
    row ← select_by_id pid;
    match row with
    | None => mret NoSuchParcel
    | Some _ =>
      let date_sent := stripped date_in in
      let tracking := or_none (stripped tracking_in) in
      if bool_decide (date_sent = "") then
        d ← set_packet_sent now pid (Cal.strftime today) tracking; mret (Sent d)
      else
        match Cal.strptime date_sent with
        | Raise ValueError => mret BadDate
        | Raise e => lift (Raise e)
        | Ok _ => d ← set_packet_sent now pid date_sent tracking; mret (Sent d)
        end
    end
  end.

(** The columns that the quick entry of [lender_research_tracker] asks for,
    in the order of its prompts. *)
Definition lender_fields : list string :=
  ["county_parcel_id"; "mailing_address"; "lender_name"; "lender_address";
   "lender_contact"; "loan_number"; "deed_of_trust_ref"; "title_company"].

(** [updates]: the columns with something typed, and what was typed. *)
Definition entered (typed : string → string) : list (string * string) :=
  omap (λ f, let v := stripped (typed f) in
             if bool_decide (v = "") then None else Some (f, v)) lender_fields.

(** [", ".join(names)]. *)
Fixpoint join_comma (names : list string) : string :=
  match names with
  | [] => ""
  | [n] => n
  | n :: rest => n +:+ ", " +:+ join_comma rest
  end.

(** Choice 2 of [lender_research_tracker], the quick entry, from its first
    prompt on: [typed f] is the text typed at the prompt of column [f].
    What the command does before it asks for the choice is in
    [lender_research_tracker] below. *)
Definition lender_quick_entry (now pid_in : string) (typed : string → string)
    : cmd reply :=
  match Str.py_int (stripped pid_in) with
  | None => mret BadID
  | Some pid =>
    row ← select_by_id pid;
    match row with
    | None => mret NoSuchParcel
    | Some _ =>
      let updates := entered typed in
      match updates with
      | [] => mret NoChanges
      | _ =>
        _ ← update_parcels pid
              (λ p, set_text (foldl (λ t kv, <[kv.1 := kv.2]> t) (text p) updates) p);
        _ ← insert_log (change_entry now pid
               [Txt ("Lender research updated: " +:+ join_comma updates.*1)]
               "Research tracker entry");
        _ ← commit;
        mret Done
      end
    end
  end.

(** Choices 3 and 4 of [lender_research_tracker]. *)
Inductive verified : Type :=
  | AddressVerified
  | LenderVerified.

(** Choices 3 and 4, from their prompt on.  The flag set is not among the
    columns a [Parcel] keeps, so of the [UPDATE] only the binding of its
    key shows. *)
Definition mark_verified (now pid_in : string) (what : verified) : cmd reply :=
  match Str.py_int (stripped pid_in) with
  | None => mret BadID
  | Some pid =>
    v ← lift (bind_int pid);
    _ ← update_parcels v (λ p, p);
    _ ← insert_log (change_entry now pid
           [Txt match what with
                | AddressVerified => "Address verified via county records"
                | LenderVerified => "Lender verified via Register of Deeds"
                end]
           "Research tracker");
    _ ← commit;
    mret Done
  end.

(** The audit row [log_enforcement] writes once the parcel is known. *)
Definition logged (now action_in : string) (parcel : option Z) (c c' : Conn) : Prop :=
  ∃ e,
    committed c' = session c'
    ∧ parcels (session c') = parcels (session c)
    ∧ enforcement_log (session c') = (enforcement_log (session c) ++ [e])%list
    ∧ timestamp e = now ∧ parcel_id e = parcel
    ∧ action e = [Txt (stripped action_in)] ∧ response_received e = None.

(** The date text [mark_packet_sent] passes on. *)
Definition date_sent_of (today : Cal.date) (date_in : string) : string :=
  if bool_decide (stripped date_in = "") then Cal.strftime today else stripped date_in.

(** The columns [set_packet_sent] writes. *)
Definition packet_columns : list string :=
  ["date_packet_sent"; "certified_mail_tracking"; "cure_deadline";
   "lien_filing_date"; "attorney_referral_date"; "enforcement_step"; "next_action"].

Definition entry_of (typed : string → string) (f : string) : option (string * string) :=
  let v := stripped (typed f) in if bool_decide (v = "") then None else Some (f, v).

(* ================================================================= *)
(** ** The timeline *)

Definition deadline (p : Parcel) : option string := text p !! "deadline".

(** [deadline IS NOT NULL AND deadline != '']. *)
Definition has_deadline (p : Parcel) : bool :=
  match deadline p with
  | Some s => negb (bool_decide (s = ""))
  | None => false
  end.

Record TimelineView : Type := {
  tv_actions : nat;
  tv_deadlines : list (string * due)
}.

(** [view_timeline] at the time [now]: the number of actions logged and
    the key deadlines ([None] when nothing has been logged).  What it
    prints of each audit row is left out. *)
Definition view_timeline (now : datetime) : cmd (option TimelineView) :=
  λ c,
    match enforcement_log (session c) with
    | [] => (Ok None, c)
    | log =>
      let deadlines :=
        sort_by (λ a b, null_first (deadline a.2) (deadline b.2))
          (filter (λ r, has_deadline r.2 = true) (rows_by_id (session c))) in
      (ds ← mapM (λ d, let s := default "" (deadline d.2) in
                       flag ← timeline_due now s; Ok (s, flag)) deadlines;
       Ok (Some {| tv_actions := length log; tv_deadlines := ds |}), c)
    end.

(* ================================================================= *)
(** ** The lender research tracker *)

(** The column the summary of [lender_research_tracker] pads. *)
Definition business_name (p : Parcel) : option string := text p !! "business_name".

(** [status != 'CURRENT'] in SQL: a row whose status is NULL is not
    selected. *)
Definition non_current (p : Parcel) : bool :=
  match status p with
  | Some s => negb (bool_decide (s = "CURRENT"))
  | None => false
  end.

(** [ORDER BY sqft DESC]: the larger area first, NULL last. *)
Definition area_desc (a b : option Z) : bool :=
  match a, b with
  | _, None => true
  | None, Some _ => false
  | Some x, Some y => y <=? x
  end.

(** The rows [lender_research_tracker] selects. *)
Definition tracker_rows (t : Tables) : list (Z * Parcel) :=
  sort_by (λ a b, area_desc (sqft a.2) (sqft b.2))
    (filter (λ r, non_current r.2 = true) (rows_by_id t)).

(** A line of the summary: [f"{r['business_name']:<28}"] is a TypeError
    when the name is NULL; nothing else in the line can fail. *)
Definition summary_line (r : Z * Parcel) : result () :=
  match business_name r.2 with
  | Some _ => Ok ()
  | None => Raise TypeError
  end.

(** How [lender_research_tracker] ended: with no parcel to research, back
    at the menu, after the detail of a parcel, or with what one of its
    entries answered. *)
Inductive tracked : Type :=
  | NoTargets
  | Back
  | Viewed
  | Answered (r : reply).

(** Choice 1: the detail of a parcel. *)
Definition view_detail (pid_in : string) : cmd tracked :=
  match Str.py_int (stripped pid_in) with
  | None => mret (Answered BadID)
  | Some pid =>
    row ← select_by_id pid;
    match row with
    | None => mret (Answered NoSuchParcel)
    | Some _ => mret Viewed
    end
  end.

(** What follows the summary: the choice typed, and its entry. *)
Definition tracker_choice (now choice_in pid_in : string) (typed : string → string)
    : cmd tracked :=
  let choice := stripped choice_in in
  if bool_decide (choice = "1") then view_detail pid_in
  else if bool_decide (choice = "2") then
    r ← lender_quick_entry now pid_in typed; mret (Answered r)
  else if bool_decide (choice = "3") then
    r ← mark_verified now pid_in AddressVerified; mret (Answered r)
  else if bool_decide (choice = "4") then
    r ← mark_verified now pid_in LenderVerified; mret (Answered r)
  else mret Back.

(** [lender_research_tracker] from the texts typed: the choice, the parcel
    ID and, for the quick entry, the text typed at the prompt of each
    column.  It returns at once when no parcel is other than CURRENT, and
    prints its summary before it asks for the choice. *)
Definition lender_research_tracker (now choice_in pid_in : string)
    (typed : string → string) : cmd tracked :=
  λ c,
    match tracker_rows (session c) with
    | [] => (Ok NoTargets, c)
    | rows =>
      (_ ← lift (mapM summary_line rows);
       tracker_choice now choice_in pid_in typed) c
    end.

(** Some parcel is other than CURRENT. *)
Definition has_target (t : Tables) : Prop :=
  ∃ pid p, parcels t !! pid = Some p ∧ non_current p = true.

(** Every parcel other than CURRENT has a business name. *)
Definition targets_named (t : Tables) : Prop :=
  ∀ pid p, parcels t !! pid = Some p → non_current p = true →
           is_Some (business_name p).

(** The number that chooses a verification. *)
Definition verified_choice (what : verified) : string :=
  match what with
  | AddressVerified => "3"
  | LenderVerified => "4"
  end.

(* ================================================================= *)
(** ** Display helpers *)

(** A cell of a table: the em dash that stands for nothing (it is not
    ASCII), or a text. *)
Inductive shown : Type :=
  | Dash
  | Shown (s : string).

(** [len(s)]. *)
Definition len (s : string) : Z := Z.of_nat (length (Str.chars s)).

(** [s[:k]]: the first [k] characters; a negative [k] counts from the end. *)
Definition slice_to (k : Z) (l : list ascii) : list ascii :=
  take (Z.to_nat (if k <? 0 then Z.of_nat (length l) + k else k)) l.

Definition trunc (text : option string) (width : Z) : shown :=
  match text with
  | None => Dash
  | Some s =>
    if bool_decide (s = "") then Dash
    else if len s <=? width then Shown s
    else Shown (Str.of_chars (slice_to (width - 1) (Str.chars s) ++ ["~"%char]))
  end.

(** The format [,.2f]. *)
Module Fmt.

(** [n], from 0 to 999, without leading zeros. *)
Definition below_1000 (n : Z) : list ascii :=
  if n <? 10 then Cal.zero_pad 1 n
  else if n <? 100 then Cal.zero_pad 2 n
  else Cal.zero_pad 3 n.

(** [n >= 0] in decimal, a comma before every group of three digits:
    [fuel] groups beyond the first are enough. *)
Fixpoint grouped (fuel : nat) (n : Z) : list ascii :=
  match fuel with
  | O => below_1000 n
  | S fuel' =>
    if n <? 1000 then below_1000 n
    else (grouped fuel' (n / 1000) ++ ","%char :: Cal.zero_pad 3 (n mod 1000))%list
  end.

Definition group_digits (n : Z) : list ascii := grouped (Z.to_nat (Z.log2 n)) n.

(** The integer nearest to [100 * m * 2^e], a tie going to the even one:
    the conversion to decimals is correctly rounded. *)
Definition round_cents (m : positive) (e : Z) : Z :=
  let n := 100 * Z.pos m in
  if 0 <=? e then n * 2 ^ e
  else
    let d := 2 ^ (- e) in
    let q := n / d in
    let r := n mod d in
    if 2 * r <? d then q
    else if d <? 2 * r then q + 1
    else if Z.even q then q else q + 1.

Definition sign (s : bool) : list ascii := if s then ["-"%char] else [].

Definition amount (c : Z) : list ascii :=
  (group_digits (c / 100) ++ "."%char :: Cal.zero_pad 2 (c mod 100))%list.

(** [f"{x:,.2f}"] on a float. *)
Definition fixed2 (x : float) : list ascii :=
  match Prim2SF x with
  | S754_nan => Str.chars "nan"
  | S754_infinity s => (sign s ++ Str.chars "inf")%list
  | S754_zero s => (sign s ++ amount 0)%list
  | S754_finite s m e => (sign s ++ amount (round_cents m e))%list
  end.

End Fmt.

(** An int is formatted as the float it converts to. *)
Definition money (val : option Py.pynum) : result shown :=
  match val with
  | None => Ok Dash
  | Some x =>
    if Py.truthy x then
      f ← Py.to_float x; Ok (Shown (Str.of_chars ("$"%char :: Fmt.fixed2 f)))
    else Ok Dash
  end.

(** A run of decimal digits. *)
Definition digits (l : list ascii) : Prop := Forall (λ c, is_Some (Str.digit_val c)) l.

(** What ends a run of digits: the end of the text, or a character that
    is neither a digit nor an underscore. *)
Definition stops (rest : list ascii) : Prop :=
  match rest with
  | [] => True
  | c :: _ => Str.digit_val c = None ∧ c ≠ "_"%char
  end.

(** Neither a dollar sign nor a comma: what the cleaning of an amount keeps. *)
Definition kept (c : ascii) : Prop := c ≠ "$"%char ∧ c ≠ ","%char.

(* ================================================================= *)
(** ** The dashboard *)

(** [r["status"] in names]. *)
Definition status_in (names : list string) (r : Parcel) : bool :=
  match status r with
  | Some s => bool_decide (s ∈ names)
  | None => false
  end.

(** [sum(get(r) for r in rows)]: from the integer 0, row after row. *)
Definition sum_over (get : Parcel → result Py.pynum) (rows : list Parcel)
    : result Py.pynum :=
  foldl (λ acc r, a ← acc; x ← get r; Py.add a x) (Ok (Py.PInt 0)) rows.

Record Dashboard : Type := {
  db_parcels : nat;
  db_current : nat;
  db_delinquent : nat;
  db_disputed : nat;
  db_recon : nat;
  db_settled : nat;
  db_campus_sqft : Z;
  db_delinq_arrears : Py.pynum;
  db_disputed_arrears : Py.pynum;
  db_recon_arrears : Py.pynum;
  db_total_arrears : Py.pynum;
  db_delinq_weekly : Py.pynum;
  db_total_weekly : Py.pynum;
  db_days_to_lien : Z;
  db_log_count : nat
}.

(** The figures of [dashboard] at the time [now]: what it computes and
    prints above the ranking, and the count of audit rows it prints last. *)
Definition dashboard (now : datetime) : cmd Dashboard :=
  λ c,
    let all_rows := (rows_by_id (session c)).*2 in
    let current := filter (λ r, status_in ["CURRENT"] r = true) all_rows in
    let delinquent := filter (λ r, status_in ["DELINQUENT"] r = true) all_rows in
    let disputed := filter (λ r, status_in ["DISPUTED"] r = true) all_rows in
    let recon := filter (λ r, status_in ["RECON"; "VERIFY"] r = true) all_rows in
    let settled := filter (λ r, status_in ["SETTLED"] r = true) all_rows in
    let total_campus_sqft := foldl (λ acc r, acc + default 0 (sqft r)) 0 all_rows in
    (delinq_arrears ← sum_over get_arrears delinquent;
     disputed_arrears ← sum_over get_arrears disputed;
     recon_arrears ← sum_over get_arrears recon;
     total_arrears ← (s ← Py.add delinq_arrears disputed_arrears; Py.add s recon_arrears);
     delinq_weekly ← sum_over get_weekly delinquent;
     total_weekly ← sum_over get_weekly all_rows;
     lien ← Cal.strptime LIEN_DEADLINE;
     Ok {| db_parcels := length all_rows; db_current := length current;
           db_delinquent := length delinquent; db_disputed := length disputed;
           db_recon := length recon; db_settled := length settled;
           db_campus_sqft := total_campus_sqft;
           db_delinq_arrears := delinq_arrears;
           db_disputed_arrears := disputed_arrears;
           db_recon_arrears := recon_arrears;
           db_total_arrears := total_arrears;
           db_delinq_weekly := delinq_weekly;
           db_total_weekly := total_weekly;
           db_days_to_lien := days_until lien now;
           db_log_count := length (enforcement_log (session c)) |}, c).

(** [r["status"] != "CURRENT"] in Python: a row whose status is NULL is
    ranked too. *)
Definition ranked (r : Parcel) : bool :=
  negb (bool_decide (status r = Some "CURRENT")).

(** A line of the ranking: the arrears, shown by [money], then
    [f"{r['status']:<12}"], which is a TypeError when the status is NULL. *)
Definition ranking_line (r : Parcel) : result () :=
  arr ← get_arrears r;
  _ ← money (Some arr);
  match status r with
  | Some _ => Ok ()
  | None => Raise TypeError
  end.

(** The priority ranking of [dashboard]: [sorted] takes the arrears of
    every row ranked as its key, then a line is printed for each.  The
    lines are printed in the order of the arrears; whether one of them
    fails does not depend on it, and the order is not kept here. *)
Definition dashboard_ranking : cmd () :=
  λ c,
    let rows := filter (λ r, ranked r = true) (rows_by_id (session c)).*2 in
    (_ ← mapM get_arrears rows; _ ← mapM ranking_line rows; Ok (), c).

(** [dashboard] as a whole: its figures, then the ranking. *)
Definition dashboard_run (now : datetime) : cmd Dashboard :=
  d ← dashboard now; _ ← dashboard_ranking; mret d.

(** A row as the table stores it: its area fits the INTEGER column. *)
Definition stored (r : Parcel) : Prop := ∀ a, sqft r = Some a → in_int64 a = true.

(** The integer 0 or a float: what the figures of the engine are. *)
Definition zero_or_float (x : Py.pynum) : Prop := x = Py.PInt 0 ∨ ∃ f, x = Py.PFloat f.

(* ================================================================= *)
(** ** Seeding a new database *)

(** A row of [SEED_PARCELS]. *)
Record Seed : Type := seed {
  sd_address : string;
  sd_business_name : string;
  sd_sqft : Z;
  sd_status : string;
  sd_entity_owner : string;
  sd_corporate_target : string;
  sd_enforcement_step : string;
  sd_next_action : string;
  sd_deadline : string;
  sd_notes : string
}.

Definition SEED_PARCELS : list Seed :=
  [
   seed "6500 Kirby Gate Blvd" "Waters of Memphis (Apts)" 54424 "CURRENT"
     "Kirby Gate Apts LLC" ""
     "Paying" "" ""
     "";
   seed "2809 Kirby Pkwy" "Shoppes at Kirby" 22350 "CURRENT"
     "WFC" ""
     "Paying" "" ""
     "";
   seed "2857 Kirby Pkwy" "Shops at Kirby Gate" 20000 "CURRENT"
     "WFC" ""
     "Paying" "" ""
     "";
   seed "2865 Kirby Pkwy" "Kirby Wines & Spirits" 5500 "CURRENT"
     "WFC" ""
     "Paying" "" ""
     "";
   seed "2873 Kirby Pkwy" "Nail Salon / Retail" 4200 "CURRENT"
     "WFC" ""
     "Paying" "" ""
     "";
   seed "6535 Kirby Gate Blvd" "Summit Medical (Bldg A)" 72000 "CURRENT"
     "Summit Healthcare REIT" ""
     "Paying" "" ""
     "Verify: may be partial";
   seed "6655 Quince Rd" "Willow Grove Apts" 72400 "CURRENT"
     "Willow Grove LP" ""
     "Paying" "" ""
     "VERIFY: listed current in case summary";
   seed "6660 Quince Rd" "Kroger #445" 65000 "CURRENT"
     "Kroger Co." "Cincinnati HQ"
     "Paying" "" ""
     "";
   seed "2725 Kirby Pkwy" "FedEx Office / Retail" 18000 "CURRENT"
     "Kirby Pkwy Retail LLC" ""
     "Paying" "" ""
     "";
   seed "6480 Quince Rd" "Pointe at Kirby (MedHCP)" 31061 "DELINQUENT"
     "Grace Mgmt / MedHCP REIT" "MedHCP Corp - Dallas TX"
     "Demand Sent" "Follow-up / Lien Warning" "2026-03-01"
     "Large parcel, high-value target";
   seed "6500 Quince Rd" "Freedom Plasma Center" 12314 "DELINQUENT"
     "Realty Income Corp (NYSE: O)" "San Diego HQ - Corp Real Estate"
     "Demand Drafted" "Send certified demand" "2026-02-28"
     "Public REIT - will settle to avoid headline";
   seed "6532 Kirby Gate Blvd" "Dollar Tree #12847" 9964 "DELINQUENT"
     "Dollar Tree Inc." "Chesapeake VA - Corp Real Estate"
     "Demand Drafted" "Send certified demand" "2026-02-28"
     "Corporate tenant, standard collections";
   seed "6659 Quince Rd" "Dollar General #22748" 9301 "DELINQUENT"
     "Dollar General Corp." "Goodlettsville TN HQ"
     "Demand Drafted" "Send certified demand" "2026-02-28"
     "Corporate tenant, standard collections";
   seed "2801 Kirby Pkwy" "Starbucks (Exline prop)" 7493 "DELINQUENT"
     "Exline Properties" "Starbucks Regional Facilities"
     "Demand Drafted" "Send certified demand" "2026-02-28"
     "Landlord = Exline; Starbucks = subtenant";
   seed "2845 Kirby Pkwy" "Wendy's (Carlisle/Wendelta)" 3284 "DELINQUENT"
     "Wendelta Inc. / Carlisle Corp" "Paul Volpe CFO / Greg Jones COO"
     "Demand Drafted" "Send certified demand" "2026-02-28"
     "Franchisee entity";
   seed "2735 Kirby Pkwy" "Dunkin' (JP Foods LLC)" 2375 "DELINQUENT"
     "JP Foods LLC" "Peter Garner, 999 S Shady Grove"
     "Demand Drafted" "Send certified demand" "2026-02-28"
     "Local franchisee - smallest parcel";
   seed "2715 Kirby Pkwy" "KG Business Center" 43200 "RECON"
     "Unknown - research needed" "TBD"
     "Research" "Identify entity & send demand" "2026-02-28"
     "Non-payer, arrears TBD - need Wills data";
   seed "6635 Quince Rd" "GALR Properties" 28500 "DISPUTED"
     "GALR LP" "Price (attorney) - dispute active"
     "Attorney Letter Received" "Rosenblum response" "2026-03-15"
     "Price letter opened 'service quality' door";
   seed "2966 Kirby Rd" "Car Wash (GX18)" 5000 "VERIFY"
     "Unknown" "TBD"
     "Research" "Verify if on Vanguard rolls" "2026-03-01"
     "Flagged in Wills spreadsheet - may not be covenant parcel"
  ].

(** The rows of [SEED_LOG] without the parcel (none) and the cost (0):
    action, sent via, response due, response received, next step,
    attorney, notes. *)
(** A row of [SEED_LOG]. *)
Record LogSeed : Type := log_seed {
  ls_parcel_id : option Z;
  ls_action : string;
  ls_sent_via : string;
  ls_response_due : string;
  ls_response_received : string;
  ls_next_step : string;
  ls_attorney : string;
  ls_cost : Z;
  ls_notes : string
}.

Definition SEED_LOG : list LogSeed :=
  [
   log_seed None "Enforcement tracker created — Vanguard/ARS system operational"
     "" "" "" "Finalize demand letters" "Rosenblum" 0 "";
   log_seed None "TARGET: All demands sent via certified mail" "USPS Certified"
     "2026-03-15" "" "Wait 15 days for response" "Rosenblum" 0
     "Declaration requires 15-day cure period"
  ].

(** The key [AUTOINCREMENT] gives the next row: one more than the largest
    there is (no row is ever deleted). *)
Definition next_id (m : gmap Z Parcel) : Z :=
  1 + map_fold (λ k _ acc, Z.max k acc) 0 m.

(** [INSERT INTO parcels (...) VALUES (...)]. *)
Definition insert_parcel (p : Parcel) : cmd () :=
  λ c, (Ok (),
        {| committed := committed c;
           session := {| parcels := <[next_id (parcels (session c)) := p]>
                                      (parcels (session c));
                         enforcement_log := enforcement_log (session c) |} |}).

(** The row [get_db] inserts for a seed; the columns it does not name
    are NULL. *)
Definition seed_row (s : Seed) : result Parcel :=
  pct ← Py.int_truediv (sd_sqft s) TOTAL_CAMPUS_SQFT;
  v ← bind_int (sd_sqft s);
  Ok {| sqft := Some v; pct_campus := bind_real pct;
        past_due_balance := None; weekly_rate := None;
        text := <["address" := sd_address s]>
                (<["business_name" := sd_business_name s]>
                (<["status" := sd_status s]>
                (<["entity_owner" := sd_entity_owner s]>
                (<["corporate_target" := sd_corporate_target s]>
                (<["enforcement_step" := sd_enforcement_step s]>
                (<["next_action" := sd_next_action s]>
                (<["deadline" := sd_deadline s]>
                (<["notes" := sd_notes s]> ∅)))))))) |}.

Fixpoint seed_parcels (seeds : list Seed) : cmd () :=
  match seeds with
  | [] => mret ()
  | s :: rest => p ← lift (seed_row s); _ ← insert_parcel p; seed_parcels rest
  end.

(** A key bound to [parcel_id]: [None] is NULL. *)
Definition bind_key (k : option Z) : result (option Z) :=
  match k with
  | None => Ok None
  | Some pid => v ← bind_int pid; Ok (Some v)
  end.

Fixpoint seed_log (now : string) (entries : list LogSeed) : cmd () :=
  match entries with
  | [] => mret ()
  | e :: rest =>
    parcel ← lift (bind_key (ls_parcel_id e));
    stored ← lift (stored_real (Py.PInt (ls_cost e)));
    _ ← insert_log {| parcel_id := parcel; timestamp := now;
                      action := [Txt (ls_action e)];
                      sent_via := Some (ls_sent_via e);
                      response_due := Some (ls_response_due e);
                      response_received := Some (ls_response_received e);
                      next_step := Some (ls_next_step e);
                      attorney := Some (ls_attorney e); cost := stored;
                      notes := Some (ls_notes e) |};
    seed_log now rest
  end.

(** What [get_db] does to a database that is new, once its tables are
    there: the parcels, the audit rows, the commit.  (The table of rates,
    which nothing reads, is left out.) *)
Definition seed_db (now : string) (seeds : list Seed) (entries : list LogSeed)
    : cmd () :=
  _ ← seed_parcels seeds; _ ← seed_log now entries; commit.

Definition empty_tables : Tables := {| parcels := ∅; enforcement_log := [] |}.
Definition empty_conn : Conn := {| committed := empty_tables; session := empty_tables |}.

(** The rows of a table have the keys from 1 to [k]. *)
Definition keys_to (k : Z) (m : gmap Z Parcel) : Prop :=
  next_id m = k + 1 ∧ ∀ j, is_Some (m !! j) → 1 ≤ j ≤ k.

(** A log seed of the whole campus, with a cost that can be stored. *)
Definition campus_wide (e : LogSeed) : Prop :=
  ls_parcel_id e = None ∧ in_int64 (ls_cost e) = true.

(** ** Sample rows with packets sent *)

(** A row whose packet went out on 2026-02-20. *)
Definition row_noticed : Parcel :=
  {| sqft := Some 7493; pct_campus := None;
     past_due_balance := Some 10509.98%float; weekly_rate := Some 99.9%float;
     text := list_to_map
       [("status", "DELINQUENT"); ("business_name", "Starbucks");
        ("certified_mail_tracking", "7019 1640 0000 1234 5678");
        ("date_packet_sent", "2026-02-20"); ("cure_deadline", "2026-03-22");
        ("lien_filing_date", "2026-04-06");
        ("attorney_referral_date", "2026-04-21")] |}.

(** A row whose packet went out on 2026-03-01. *)
Definition row_noticed_later : Parcel :=
  {| sqft := Some 58592; pct_campus := None;
     past_due_balance := None; weekly_rate := None;
     text := list_to_map
       [("status", "DISPUTED"); ("business_name", "Kroger");
        ("date_packet_sent", "2026-03-01"); ("cure_deadline", "2026-03-31");
        ("lien_filing_date", "2026-04-15");
        ("attorney_referral_date", "2026-04-30")] |}.

Definition tables_packets : Tables :=
  {| parcels := <[1 := row_noticed_later]>
                  (<[2 := row_noticed]> (<[3 := row_verify]> {[4 := row_billed 125.5]}));
     enforcement_log := [] |}.
Definition conn_packets : Conn :=
  {| committed := tables_packets; session := tables_packets |}.

(** A table where every parcel other than CURRENT has a business name, and
    one whose only parcel is CURRENT. *)
Definition tables_targets : Tables :=
  {| parcels := <[1 := row_noticed_later]> (<[2 := row_noticed]> {[3 := row_credit]});
     enforcement_log := [] |}.
Definition conn_targets : Conn :=
  {| committed := tables_targets; session := tables_targets |}.
Definition tables_current : Tables :=
  {| parcels := {[1 := row_credit]}; enforcement_log := [] |}.
Definition conn_current : Conn :=
  {| committed := tables_current; session := tables_current |}.

(* ================================================================= *)
(** * Properties *)

(** ** Doubles *)

Lemma float_lt_0_nonzero (b : float) :
  (b <? 0)%float = true → Py.float_nonzero b = true.
Proof.
  unfold Py.float_nonzero. rewrite FloatAxioms.ltb_spec, FloatAxioms.eqb_spec.
  unfold SFltb, SFeqb.
  destruct (SFcompare (Prim2SF b) (Prim2SF 0)) as [[]|]; simpl; congruence.
Qed.

(** ** Arrears *)

Lemma sqft_or_0_default (row : Parcel) :
  sqft_or_0 row = Py.PInt (default 0 (sqft row)).
Proof.
  unfold sqft_or_0. destruct (sqft row) as [z|]; simpl; [|done].
  destruct (Z.eqb_spec z 0); by subst.
Qed.

Lemma non_payer_true (st : option string) :
  non_payer st = true ↔ ∃ s, st = Some s ∧ s ∈ ["DELINQUENT"; "DISPUTED"; "RECON"].
Proof.
  unfold non_payer. destruct st as [s|].
  - rewrite bool_decide_eq_true. split.
    + intros Hin. by exists s.
    + by intros (s' & [= <-] & Hin).
  - split; [done|]. by intros (s & [=] & _).
Qed.

(** C1.  [get_arrears] returns a stored past-due balance that is neither
    NULL nor zero as it is, a negative one included.  With the balance
    NULL or zero it returns [historic_weekly(area) * 156] for a parcel whose
    status is DELINQUENT, DISPUTED or RECON, the area being the row's floor
    area (0 when that is NULL), and the integer 0 for any other status. *)
Theorem get_arrears_policy (row : Parcel) :
  (∀ b, past_due_balance row = Some b → (b =? 0)%float = false →
        get_arrears row = Ok (Py.PFloat b))
  ∧ (∀ b, past_due_balance row = Some b → (b <? 0)%float = true →
        get_arrears row = Ok (Py.PFloat b))
  ∧ (balance_unset row →
     ∀ s, status row = Some s → s ∈ ["DELINQUENT"; "DISPUTED"; "RECON"] →
        get_arrears row
        = (w ← calc_historic_weekly (Py.PInt (default 0 (sqft row)));
           Py.mul w (Py.PInt 156)))
  ∧ (balance_unset row →
     (∀ s, status row = Some s → s ∉ ["DELINQUENT"; "DISPUTED"; "RECON"]) →
        get_arrears row = Ok (Py.PInt 0)).
Proof.
  assert (Hset : ∀ b, past_due_balance row = Some b → Py.float_nonzero b = true →
                      get_arrears row = Ok (Py.PFloat b)).
  { intros b Hb Hnz. unfold get_arrears. by rewrite Hb, Hnz. }
  assert (Hunset : balance_unset row →
            get_arrears row
            = if non_payer (status row) then calc_arrears_36mo (sqft_or_0 row)
              else Ok (Py.PInt 0)).
  { intros [Hn | (b & Hb & Hz)]; unfold get_arrears.
    - by rewrite Hn.
    - rewrite Hb. unfold Py.float_nonzero. by rewrite Hz. }
  repeat split.
  - intros b Hb Hnz. apply Hset; [done|]. unfold Py.float_nonzero. by rewrite Hnz.
  - intros b Hb Hneg. apply Hset; [done|]. by apply float_lt_0_nonzero.
  - intros Hu s Hs Hin. rewrite (Hunset Hu).
    assert (non_payer (status row) = true) as -> by (apply non_payer_true; eauto).
    by rewrite sqft_or_0_default.
  - intros Hu Hout. rewrite (Hunset Hu).
    destruct (non_payer (status row)) eqn:Hnp; [|done].
    apply non_payer_true in Hnp as (s & Hs & Hin). by destruct (Hout s Hs).
Qed.

(** The policy on a credit balance, a delinquent parcel and one under
    verification. *)
Lemma get_arrears_policy_witness :
  get_arrears row_credit = Ok (Py.PFloat (-250.5))
  ∧ get_arrears row_delinquent = Ok (Py.PFloat 43718.105167871239)
  ∧ get_arrears row_verify = Ok (Py.PInt 0).
Proof.
  split; [|split].
  - apply (proj1 (proj2 (get_arrears_policy row_credit))); reflexivity.
  - rewrite (proj1 (proj2 (proj2 (get_arrears_policy row_delinquent)))
               (or_intror (ex_intro _ 0%float (conj eq_refl eq_refl)))
               "DELINQUENT" eq_refl (list_elem_of_here _ _)).
    vm_compute. reflexivity.
  - apply (proj2 (proj2 (proj2 (get_arrears_policy row_verify)))).
    + left. reflexivity.
    + intros s Hs Hin. vm_compute in Hs. injection Hs as <-.
      repeat (apply elem_of_cons in Hin as [Hin|Hin]; [discriminate|]).
      by apply elem_of_nil in Hin.
Defined.

(** ** Forward billing *)

(** C5, as worded, fails: the program multiplies by the literal 4.333,
    and 365.25/12/7 is another double, 4.3482142857142856; at a weekly
    rate of 9000 the two products are 38997 and 39133.928571428572. *)
Lemma forward_monthly_factor_counterexample :
  get_forward_monthly (row_billed 9000) = Ok (Py.PFloat 38997)
  ∧ Py.mul (Py.PFloat 9000) (Py.PFloat AVERAGE_WEEKS_PER_MONTH)
    = Ok (Py.PFloat 39133.928571428572)
  ∧ AVERAGE_WEEKS_PER_MONTH = 4.3482142857142856%float
  ∧ (4.333 =? AVERAGE_WEEKS_PER_MONTH)%float = false.
Proof. repeat split; vm_compute; reflexivity. Qed.

(** C5, amended.  Forward monthly billing is the weekly rate times the
    literal 4.333, the double 0x1.154fdf3b645a2p+2, in one rounded
    multiplication: for a row, whatever weekly rate [get_weekly] yields,
    and so for every non-zero stored rate; and for a floor area.  The
    quotient 365.25/12/7 is not used. *)
Theorem forward_monthly_multiplier :
  (∀ row w, get_weekly row = Ok (Py.PFloat w) →
     get_forward_monthly row = Ok (Py.PFloat (w * 4.333)))
  ∧ (∀ w, (w =? 0)%float = false →
     get_forward_monthly (row_billed w) = Ok (Py.PFloat (w * 4.333)))
  ∧ (∀ a w, calc_current_weekly a = Ok (Py.PFloat w) →
     calc_forward_monthly a = Ok (Py.PFloat (w * 4.333)))
  ∧ 4.333%float = 0x1.154fdf3b645a2p+2%float.
Proof.
  repeat split.
  - intros row w Hw. unfold get_forward_monthly. by rewrite Hw.
  - intros w Hw. unfold get_forward_monthly, get_weekly, Py.float_nonzero. simpl.
    by rewrite Hw.
  - intros a w Hw. unfold calc_forward_monthly. by rewrite Hw.
Qed.

(** The multiplier on a billed rate and on a floor area. *)
Lemma forward_monthly_multiplier_witness :
  get_forward_monthly (row_billed 415.55) = Ok (Py.PFloat (415.55 * 4.333))
  ∧ calc_forward_monthly (Py.PInt 31061) = Ok (Py.PFloat 1800.5848171150469).
Proof.
  split.
  - apply (proj1 (proj2 forward_monthly_multiplier)). reflexivity.
  - apply (proj1 (proj2 (proj2 forward_monthly_multiplier)) (Py.PInt 31061)
             415.55153868337106%float).
    vm_compute. reflexivity.
Defined.

(** ** Urgency of a deadline *)

Lemma days_left_same (d : Cal.date) : days_left d d = 0.
Proof. unfold days_left, Cal.days_between. lia. Qed.

(** C9.  A deadline is flagged overdue when its days left are negative,
    urgent from 0 to 7, soon from 8 to 14 and not at all above 14; a
    deadline that falls today has 0 days left and is urgent. *)
Theorem urgency_classification :
  (∀ days, days < 0 → urgency_flag days = Overdue)
  ∧ (∀ days, 0 ≤ days ≤ 7 → urgency_flag days = Urgent)
  ∧ (∀ days, 8 ≤ days ≤ 14 → urgency_flag days = Soon)
  ∧ (∀ days, 14 < days → urgency_flag days = Normal)
  ∧ (∀ d, days_left d d = 0 ∧ urgency_flag (days_left d d) = Urgent).
Proof.
  unfold urgency_flag. repeat split; intros;
    rewrite ?days_left_same;
    repeat case_match; try reflexivity; lia.
Qed.

(** The flags at the ends of the ranges and on the day itself. *)
Lemma urgency_classification_witness :
  urgency_flag (-1) = Overdue ∧ urgency_flag 7 = Urgent
  ∧ urgency_flag 8 = Soon ∧ urgency_flag 15 = Normal
  ∧ urgency_flag (days_left (Cal.Date 2026 3 2) (Cal.Date 2026 3 2)) = Urgent.
Proof.
  destruct urgency_classification as (H1 & H2 & H3 & H4 & H5).
  split; [apply H1; lia|].
  split; [apply H2; lia|].
  split; [apply H3; lia|].
  split; [apply H4; lia|].
  apply H5.
Defined.

(** The summary counts of the view split the deadlines by the same flags. *)
Lemma summary_counts_by_flag (d : Z) :
  ((d <? 0) = true ↔ urgency_flag d = Overdue)
  ∧ ((0 <=? d) && (d <=? 7) = true ↔ urgency_flag d = Urgent)
  ∧ ((7 <? d) && (d <=? 14) = true ↔ urgency_flag d = Soon)
  ∧ ((14 <? d) = true ↔ urgency_flag d = Normal).
Proof.
  unfold urgency_flag.
  destruct (Z.ltb_spec d 0), (Z.leb_spec d 7), (Z.leb_spec d 14),
    (Z.leb_spec 0 d), (Z.ltb_spec 7 d), (Z.ltb_spec 14 d);
    simpl; repeat split; intros; try done; lia.
Qed.

(** ** True division *)

Lemma int_truediv_exn (a b : Z) (e : exn) :
  Py.int_truediv a b = Raise e →
  (b = 0 ∧ e = ZeroDivisionError) ∨ (b ≠ 0 ∧ e = OverflowError).
Proof.
  unfold Py.int_truediv. destruct (Z.eqb_spec b 0) as [->|Hb].
  - intros [= <-]. by left.
  - repeat case_match; intros [= <-]. by right.
Qed.

(** ** Settlement *)

Lemma float_of_int_exn (z : Z) (e : exn) :
  Py.float_of_int z = Raise e → e = OverflowError.
Proof. unfold Py.float_of_int. case_match; by intros [= <-]. Qed.

Lemma to_float_exn (x : Py.pynum) (e : exn) :
  Py.to_float x = Raise e → e = OverflowError.
Proof. destruct x; simpl; [apply float_of_int_exn | done]. Qed.

Lemma arith_exn iop fop (x y : Py.pynum) (e : exn) :
  Py.arith iop fop x y = Raise e → e = OverflowError.
Proof.
  unfold Py.arith.
  destruct x as [a|a], y as [b|b]; simpl; try done;
    repeat match goal with
    | |- context [Py.float_of_int ?z] =>
        let E := fresh in
        destruct (Py.float_of_int z) eqn:E; simpl;
        [| apply float_of_int_exn in E; subst; by intros [= <-]]
    end; done.
Qed.

(** A term of zero months divided by twelve is a double, never an error. *)
Lemma truediv_falsy_12 (t : Py.pynum) :
  Py.truthy t = false → ∃ y, Py.truediv t (Py.PInt 12) = Ok (Py.PFloat y).
Proof.
  destruct t as [z|f]; simpl.
  - rewrite negb_false_iff. intros ->%Z.eqb_eq. by eexists.
  - intros _. by eexists.
Qed.

#[local] Arguments Py.arith : simpl never.

(** One arithmetic step of a computation: its value, or [OverflowError]. *)
Ltac step_arith E :=
  match goal with
  | |- context [Py.arith ?i ?f ?x ?y] =>
      destruct (Py.arith i f x y) eqn:E; simpl;
      [| apply arith_exn in E; subst ]
  end.

(** C8.  With a term of zero months [calc_settlement] never raises a
    division error, and whatever it returns carries the integer 0 as both
    monthly payments; on a principal, a discount and an interest rate that
    are doubles it does return, with the other figures as the formulas give
    them, and so it does on the integer 0 that [get_arrears] yields for a
    parcel that owes nothing. *)
Theorem settlement_zero_term :
  (∀ principal discount_pct interest_rate term_months,
     Py.truthy term_months = false →
     calc_settlement principal discount_pct interest_rate term_months
       ≠ Raise ZeroDivisionError
     ∧ ∀ r, calc_settlement principal discount_pct interest_rate term_months = Ok r →
            monthly_no_interest r = Py.PInt 0
            ∧ monthly_with_interest r = Py.PInt 0)
  ∧ (∀ p d i : float,
       calc_settlement (Py.PFloat p) (Py.PFloat d) (Py.PFloat i) (Py.PInt 0)
       = Ok {| settled_amount := Py.PFloat (p * (1 - d));
               monthly_no_interest := Py.PInt 0;
               total_with_interest := Py.PFloat (p * (1 - d) * (1 + i * 0));
               monthly_with_interest := Py.PInt 0;
               savings_vs_full := Py.PFloat (p - p * (1 - d));
               savings_pct := Py.PFloat d;
               savings_vs_litigation :=
                 Py.PFloat (p * 1.40 - p * (1 - d) * (1 + i * 0)) |})
  ∧ (∀ d i : float,
       is_ok (calc_settlement (Py.PInt 0) (Py.PFloat d) (Py.PFloat i) (Py.PInt 0))
       = true).
Proof.
  split; [|split; [|reflexivity]].
  - intros p d i t Ht. unfold calc_settlement. rewrite Ht.
    destruct (truediv_falsy_12 t Ht) as [y Hy]. rewrite Hy.
    unfold Py.sub, Py.mul, Py.add. simpl.
    repeat (let E := fresh "E" in step_arith E).
    all: split; [done|]; intros r Hr; try discriminate; by injection Hr as <-.
  - intros p d i. reflexivity.
Qed.

(** A settlement of 100000 over no months. *)
Lemma settlement_zero_term_witness :
  ∃ r, calc_settlement (Py.PFloat 100000) (Py.PFloat 0.35) (Py.PFloat 0.02)
         (Py.PInt 0) = Ok r
       ∧ monthly_no_interest r = Py.PInt 0
       ∧ monthly_with_interest r = Py.PInt 0.
Proof.
  destruct (calc_settlement (Py.PFloat 100000) (Py.PFloat 0.35) (Py.PFloat 0.02)
              (Py.PInt 0)) as [r|e] eqn:E; [|vm_compute in E; discriminate].
  exists r. split; [reflexivity|].
  exact (proj2 (proj1 settlement_zero_term _ _ _ (Py.PInt 0) eq_refl) r E).
Defined.

(** C4, as worded, fails at a term of zero months: the monthly payments
    are the integer 0, where [settled / term_months] is a division by
    zero. *)
Lemma settlement_monthly_counterexample :
  figures_of <$> calc_settlement (Py.PInt 100000) (Py.PFloat 0.35)
                   (Py.PFloat 0.02) (Py.PInt 0)
  = Ok (Py.PFloat 65000, Py.PInt 0, Py.PFloat 65000, Py.PInt 0,
        Py.PFloat 35000, Py.PFloat 75000)
  ∧ settlement_formulas (Py.PInt 100000) (Py.PFloat 0.35) (Py.PFloat 0.02)
      (Py.PInt 0)
    = Raise ZeroDivisionError.
Proof. split; vm_compute; reflexivity. Qed.

(** C4, amended.  For a term that is not zero, [calc_settlement] computes
    settled amount, monthly payments, total with interest and the two
    savings by the formulas of the specification, raising what they raise;
    the litigation estimate [principal * 1.40] enters the savings against
    litigation and is not itself returned, the discount is returned as
    [savings_pct].  On (100000, 0.35, 0.02, 36) the figures are the doubles
    65000, 68900, 35000 and 71100, and the monthly payments
    1805.5555555555557 and 1913.8888888888889, within half a cent of
    1805.56 and 1913.89. *)
Theorem settlement_figures :
  (∀ principal discount_pct interest_rate term_months,
     Py.truthy term_months = true →
     figures_of <$> calc_settlement principal discount_pct interest_rate term_months
     = settlement_formulas principal discount_pct interest_rate term_months)
  ∧ (∀ principal discount_pct interest_rate term_months r,
       calc_settlement principal discount_pct interest_rate term_months = Ok r →
       savings_pct r = discount_pct)
  ∧ calc_settlement (Py.PInt 100000) (Py.PFloat 0.35) (Py.PFloat 0.02) (Py.PInt 36)
    = Ok {| settled_amount := Py.PFloat 65000;
            monthly_no_interest := Py.PFloat 1805.5555555555557;
            total_with_interest := Py.PFloat 68900;
            monthly_with_interest := Py.PFloat 1913.8888888888889;
            savings_vs_full := Py.PFloat 35000;
            savings_pct := Py.PFloat 0.35;
            savings_vs_litigation := Py.PFloat 71100 |}
  ∧ Py.mul (Py.PInt 100000) (Py.PFloat 1.40) = Ok (Py.PFloat 140000)
  ∧ (abs (1805.5555555555557 - 1805.56) <? 0.005)%float = true
  ∧ (abs (1913.8888888888889 - 1913.89) <? 0.005)%float = true.
Proof.
  split; [|split; [|repeat split]].
  - intros p d i t Ht. unfold calc_settlement, settlement_formulas. rewrite Ht.
    unfold Py.sub, Py.mul, Py.add.
    repeat match goal with
    | |- context [Py.arith ?i ?f ?x ?y] => destruct (Py.arith i f x y); simpl
    | |- context [Py.truediv ?x ?y] => destruct (Py.truediv x y); simpl
    end; reflexivity.
  - intros p d i t r. unfold calc_settlement.
    unfold Py.sub, Py.mul, Py.add.
    repeat match goal with
    | |- context [Py.arith ?i ?f ?x ?y] => destruct (Py.arith i f x y); simpl
    | |- context [Py.truediv ?x ?y] => destruct (Py.truediv x y); simpl
    | |- context [Py.truthy ?x] => destruct (Py.truthy x); simpl
    end; try discriminate; by intros [= <-].
Qed.

(** The formulas on the arrears of the sample parcel over 36 months. *)
Lemma settlement_figures_witness :
  figures_of <$> calc_settlement (Py.PFloat 43718.105167871239) (Py.PFloat 0.35)
                   (Py.PFloat 0.02) (Py.PInt 36)
  = settlement_formulas (Py.PFloat 43718.105167871239) (Py.PFloat 0.35)
      (Py.PFloat 0.02) (Py.PInt 36).
Proof. apply (proj1 settlement_figures). reflexivity. Defined.

(** ** Quotients are numbers *)

Lemma shr_1_nonneg (mrs : shr_record) : 0 ≤ shr_m mrs → 0 ≤ shr_m (shr_1 mrs).
Proof.
  destruct mrs as [m r s]. simpl.
  destruct m as [|p|p]; [done | | lia]. intros _. by destruct p.
Qed.

Lemma iter_shr_1_nonneg (p : positive) (mrs : shr_record) :
  0 ≤ shr_m mrs → 0 ≤ shr_m (SpecFloat.iter_pos shr_1 p mrs).
Proof.
  revert mrs. induction p as [p IH|p IH|]; intros mrs H; simpl.
  - apply IH, IH. by apply shr_1_nonneg.
  - by apply IH, IH.
  - by apply shr_1_nonneg.
Qed.

Lemma shr_fexp_nonneg (m e : Z) (l : location) :
  0 ≤ m → 0 ≤ shr_m (fst (shr_fexp prec emax m e l)).
Proof.
  intros Hm. unfold shr_fexp, shr.
  assert (0 ≤ shr_m (shr_record_of_loc m l)) by (by destruct l as [|[]]).
  case_match; simpl; try done. by apply iter_shr_1_nonneg.
Qed.

Lemma round_nearest_even_nonneg (m : Z) (l : location) :
  0 ≤ m → 0 ≤ round_nearest_even m l.
Proof. destruct l as [|[]]; simpl; try case_match; lia. Qed.

Lemma binary_round_aux_not_nan (s : bool) (m e : Z) (l : location) :
  0 ≤ m → binary_round_aux prec emax s m e l ≠ S754_nan.
Proof.
  intros Hm. unfold binary_round_aux.
  pose proof (shr_fexp_nonneg m e l Hm) as H1.
  destruct (shr_fexp prec emax m e l) as [mrs' e']. simpl in H1.
  pose proof (shr_fexp_nonneg _ e' loc_Exact
                (round_nearest_even_nonneg _ (loc_of_shr_record mrs') H1)) as H2.
  destruct (shr_fexp prec emax _ e' loc_Exact) as [mrs'' e'']. simpl in H2.
  destruct (shr_m mrs''); [done | by case_match | lia].
Qed.

Lemma binary_normalize_not_nan (m e : Z) (s : bool) :
  binary_normalize prec emax m e s ≠ S754_nan.
Proof.
  destruct m as [|p|p]; simpl; [done | |];
    unfold binary_round; case_match; by apply binary_round_aux_not_nan.
Qed.

Lemma SFeqb_refl (x : spec_float) : x ≠ S754_nan → SFeqb x x = true.
Proof.
  unfold SFeqb. destruct x as [s|s| |s m e]; simpl; try done.
  - by destruct s.
  - intros _. destruct s; rewrite Z.compare_refl, Pos.compare_cont_refl; done.
Qed.

Lemma is_nan_false (x : float) : Prim2SF x ≠ S754_nan → is_nan x = false.
Proof.
  intros H. unfold is_nan. rewrite FloatAxioms.eqb_spec, SFeqb_refl; done.
Qed.

Lemma SFopp_not_nan (x : spec_float) : x ≠ S754_nan → SFopp x ≠ S754_nan.
Proof. by destruct x. Qed.

Lemma of_uint63_not_nan (n : int) : Prim2SF (of_uint63 n) ≠ S754_nan.
Proof. rewrite of_uint63_spec. apply binary_normalize_not_nan. Qed.

Lemma Z_to_float_small_not_nan (z : Z) :
  Py.is_small z = true → Prim2SF (Py.Z_to_float z) ≠ S754_nan.
Proof.
  intros Hs. unfold Py.Z_to_float. rewrite Hs. case_match.
  - rewrite opp_spec. apply SFopp_not_nan, of_uint63_not_nan.
  - apply of_uint63_not_nan.
Qed.

Lemma SFdiv_core_nonneg (m1 e1 m2 e2 : Z) :
  0 ≤ m1 → 0 < m2 → 0 ≤ fst (fst (SFdiv_core_binary prec emax m1 e1 m2 e2)).
Proof.
  intros H1 H2. unfold SFdiv_core_binary.
  set (s := _ - _ - _).
  set (m' := match s with Z0 => m1 | Z.pos _ => Z.shiftl m1 s | Z.neg _ => 0 end).
  assert (0 ≤ m') as Hm'.
  { subst m'. destruct s; [done | | done]. by apply Z.shiftl_nonneg. }
  pose proof (Z.div_pos m' m2 Hm' H2) as Hq.
  unfold Z.div in Hq. by destruct (Z.div_eucl m' m2).
Qed.

(** A quotient of doubles is a NaN only from a NaN, from two infinities or
    from two zeros. *)
Lemma SFdiv_finite_not_nan (x : spec_float) (s : bool) (m : positive) (e : Z) :
  x ≠ S754_nan → SFdiv prec emax x (S754_finite s m e) ≠ S754_nan.
Proof.
  destruct x as [sx|sx| |sx mx ex]; simpl; try done. intros _.
  pose proof (SFdiv_core_nonneg (Z.pos mx) ex (Z.pos m) e) as H.
  destruct (SFdiv_core_binary prec emax (Z.pos mx) ex (Z.pos m) e) as [[q e'] l].
  apply binary_round_aux_not_nan. by apply H.
Qed.

Lemma rounded_quotient_not_nan (a b : Z) :
  b ≠ 0 → Py.rounded_quotient a b ≠ S754_nan.
Proof.
  intros Hb. unfold Py.rounded_quotient.
  destruct a as [|p|p]; [done | |];
    match goal with
    | |- context [SFdiv_core_binary prec emax ?x 0 ?y 0] =>
        pose proof (SFdiv_core_nonneg x 0 y 0) as H;
        destruct (SFdiv_core_binary prec emax x 0 y 0) as [[q e'] l];
        apply binary_round_aux_not_nan, H; lia
    end.
Qed.

Lemma SF2Prim_not_nan (x : spec_float) :
  x ≠ S754_nan → Prim2SF (SF2Prim x) ≠ S754_nan.
Proof.
  destruct x as [[]|[]| |s m e]; intros Hx;
    [by vm_compute; intros [=] | by vm_compute; intros [=]
    | by vm_compute; intros [=] | by vm_compute; intros [=] | done |].
  unfold SF2Prim.
  assert (Prim2SF (Z.ldexp (of_uint63 (of_Z (Z.pos m))) e) ≠ S754_nan) as H.
  { rewrite Z_ldexp_spec. pose proof (of_uint63_not_nan (of_Z (Z.pos m))) as H.
    destruct (Prim2SF (of_uint63 (of_Z (Z.pos m)))) as [| | |s' m' e']; try done.
    simpl. unfold binary_round. case_match.
    by apply binary_round_aux_not_nan. }
  destruct s; [rewrite opp_spec; by apply SFopp_not_nan | done].
Qed.

(** The campus share of an area is never a NaN. *)
Lemma int_truediv_total_not_nan (a : Z) (pct : float) :
  Py.int_truediv a TOTAL_CAMPUS_SQFT = Ok pct → is_nan pct = false.
Proof.
  unfold Py.int_truediv.
  change (TOTAL_CAMPUS_SQFT =? 0) with false. cbv iota.
  change (Py.is_small TOTAL_CAMPUS_SQFT) with true. rewrite andb_true_r.
  destruct (Py.is_small a) eqn:Hs.
  - intros [= <-]. apply is_nan_false. rewrite div_spec.
    set (y := Prim2SF (Py.Z_to_float TOTAL_CAMPUS_SQFT)).
    vm_compute in y. subst y.
    by apply SFdiv_finite_not_nan, Z_to_float_small_not_nan.
  - case_match; [done|]. intros [= <-].
    apply is_nan_false, SF2Prim_not_nan, rounded_quotient_not_nan. done.
Qed.

Lemma bind_real_share (a : Z) (pct : float) :
  Py.int_truediv a TOTAL_CAMPUS_SQFT = Ok pct → bind_real pct = Some pct.
Proof.
  intros H. unfold bind_real. by rewrite (int_truediv_total_not_nan a pct H).
Qed.

(** Every area that fits 64 bits has a campus share. *)
Lemma int_truediv_total_int64 (a : Z) :
  - 2 ^ 63 ≤ a < 2 ^ 63 → ∃ pct, Py.int_truediv a TOTAL_CAMPUS_SQFT = Ok pct.
Proof.
  intros Ha. unfold Py.int_truediv.
  change (TOTAL_CAMPUS_SQFT =? 0) with false. cbv iota.
  destruct (_ && _); [by eexists|].
  assert ((Py.DBL_OVERFLOW * Z.abs TOTAL_CAMPUS_SQFT <=? Z.abs a) = false) as ->.
  { apply Z.leb_gt.
    assert (2 ^ 63 < Py.DBL_OVERFLOW * Z.abs TOTAL_CAMPUS_SQFT)
      by (apply Z.ltb_lt; by vm_compute).
    lia. }
  by eexists.
Qed.

(** ** Linearity of proration *)

Lemma all_in_range_spec (n : nat) (lo : Z) (P : Z → bool) :
  all_in_range n lo P = true → ∀ a, lo ≤ a < lo + 2 ^ Z.of_nat n → P a = true.
Proof.
  revert lo. induction n as [|n IH]; intros lo H a Ha.
  - simpl in *. by assert (a = lo) as -> by lia.
  - simpl in H. apply andb_true_iff in H as [H1 H2].
    rewrite Nat2Z.inj_succ, Z.pow_succ_r in Ha by lia.
    destruct (Z.lt_ge_cases a (lo + 2 ^ Z.of_nat n)).
    + apply (IH lo H1). lia.
    + apply (IH _ H2). lia.
Qed.

Lemma calc_current_weekly_small (a : Z) :
  0 ≤ a ≤ TOTAL_CAMPUS_SQFT →
  calc_current_weekly (Py.PInt a) = Ok (Py.PFloat (weekly_of a)).
Proof.
  intros Ha. unfold calc_current_weekly, calc_pct, pct_of. simpl.
  unfold Py.int_truediv.
  change (TOTAL_CAMPUS_SQFT =? 0) with false. cbv iota.
  assert (Py.is_small a = true) as Hs.
  { unfold Py.is_small, Py.TWO_53, TOTAL_CAMPUS_SQFT in *. apply Z.ltb_lt. lia. }
  rewrite Hs. change (Py.is_small TOTAL_CAMPUS_SQFT) with true. simpl.
  unfold Py.Z_to_float at 1. rewrite Hs.
  assert ((a <? 0) = false) as -> by (apply Z.ltb_ge; lia).
  reflexivity.
Qed.

Lemma linear_sweep :
  all_in_range 20 0
    (λ a, if a <=? TOTAL_CAMPUS_SQFT then linear_within_ulp a else true) = true.
Proof. vm_compute. reflexivity. Qed.

(** C7, as worded, fails: at 10 square feet the two weekly charges add up
    to 8999.9999999999982, the double just below the 9000 charged for the
    whole campus. *)
Lemma current_weekly_linearity_counterexample :
  weekly_sum 10 = Ok (Py.PFloat 8999.9999999999982)
  ∧ calc_current_weekly (Py.PInt TOTAL_CAMPUS_SQFT) = Ok (Py.PFloat 9000)
  ∧ (8999.9999999999982 =? 9000)%float = false.
Proof. repeat split; vm_compute; reflexivity. Qed.

(** C7, amended.  For every floor area [a] from 0 to the campus total, the
    weekly charges of [a] and of the rest of the campus add up to the
    charge of the whole campus, 9000, to within 2^-39 (one unit in the last
    place of 9000, about 1.8e-12); the sum is exactly 9000 for some areas
    and not for others. *)
Theorem current_weekly_linear_within_ulp (a : Z) :
  0 ≤ a ≤ TOTAL_CAMPUS_SQFT →
  ∃ x y,
    calc_current_weekly (Py.PInt a) = Ok (Py.PFloat x)
    ∧ calc_current_weekly (Py.PInt (TOTAL_CAMPUS_SQFT - a)) = Ok (Py.PFloat y)
    ∧ calc_current_weekly (Py.PInt TOTAL_CAMPUS_SQFT) = Ok (Py.PFloat 9000)
    ∧ weekly_sum a = Ok (Py.PFloat (x + y))
    ∧ (abs (x + y - 9000) <=? 0x1p-39)%float = true.
Proof.
  intros Ha.
  assert (calc_current_weekly (Py.PInt (TOTAL_CAMPUS_SQFT - a))
          = Ok (Py.PFloat (weekly_of (TOTAL_CAMPUS_SQFT - a)))) as Hy
    by (apply calc_current_weekly_small; lia).
  exists (weekly_of a), (weekly_of (TOTAL_CAMPUS_SQFT - a)).
  split; [by apply calc_current_weekly_small|].
  split; [done|].
  split; [reflexivity|].
  split.
  - unfold weekly_sum. rewrite (calc_current_weekly_small a Ha), Hy. reflexivity.
  - pose proof (all_in_range_spec _ _ _ linear_sweep a) as H.
    cbv beta in H.
    assert ((a <=? TOTAL_CAMPUS_SQFT) = true) as Hle by (apply Z.leb_le; lia).
    rewrite Hle in H. apply H.
    unfold TOTAL_CAMPUS_SQFT in Ha. change (2 ^ Z.of_nat 20) with 1048576. lia.
Qed.

(** The two charges for 31061 square feet and the rest of the campus. *)
Lemma current_weekly_linear_within_ulp_witness :
  ∃ x y,
    calc_current_weekly (Py.PInt 31061) = Ok (Py.PFloat x)
    ∧ calc_current_weekly (Py.PInt (TOTAL_CAMPUS_SQFT - 31061)) = Ok (Py.PFloat y)
    ∧ calc_current_weekly (Py.PInt TOTAL_CAMPUS_SQFT) = Ok (Py.PFloat 9000)
    ∧ weekly_sum 31061 = Ok (Py.PFloat (x + y))
    ∧ (abs (x + y - 9000) <=? 0x1p-39)%float = true.
Proof. apply current_weekly_linear_within_ulp. unfold TOTAL_CAMPUS_SQFT. lia. Defined.

(** ** Statements on a connection *)

Lemma cmd_bind_unfold {A B} (m : cmd A) (f : A → cmd B) (c : Conn) :
  (m ≫= f) c
  = match m c with
    | (Ok a, c') => f a c'
    | (Raise e, c') => (Raise e, c')
    end.
Proof. reflexivity. Qed.

Lemma bind_lift_ok {A B} (a : A) (f : A → cmd B) (c : Conn) :
  (lift (Ok a) ≫= f) c = f a c.
Proof. reflexivity. Qed.

Lemma bind_lift_raise {A B} (e : exn) (f : A → cmd B) (c : Conn) :
  (lift (Raise e) ≫= f) c = (Raise e, c).
Proof. reflexivity. Qed.

Lemma execute_area_update_run (pid v : Z) (pct : float) (c : Conn) :
  execute_area_update pid v pct c
  = if in_int64 v then update_parcels pid (set_area v (bind_real pct)) c
    else (Raise OverflowError, c).
Proof.
  unfold execute_area_update. rewrite cmd_bind_unfold.
  unfold lift, bind_int. by destruct (in_int64 v).
Qed.

Lemma alter_lookup_insert (f : Parcel → Parcel) (pid : Z) (p : Parcel)
    (m : gmap Z Parcel) :
  m !! pid = Some p → alter f pid m = <[pid := f p]> m.
Proof.
  intros Hp. apply map_eq. intros j. destruct (decide (j = pid)) as [->|Hne].
  - by rewrite lookup_alter_eq, lookup_insert_eq, Hp.
  - by rewrite lookup_alter_ne, lookup_insert_ne.
Qed.

(** An update of an existing row followed by its audit row and the commit. *)
Lemma update_log_commit {A} (a : A) (pid : Z) (p : Parcel) (f : Parcel → Parcel)
    (e : LogEntry) (c : Conn) :
  parcels (session c) !! pid = Some p → parcel_id e = Some pid →
  ∃ c', (_ ← update_parcels pid f; _ ← insert_log e; _ ← commit; mret a) c
        = (Ok a, c')
        ∧ written c c' pid (f p).
Proof.
  intros Hp He. eexists. split.
  - rewrite cmd_bind_unfold. unfold update_parcels at 1. cbv iota beta.
    rewrite cmd_bind_unfold. unfold insert_log at 1. rewrite He. cbn [session parcels].
    rewrite bool_decide_eq_true_2
      by (rewrite lookup_alter_eq, Hp; by eexists).
    cbv iota beta. reflexivity.
  - repeat split; cbn [session committed parcels enforcement_log].
    + by apply alter_lookup_insert.
    + by eexists.
Qed.

Lemma field_map_numeric :
  assoc "9" field_map = Some ("sqft", "Square Footage", None)
  ∧ assoc "10" field_map = Some ("past_due_balance", "Past Due Balance", None)
  ∧ assoc "11" field_map = Some ("weekly_rate", "Weekly Rate", None).
Proof. repeat split; vm_compute; reflexivity. Qed.

(** [update_parcel] up to the choice of the field. *)
Lemma update_parcel_choice (now pid_in choice sel : string) (pid : Z)
    (p : Parcel) (c : Conn) :
  Str.py_int pid_in = Some pid →
  parcels (session c) !! pid = Some p →
  update_parcel now pid_in choice sel c
  = match assoc choice field_map with
    | None => (Ok Cancelled, c)
    | Some (field, label, options) =>
      let value := chosen_value options sel in
      let log (v : piece) : cmd outcome :=
        _ ← insert_log (change_entry now pid
               [Txt "Updated "; Txt label; Txt " to: "; v] "Changed by user");
        _ ← commit;
        mret Updated in
      (if bool_decide (field = "sqft") then
        match Str.py_int (Str.remove_char "," value) with
        | None => mret InvalidNumber
        | Some value =>
          pct ← lift (Py.int_truediv value TOTAL_CAMPUS_SQFT);
          _ ← execute_area_update pid value pct;
          log (Num (Py.PInt value))
        end
      else if bool_decide (field = "past_due_balance") then
        match Str.py_float (Str.remove_char "," (Str.remove_char "$" value)) with
        | None => mret InvalidNumber
        | Some value =>
          _ ← update_parcels pid (set_past_due_balance (bind_real value));
          log (Num (Py.PFloat value))
        end
      else if bool_decide (field = "weekly_rate") then
        match Str.py_float (Str.remove_char "," (Str.remove_char "$" value)) with
        | None => mret InvalidNumber
        | Some value =>
          _ ← update_parcels pid (set_weekly_rate (bind_real value));
          log (Num (Py.PFloat value))
        end
      else
        _ ← update_parcels pid (λ p, set_text (<[field := value]> (text p)) p);
        log (Txt value)) c
    end.
Proof.
  intros Hpid Hp. unfold update_parcel. rewrite Hpid.
  rewrite cmd_bind_unfold. unfold select_parcel at 1. cbv iota beta. rewrite Hp.
  destruct (assoc choice field_map) as [[[field label] options]|]; reflexivity.
Qed.

(** The square-footage field of [update_parcel], by what was typed. *)
Lemma update_parcel_area (now pid_in sel : string) (pid : Z) (p : Parcel)
    (c : Conn) :
  Str.py_int pid_in = Some pid →
  parcels (session c) !! pid = Some p →
  match Str.py_int (Str.remove_char "," sel) with
  | None => update_parcel now pid_in "9" sel c = (Ok InvalidNumber, c)
  | Some v =>
    if in_int64 v then
      ∃ pct c',
        calc_pct (Py.PInt v) = Ok (Py.PFloat pct)
        ∧ update_parcel now pid_in "9" sel c = (Ok Updated, c')
        ∧ written c c' pid (set_area v (Some pct) p)
    else update_parcel now pid_in "9" sel c = (Raise OverflowError, c)
  end.
Proof.
  intros Hpid Hp.
  rewrite (update_parcel_choice now pid_in "9" sel pid p c Hpid Hp).
  rewrite (proj1 field_map_numeric). cbn [chosen_value]. cbv zeta.
  rewrite bool_decide_eq_true_2 by done.
  destruct (Str.py_int (Str.remove_char "," sel)) as [v|]; [|reflexivity].
  destruct (in_int64 v) eqn:Hv.
  - destruct (int_truediv_total_int64 v) as [pct Hpct].
    { unfold in_int64 in Hv. lia. }
    rewrite Hpct, bind_lift_ok. exists pct.
    destruct (update_log_commit Updated pid p (set_area v (Some pct))
                (change_entry now pid
                   [Txt "Updated "; Txt "Square Footage"; Txt " to: ";
                    Num (Py.PInt v)] "Changed by user") c Hp eq_refl)
      as (c' & Hrun & Hw).
    exists c'. split; [|split; [|done]].
    + unfold calc_pct, pct_of. simpl. by rewrite Hpct.
    + rewrite <- Hrun, !cmd_bind_unfold, execute_area_update_run, Hv.
      by rewrite (bind_real_share v pct Hpct).
  - destruct (Py.int_truediv v TOTAL_CAMPUS_SQFT) as [pct|e] eqn:Hpct.
    + by rewrite bind_lift_ok, cmd_bind_unfold, execute_area_update_run, Hv.
    + rewrite bind_lift_raise.
      apply int_truediv_exn in Hpct as [[? _]|[_ ->]]; done.
Qed.

(** C3, as worded, fails: 9223372036854775808 parses as an integer, and
    the command raises [OverflowError] when the area is bound to the
    [UPDATE]; the parcel keeps its 31061 square feet and the log stays
    empty. *)
Lemma update_parcel_area_overflow_counterexample :
  Str.py_int "9223372036854775808" = Some 9223372036854775808
  ∧ update_parcel "2026-03-02 09:00:00" "10" "9" "9223372036854775808" conn_sample
    = (Raise OverflowError, conn_sample)
  ∧ (sqft <$> parcels (committed conn_sample) !! 10) = Some (Some 31061)
  ∧ enforcement_log (committed conn_sample) = [].
Proof. repeat split; vm_compute; reflexivity. Qed.

(** C3, amended.  For a parcel that exists, [update_parcel] on a numeric
    field either changes the row and appends one audit row, both in the one
    commit, or leaves the connection as it was.  Text that does not parse as
    a number: nothing changes, "Invalid number.".  A past-due balance or
    weekly rate that parses: the field holds what the parameter binding
    stores of it (a NaN is stored as NULL).  An area that parses and fits a
    signed 64-bit integer: the area and its campus share are set.  An area
    that parses and does not fit: [OverflowError], nothing changes. *)
Theorem update_parcel_atomic (now pid_in sel : string) (pid : Z) (p : Parcel)
    (c : Conn) :
  Str.py_int pid_in = Some pid →
  parcels (session c) !! pid = Some p →
  match Str.py_int (Str.remove_char "," sel) with
  | None => update_parcel now pid_in "9" sel c = (Ok InvalidNumber, c)
  | Some v =>
    if in_int64 v then
      ∃ pct c',
        calc_pct (Py.PInt v) = Ok (Py.PFloat pct)
        ∧ update_parcel now pid_in "9" sel c = (Ok Updated, c')
        ∧ written c c' pid (set_area v (Some pct) p)
    else update_parcel now pid_in "9" sel c = (Raise OverflowError, c)
  end
  ∧ match Str.py_float (Str.remove_char "," (Str.remove_char "$" sel)) with
    | None =>
      update_parcel now pid_in "10" sel c = (Ok InvalidNumber, c)
      ∧ update_parcel now pid_in "11" sel c = (Ok InvalidNumber, c)
    | Some v =>
      (∃ c', update_parcel now pid_in "10" sel c = (Ok Updated, c')
             ∧ written c c' pid (set_past_due_balance (bind_real v) p))
      ∧ (∃ c', update_parcel now pid_in "11" sel c = (Ok Updated, c')
               ∧ written c c' pid (set_weekly_rate (bind_real v) p))
    end.
Proof.
  intros Hpid Hp.
  destruct field_map_numeric as (F9 & F10 & F11).
  split; [by apply update_parcel_area|].
  rewrite !(λ ch, update_parcel_choice now pid_in ch sel pid p c Hpid Hp).
  rewrite F10, F11. cbn [chosen_value]. cbv zeta.
  rewrite !(bool_decide_eq_false_2 ("past_due_balance" = "sqft")) by done.
  rewrite !(bool_decide_eq_false_2 ("weekly_rate" = "sqft")) by done.
  rewrite !(bool_decide_eq_false_2 ("weekly_rate" = "past_due_balance")) by done.
  rewrite !bool_decide_eq_true_2 by done.
  destruct (Str.py_float (Str.remove_char "," (Str.remove_char "$" sel))) as [v|].
  - split.
    + by apply (update_log_commit Updated pid p (set_past_due_balance (bind_real v))).
    + by apply (update_log_commit Updated pid p (set_weekly_rate (bind_real v))).
  - done.
Qed.

(** Four entries on the sample parcel: an area, a word, a balance, a
    placeholder. *)
Lemma update_parcel_atomic_witness :
  (∃ pct c',
     calc_pct (Py.PInt 40000) = Ok (Py.PFloat pct)
     ∧ update_parcel "2026-03-02 09:00:00" "10" "9" "40,000" conn_sample
       = (Ok Updated, c')
     ∧ written conn_sample c' 10 (set_area 40000 (Some pct) row_delinquent))
  ∧ update_parcel "2026-03-02 09:00:00" "10" "9" "forty" conn_sample
    = (Ok InvalidNumber, conn_sample)
  ∧ (∃ c', update_parcel "2026-03-02 09:00:00" "10" "10" "$1,234.50" conn_sample
           = (Ok Updated, c')
           ∧ written conn_sample c' 10
               (set_past_due_balance (Some 1234.5%float) row_delinquent))
  ∧ update_parcel "2026-03-02 09:00:00" "10" "11" "n/a" conn_sample
    = (Ok InvalidNumber, conn_sample).
Proof.
  split; [|split; [|split]].
  - exact (proj1 (update_parcel_atomic "2026-03-02 09:00:00" "10" "40,000" 10
                    row_delinquent conn_sample eq_refl eq_refl)).
  - exact (proj1 (update_parcel_atomic "2026-03-02 09:00:00" "10" "forty" 10
                    row_delinquent conn_sample eq_refl eq_refl)).
  - exact (proj1 (proj2 (update_parcel_atomic "2026-03-02 09:00:00" "10" "$1,234.50"
                           10 row_delinquent conn_sample eq_refl eq_refl))).
  - exact (proj2 (proj2 (update_parcel_atomic "2026-03-02 09:00:00" "10" "n/a" 10
                           row_delinquent conn_sample eq_refl eq_refl))).
Defined.
(** ** The calendar *)

Lemma days_before_year_cycles (q400 q100 q4 q1 : Z) :
  0 ≤ q400 → 0 ≤ q100 ≤ 3 → 0 ≤ q4 ≤ 24 → 0 ≤ q1 ≤ 3 →
  Cal.days_before_year (q400 * 400 + 1 + q100 * 100 + q4 * 4 + q1)
  = q400 * 146097 + q100 * 36524 + q4 * 1461 + q1 * 365.
Proof.
  intros. unfold Cal.days_before_year. cbv zeta.
  Z.div_mod_to_equations. lia.
Qed.

Lemma is_leap_cycles (q400 q100 q4 q1 : Z) :
  0 ≤ q400 → 0 ≤ q100 ≤ 3 → 0 ≤ q4 ≤ 24 → 0 ≤ q1 ≤ 3 →
  Cal.is_leap (q400 * 400 + 1 + q100 * 100 + q4 * 4 + q1)
  = (q1 =? 3) && (negb (q4 =? 24) || (q100 =? 3)).
Proof.
  intros. unfold Cal.is_leap.
  set (y := q400 * 400 + 1 + q100 * 100 + q4 * 4 + q1).
  destruct (Z.eqb_spec (y mod 4) 0), (Z.eqb_spec (y mod 100) 0),
    (Z.eqb_spec (y mod 400) 0), (Z.eqb_spec q1 3), (Z.eqb_spec q4 24),
    (Z.eqb_spec q100 3); simpl; try reflexivity; exfalso; subst y;
    Z.div_mod_to_equations; lia.
Qed.

Lemma month_day_sweep :
  all_in_range 9 0 (month_day_ok false) = true
  ∧ all_in_range 9 0 (month_day_ok true) = true.
Proof. split; vm_compute; reflexivity. Qed.

Lemma month_day_spec (leapyear : bool) (n : Z) :
  0 ≤ n < 365 + (if leapyear then 1 else 0) →
  ∀ m d, Cal.month_day n leapyear = (m, d) →
    1 ≤ m ≤ 12 ∧ 1 ≤ d
    ∧ nth (Z.to_nat m) Cal.DAYS_BEFORE_MONTH 0
      + (if (2 <? m) && leapyear then 1 else 0) + d = n + 1.
Proof.
  intros Hn m d Hmd.
  assert (month_day_ok leapyear n = true) as H.
  { destruct month_day_sweep as [Hf Ht].
    destruct leapyear;
      [apply (all_in_range_spec _ _ _ Ht) | apply (all_in_range_spec _ _ _ Hf)];
      change (2 ^ Z.of_nat 9) with 512; lia. }
  unfold month_day_ok in H.
  assert ((n <? 365 + (if leapyear then 1 else 0)) = true) as Hlt
    by (apply Z.ltb_lt; lia).
  rewrite Hlt, Hmd in H.
  repeat (apply andb_true_iff in H as [H ?]). lia.
Qed.

(** Every ordinal from 1 on is the ordinal of its date. *)
Lemma ymd2ord_ord2ymd (n : Z) : 1 ≤ n → Cal.ymd2ord (Cal.ord2ymd n) = n.
Proof.
  intros Hn. unfold Cal.ord2ymd. cbv zeta.
  unfold Cal.DI400Y, Cal.DI100Y, Cal.DI4Y.
  set (q400 := (n - 1) / 146097). set (r400 := (n - 1) mod 146097).
  set (q100 := r400 / 36524). set (r100 := r400 mod 36524).
  set (q4 := r100 / 1461). set (r4 := r100 mod 1461).
  set (q1 := r4 / 365). set (r1 := r4 mod 365).
  assert (n - 1 = q400 * 146097 + r400 ∧ 0 ≤ r400 < 146097 ∧ 0 ≤ q400) as (E400 & B400 & P400).
  { subst q400 r400. Z.div_mod_to_equations. lia. }
  assert (r400 = q100 * 36524 + r100 ∧ 0 ≤ r100 < 36524 ∧ 0 ≤ q100 ≤ 4) as (E100 & B100 & P100).
  { subst q100 r100. Z.div_mod_to_equations. lia. }
  assert (r100 = q4 * 1461 + r4 ∧ 0 ≤ r4 < 1461 ∧ 0 ≤ q4 ≤ 24) as (E4 & B4 & P4).
  { subst q4 r4. Z.div_mod_to_equations. lia. }
  assert (r4 = q1 * 365 + r1 ∧ 0 ≤ r1 < 365 ∧ 0 ≤ q1 ≤ 4) as (E1 & B1 & P1).
  { subst q1 r1. Z.div_mod_to_equations. lia. }
  clearbody q400 r400 q100 r100 q4 r4 q1 r1.
  destruct (Z.eqb_spec q1 4) as [Hq1|Hq1]; simpl.
  - (* the last day of a leap year that ends a 4-year cycle *)
    assert (q100 ≤ 3 ∧ q4 ≤ 23 ∧ r1 = 0) as (? & ? & ?) by lia.
    unfold Cal.ymd2ord. cbn [Cal.year Cal.month Cal.day].
    replace (q400 * 400 + 1 + q100 * 100 + q4 * 4 + q1 - 1)
      with (q400 * 400 + 1 + q100 * 100 + q4 * 4 + 3) by lia.
    rewrite days_before_year_cycles by lia.
    unfold Cal.days_before_month.
    rewrite is_leap_cycles by lia.
    change (3 =? 3) with true.
    assert ((q4 =? 24) = false) as -> by (apply Z.eqb_neq; lia).
    simpl. lia.
  - destruct (Z.eqb_spec q100 4) as [Hq100|Hq100]; simpl.
    + (* the last day of a 400-year cycle *)
      assert (q4 = 0 ∧ q1 = 0 ∧ r1 = 0) as (-> & -> & ->) by lia.
      unfold Cal.ymd2ord. cbn [Cal.year Cal.month Cal.day].
      replace (q400 * 400 + 1 + q100 * 100 + 0 * 4 + 0 - 1)
        with (q400 * 400 + 1 + 3 * 100 + 24 * 4 + 3) by lia.
      rewrite days_before_year_cycles by lia.
      unfold Cal.days_before_month.
      rewrite is_leap_cycles by lia.
      simpl. lia.
    + set (leapyear := (q1 =? 3) && (negb (q4 =? 24) || (q100 =? 3))).
      assert (0 ≤ r1 < 365 + (if leapyear then 1 else 0)) as Hr1
        by (destruct leapyear; lia).
      destruct (Cal.month_day r1 leapyear) as [m d] eqn:Hmd.
      destruct (month_day_spec leapyear r1 Hr1 m d Hmd) as (Hm & Hd & Hsum).
      unfold Cal.ymd2ord. cbn [Cal.year Cal.month Cal.day].
      rewrite days_before_year_cycles by lia.
      unfold Cal.days_before_month.
      rewrite is_leap_cycles by lia. fold leapyear. lia.
Qed.

Lemma strptime_valid (s : string) (d : Cal.date) :
  Cal.strptime s = Ok d → Cal.valid d = true.
Proof.
  unfold Cal.strptime. repeat case_match; try discriminate. by intros [= <-].
Qed.

Lemma ymd2ord_pos (d : Cal.date) : Cal.valid d = true → 1 ≤ Cal.ymd2ord d.
Proof.
  unfold Cal.valid, Cal.MINYEAR. intros H.
  repeat (apply andb_true_iff in H as [H ?]).
  assert (0 ≤ Cal.days_before_year (Cal.year d)).
  { unfold Cal.days_before_year. cbv zeta. Z.div_mod_to_equations. lia. }
  assert (0 ≤ Cal.days_before_month (Cal.year d) (Cal.month d)).
  { unfold Cal.days_before_month.
    assert (Cal.month d ∈ [1; 2; 3; 4; 5; 6; 7; 8; 9; 10; 11; 12]) as Hm.
    { assert (∃ k : nat, (k < 12)%nat ∧ Cal.month d = 1 + Z.of_nat k) as (k & Hk & ->)
        by (exists (Z.to_nat (Cal.month d - 1)); lia).
      do 12 (destruct k as [|k]; [set_solver|]). lia. }
    set_unfold in Hm.
    destruct (Cal.is_leap (Cal.year d));
      destruct Hm as [->|[->|[->|[->|[->|[->|[->|[->|[->|[->|[->|[->|[]]]]]]]]]]]]];
      by vm_compute. }
  unfold Cal.ymd2ord. lia.
Qed.

(** Adding days to a date moves its ordinal by as many, up to the last
    day of year 9999. *)
Lemma add_days_ordinal (d : Cal.date) (k : Z) :
  Cal.valid d = true → 0 ≤ k → Cal.ymd2ord d + k ≤ Cal.MAXORDINAL →
  ∃ r, Cal.add_days d k = Ok r ∧ Cal.ymd2ord r = Cal.ymd2ord d + k.
Proof.
  intros Hv Hk Hmax. pose proof (ymd2ord_pos d Hv).
  unfold Cal.add_days. cbv zeta.
  assert ((0 <? Cal.ymd2ord d + k) && (Cal.ymd2ord d + k <=? Cal.MAXORDINAL) = true)
    as -> by lia.
  eexists. split; [done|]. apply ymd2ord_ord2ymd. lia.
Qed.

Lemma packet_sent_columns_lookup (s : string) (tracking : option string)
    (d : Deadlines) (t : gmap string string) :
  let t' := packet_sent_columns s tracking d t in
  t' !! "date_packet_sent" = Some s
  ∧ t' !! "cure_deadline" = Some (dl_cure d)
  ∧ t' !! "lien_filing_date" = Some (dl_lien d)
  ∧ t' !! "attorney_referral_date" = Some (dl_attorney d)
  ∧ t' !! "enforcement_step" = Some "Demand Sent"
  ∧ t' !! "status" = t !! "status".
Proof.
  unfold packet_sent_columns. cbv zeta. destruct tracking; by simplify_map_eq.
Qed.

(** C2, as worded, fails: 9999-12-31 parses, and thirty days later is
    past the last date there is; the call raises [OverflowError], the
    parcel gets no deadline and the log no row. *)
Lemma packet_sent_range_counterexample :
  Cal.strptime "9999-12-31" = Ok (Cal.Date 9999 12 31)
  ∧ set_packet_sent "2026-03-02 09:00:00" 10 "9999-12-31" None conn_sample
    = (Raise OverflowError, conn_sample)
  ∧ (cure_deadline <$> parcels (committed conn_sample) !! 10) = Some None
  ∧ enforcement_log (committed conn_sample) = [].
Proof. repeat split; vm_compute; reflexivity. Qed.

(** C2, amended.  For a parcel that exists and a sent date that parses and
    lies at least 60 days before the end of year 9999, [set_packet_sent]
    stores the dates 30, 45 and 60 days after the sent date as cure
    deadline, lien filing date and attorney referral date, sets the
    enforcement step to "Demand Sent", appends exactly one audit row, which
    refers to the parcel, and commits; for "2026-01-01" the three dates are
    "2026-01-31", "2026-02-15" and "2026-03-02". *)
Theorem packet_sent_deadlines (now : string) (pid : Z)
    (tracking : option string) (p : Parcel) (c : Conn) :
  parcels (session c) !! pid = Some p →
  (∀ s sent,
     Cal.strptime s = Ok sent →
     Cal.ymd2ord sent + 60 ≤ Cal.MAXORDINAL →
     ∃ cure lien att c' p',
       Cal.add_days sent 30 = Ok cure ∧ Cal.ymd2ord cure = Cal.ymd2ord sent + 30
       ∧ Cal.add_days sent 45 = Ok lien ∧ Cal.ymd2ord lien = Cal.ymd2ord sent + 45
       ∧ Cal.add_days sent 60 = Ok att ∧ Cal.ymd2ord att = Cal.ymd2ord sent + 60
       ∧ set_packet_sent now pid s tracking c
         = (Ok {| dl_cure := Cal.strftime cure; dl_lien := Cal.strftime lien;
                  dl_attorney := Cal.strftime att |}, c')
       ∧ written c c' pid p'
       ∧ date_packet_sent p' = Some s
       ∧ cure_deadline p' = Some (Cal.strftime cure)
       ∧ lien_filing_date p' = Some (Cal.strftime lien)
       ∧ attorney_referral_date p' = Some (Cal.strftime att)
       ∧ enforcement_step p' = Some "Demand Sent")
  ∧ ∃ c' p',
      set_packet_sent now pid "2026-01-01" tracking c
      = (Ok {| dl_cure := "2026-01-31"; dl_lien := "2026-02-15";
               dl_attorney := "2026-03-02" |}, c')
      ∧ written c c' pid p'
      ∧ cure_deadline p' = Some "2026-01-31"
      ∧ lien_filing_date p' = Some "2026-02-15"
      ∧ attorney_referral_date p' = Some "2026-03-02"
      ∧ enforcement_step p' = Some "Demand Sent".
Proof.
  intros Hp.
  assert (∀ s sent,
     Cal.strptime s = Ok sent →
     Cal.ymd2ord sent + 60 ≤ Cal.MAXORDINAL →
     ∃ cure lien att c' p',
       Cal.add_days sent 30 = Ok cure ∧ Cal.ymd2ord cure = Cal.ymd2ord sent + 30
       ∧ Cal.add_days sent 45 = Ok lien ∧ Cal.ymd2ord lien = Cal.ymd2ord sent + 45
       ∧ Cal.add_days sent 60 = Ok att ∧ Cal.ymd2ord att = Cal.ymd2ord sent + 60
       ∧ set_packet_sent now pid s tracking c
         = (Ok {| dl_cure := Cal.strftime cure; dl_lien := Cal.strftime lien;
                  dl_attorney := Cal.strftime att |}, c')
       ∧ written c c' pid p'
       ∧ date_packet_sent p' = Some s
       ∧ cure_deadline p' = Some (Cal.strftime cure)
       ∧ lien_filing_date p' = Some (Cal.strftime lien)
       ∧ attorney_referral_date p' = Some (Cal.strftime att)
       ∧ enforcement_step p' = Some "Demand Sent") as Hgen.
  { intros s sent Hs Hmax.
    pose proof (strptime_valid s sent Hs) as Hv.
    destruct (add_days_ordinal sent 30 Hv) as (cure & Hc & Hco); [lia..|].
    destruct (add_days_ordinal sent 45 Hv) as (lien & Hl & Hlo); [lia..|].
    destruct (add_days_ordinal sent 60 Hv) as (att & Ha & Hao); [lia..|].
    set (d := {| dl_cure := Cal.strftime cure; dl_lien := Cal.strftime lien;
                 dl_attorney := Cal.strftime att |}).
    assert (calc_deadlines s = Ok d) as Hd.
    { unfold calc_deadlines. rewrite Hs. simpl. by rewrite Hc, Hl, Ha. }
    set (f := λ q : Parcel, set_text (packet_sent_columns s tracking d (text q)) q).
    destruct (update_log_commit d pid p f (packet_sent_entry now pid s tracking d) c
                Hp eq_refl) as (c' & Hrun & Hw).
    exists cure, lien, att, c', (f p).
    destruct (packet_sent_columns_lookup s tracking d (text p))
      as (L1 & L2 & L3 & L4 & L5 & _).
    repeat (split; [done|]).
    split; [|done].
    unfold set_packet_sent. by rewrite Hd, bind_lift_ok. }
  split; [done|].
  destruct (Hgen "2026-01-01" (Cal.Date 2026 1 1) eq_refl)
    as (cure & lien & att & c' & p' & Hc & _ & Hl & _ & Ha & _ & Hrun & Hw
        & _ & H1 & H2 & H3 & H4).
  { by vm_compute. }
  vm_compute in Hc, Hl, Ha.
  injection Hc as <-. injection Hl as <-. injection Ha as <-.
  exists c', p'. done.
Qed.

(** A packet sent on 2026-01-01 to the sample parcel. *)
Lemma packet_sent_deadlines_witness :
  ∃ c' p',
    set_packet_sent "2026-03-02 09:00:00" 10 "2026-01-01" None conn_sample
    = (Ok {| dl_cure := "2026-01-31"; dl_lien := "2026-02-15";
             dl_attorney := "2026-03-02" |}, c')
    ∧ written conn_sample c' 10 p'
    ∧ cure_deadline p' = Some "2026-01-31"
    ∧ lien_filing_date p' = Some "2026-02-15"
    ∧ attorney_referral_date p' = Some "2026-03-02"
    ∧ enforcement_step p' = Some "Demand Sent".
Proof.
  exact (proj2 (packet_sent_deadlines "2026-03-02 09:00:00" 10 None
                  row_delinquent conn_sample eq_refl)).
Defined.

(** ** The campus share *)

Lemma prorata_adjust_run (now adjust new_sf : string) (pid : Z) (p : Parcel)
    (c : Conn) :
  Str.py_int adjust = Some pid →
  parcels (session c) !! pid = Some p →
  match Str.py_int (Str.remove_char "," new_sf) with
  | None => prorata_adjust now adjust new_sf c = (Ok InvalidNumber, c)
  | Some v =>
    if in_int64 v then
      ∃ pct c',
        calc_pct (Py.PInt v) = Ok (Py.PFloat pct)
        ∧ prorata_adjust now adjust new_sf c = (Ok Updated, c')
        ∧ written c c' pid (set_area v (Some pct) p)
    else prorata_adjust now adjust new_sf c = (Raise OverflowError, c)
  end.
Proof.
  intros Hpid Hp.
  assert (prorata_adjust now adjust new_sf c
          = match Str.py_int (Str.remove_char "," new_sf) with
            | None => (Ok InvalidNumber, c)
            | Some v =>
              (pct ← lift (Py.int_truediv v TOTAL_CAMPUS_SQFT);
               _ ← execute_area_update pid v pct;
               _ ← insert_log (change_entry now pid
                      [Txt "SF updated to "; Grouped v; Txt " (was ";
                       Grouped (default 0 (sqft p)); Txt ")"]
                      "Pro-rata calculator adjustment");
               _ ← commit;
               mret Updated) c
            end) as ->.
  { unfold prorata_adjust. rewrite Hpid.
    rewrite cmd_bind_unfold. unfold select_parcel at 1. cbv iota beta. rewrite Hp.
    by destruct (Str.py_int (Str.remove_char "," new_sf)). }
  destruct (Str.py_int (Str.remove_char "," new_sf)) as [v|]; [|reflexivity].
  destruct (in_int64 v) eqn:Hv.
  - destruct (int_truediv_total_int64 v) as [pct Hpct].
    { unfold in_int64 in Hv. lia. }
    rewrite Hpct, bind_lift_ok. exists pct.
    destruct (update_log_commit Updated pid p (set_area v (Some pct))
                (change_entry now pid
                   [Txt "SF updated to "; Grouped v; Txt " (was ";
                    Grouped (default 0 (sqft p)); Txt ")"]
                   "Pro-rata calculator adjustment") c Hp eq_refl)
      as (c' & Hrun & Hw).
    exists c'. split; [|split; [|done]].
    + unfold calc_pct, pct_of. simpl. by rewrite Hpct.
    + rewrite <- Hrun, !cmd_bind_unfold, execute_area_update_run, Hv.
      by rewrite (bind_real_share v pct Hpct).
  - destruct (Py.int_truediv v TOTAL_CAMPUS_SQFT) as [pct|e] eqn:Hpct.
    + by rewrite bind_lift_ok, cmd_bind_unfold, execute_area_update_run, Hv.
    + rewrite bind_lift_raise.
      apply int_truediv_exn in Hpct as [[? _]|[_ ->]]; done.
Qed.

Lemma written_row (c c' : Conn) (pid : Z) (p' : Parcel) :
  written c c' pid p' → parcels (committed c') !! pid = Some p'.
Proof. intros (-> & -> & _). apply lookup_insert_eq. Qed.

Lemma campus_share_ok_set_area (v : Z) (pct : float) (p : Parcel) :
  Py.int_truediv v TOTAL_CAMPUS_SQFT = Ok pct →
  campus_share_ok (set_area v (bind_real pct) p).
Proof.
  intros Hpct a [= <-]. exists pct. split.
  - unfold calc_pct, pct_of. simpl. by rewrite Hpct.
  - simpl. by apply (bind_real_share v).
Qed.

Lemma table_ok_alter (t : Tables) (pid : Z) (f : Parcel → Parcel)
    (l : list LogEntry) :
  table_ok t → (∀ p, campus_share_ok p → campus_share_ok (f p)) →
  table_ok {| parcels := alter f pid (parcels t); enforcement_log := l |}.
Proof.
  intros Ht Hf q p'. simpl. destruct (decide (q = pid)) as [->|Hne].
  - rewrite lookup_alter_eq. destruct (parcels t !! pid) as [p|] eqn:Hp; [|done].
    intros [= <-]. by apply Hf, (Ht pid).
  - rewrite lookup_alter_ne by done. apply Ht.
Qed.

(** A row update that keeps the share of each row keeps it through the
    audit row and the commit too, wherever the sequence stops. *)
Lemma update_log_commit_ok {A} (a : A) (pid : Z) (f : Parcel → Parcel)
    (e : LogEntry) (c : Conn) :
  conn_ok c → (∀ p, campus_share_ok p → campus_share_ok (f p)) →
  conn_ok (snd ((_ ← update_parcels pid f; _ ← insert_log e; _ ← commit; mret a) c)).
Proof.
  intros [Hc Hs] Hf.
  pose proof (table_ok_alter (session c) pid f (enforcement_log (session c)) Hs Hf)
    as Halt.
  rewrite cmd_bind_unfold. unfold update_parcels at 1. cbv iota beta.
  rewrite cmd_bind_unfold. unfold insert_log at 1.
  cbn [session committed parcels enforcement_log].
  destruct (match parcel_id e with Some _ => _ | None => _ end);
    cbv iota beta; [|by split].
  split; intros q p'; simpl; apply Halt.
Qed.

Lemma area_update_log_commit_ok {A} (a : A) (pid v : Z) (e : float → LogEntry)
    (c : Conn) :
  conn_ok c →
  conn_ok (snd ((pct ← lift (Py.int_truediv v TOTAL_CAMPUS_SQFT);
                 _ ← execute_area_update pid v pct;
                 _ ← insert_log (e pct); _ ← commit; mret a) c)).
Proof.
  intros Hc.
  destruct (Py.int_truediv v TOTAL_CAMPUS_SQFT) as [pct|x] eqn:Hpct;
    [rewrite bind_lift_ok | by rewrite bind_lift_raise].
  pose proof (update_log_commit_ok a pid (set_area v (bind_real pct)) (e pct) c Hc
                (λ p _, campus_share_ok_set_area v pct p Hpct)) as H.
  rewrite !cmd_bind_unfold in H |- *. rewrite execute_area_update_run.
  by destruct (in_int64 v).
Qed.

(** C6.  When [update_parcel] (field 9, square footage) or the adjustment
    of [prorata_calculator] reports the change done, the committed row has
    the new floor area and, as its campus share, that area divided by
    672718, written by the same [UPDATE].  So every command keeps each row's
    share equal to its area over the campus total: both of these, whatever
    the field or the text typed, and [set_packet_sent]. *)
Theorem campus_share_recomputed :
  (∀ now pid_in sel c c',
     update_parcel now pid_in "9" sel c = (Ok Updated, c') →
     ∃ pid v pct p',
       Str.py_int pid_in = Some pid
       ∧ Str.py_int (Str.remove_char "," sel) = Some v
       ∧ parcels (committed c') !! pid = Some p'
       ∧ sqft p' = Some v
       ∧ calc_pct (Py.PInt v) = Ok (Py.PFloat pct)
       ∧ pct_campus p' = Some pct)
  ∧ (∀ now adjust new_sf c c',
       prorata_adjust now adjust new_sf c = (Ok Updated, c') →
       ∃ pid v pct p',
         Str.py_int adjust = Some pid
         ∧ Str.py_int (Str.remove_char "," new_sf) = Some v
         ∧ parcels (committed c') !! pid = Some p'
         ∧ sqft p' = Some v
         ∧ calc_pct (Py.PInt v) = Ok (Py.PFloat pct)
         ∧ pct_campus p' = Some pct)
  ∧ (∀ now pid_in choice sel c,
       conn_ok c → conn_ok (snd (update_parcel now pid_in choice sel c)))
  ∧ (∀ now adjust new_sf c,
       conn_ok c → conn_ok (snd (prorata_adjust now adjust new_sf c)))
  ∧ (∀ now pid s tracking c,
       conn_ok c → conn_ok (snd (set_packet_sent now pid s tracking c))).
Proof.
  split; [|split; [|split; [|split]]].
  - intros now pid_in sel c c' Hrun.
    destruct (Str.py_int pid_in) as [pid|] eqn:Hpid;
      [|unfold update_parcel in Hrun; by rewrite Hpid in Hrun].
    destruct (parcels (session c) !! pid) as [p|] eqn:Hp.
    2:{ unfold update_parcel in Hrun. rewrite Hpid, cmd_bind_unfold in Hrun.
        unfold select_parcel in Hrun. by rewrite Hp in Hrun. }
    pose proof (update_parcel_area now pid_in sel pid p c Hpid Hp) as H.
    destruct (Str.py_int (Str.remove_char "," sel)) as [v|]; [|congruence].
    destruct (in_int64 v); [|congruence].
    destruct H as (pct & c'' & Hpct & Hrun' & Hw).
    rewrite Hrun in Hrun'. injection Hrun' as <-.
    exists pid, v, pct, (set_area v (Some pct) p).
    repeat (split; [done|]). split; [by apply (written_row c)|done].
  - intros now adjust new_sf c c' Hrun.
    destruct (Str.py_int adjust) as [pid|] eqn:Hpid;
      [|unfold prorata_adjust in Hrun; by rewrite Hpid in Hrun].
    destruct (parcels (session c) !! pid) as [p|] eqn:Hp.
    2:{ unfold prorata_adjust in Hrun. rewrite Hpid, cmd_bind_unfold in Hrun.
        unfold select_parcel in Hrun. by rewrite Hp in Hrun. }
    pose proof (prorata_adjust_run now adjust new_sf pid p c Hpid Hp) as H.
    destruct (Str.py_int (Str.remove_char "," new_sf)) as [v|]; [|congruence].
    destruct (in_int64 v); [|congruence].
    destruct H as (pct & c'' & Hpct & Hrun' & Hw).
    rewrite Hrun in Hrun'. injection Hrun' as <-.
    exists pid, v, pct, (set_area v (Some pct) p).
    repeat (split; [done|]). split; [by apply (written_row c)|done].
  - intros now pid_in choice sel c Hc. unfold update_parcel.
    destruct (Str.py_int pid_in) as [pid|]; [|done].
    rewrite cmd_bind_unfold. unfold select_parcel at 1. cbv iota beta.
    destruct (parcels (session c) !! pid) as [p|]; [|done].
    destruct (assoc choice field_map) as [[[field label] options]|]; [|done].
    cbv zeta. repeat case_match; try done.
    + by apply (area_update_log_commit_ok Updated pid _ (λ _, _)).
    + by apply update_log_commit_ok.
    + by apply update_log_commit_ok.
    + by apply update_log_commit_ok.
  - intros now adjust new_sf c Hc. unfold prorata_adjust.
    destruct (Str.py_int adjust) as [pid|]; [|done].
    rewrite cmd_bind_unfold. unfold select_parcel at 1. cbv iota beta.
    destruct (parcels (session c) !! pid) as [p|]; [|done].
    destruct (Str.py_int (Str.remove_char "," new_sf)) as [v|]; [|done].
    by apply (area_update_log_commit_ok Updated pid _ (λ _, _)).
  - intros now pid s tracking c Hc. unfold set_packet_sent.
    destruct (calc_deadlines s) as [d|x];
      [rewrite bind_lift_ok | by rewrite bind_lift_raise].
    by apply update_log_commit_ok.
Qed.

(** The share of the sample parcel after its area becomes 40000. *)
Lemma campus_share_recomputed_witness :
  ∃ c' p',
    update_parcel "2026-03-02 09:00:00" "10" "9" "40,000" conn_sample
    = (Ok Updated, c')
    ∧ parcels (committed c') !! 10 = Some p'
    ∧ sqft p' = Some 40000
    ∧ pct_campus p' = Some 0.059460279047089566%float.
Proof.
  destruct (update_parcel "2026-03-02 09:00:00" "10" "9" "40,000" conn_sample)
    as [r c'] eqn:E.
  assert (r = Ok Updated) as -> by (vm_compute in E; congruence).
  destruct (proj1 campus_share_recomputed _ _ _ _ _ E)
    as (pid & v & pct & p' & Hpid & Hv & Hp' & Hsq & Hpct & Hshare).
  vm_compute in Hpid, Hv. injection Hpid as <-. injection Hv as <-.
  vm_compute in Hpct. injection Hpct as <-.
  by exists c', p'.
Defined.

(** ** The engine on stored rows *)

Lemma calc_pct_int64 (a : Z) :
  in_int64 a = true → ∃ pct, calc_pct (Py.PInt a) = Ok (Py.PFloat pct).
Proof.
  intros Ha. destruct (int_truediv_total_int64 a) as [pct Hpct].
  { unfold in_int64 in Ha. lia. }
  exists pct. unfold calc_pct, pct_of. simpl. by rewrite Hpct.
Qed.

Lemma sqft_or_0_int64 (row : Parcel) :
  (∀ a, sqft row = Some a → in_int64 a = true) →
  ∃ a, sqft_or_0 row = Py.PInt a ∧ in_int64 a = true.
Proof.
  intros H. rewrite sqft_or_0_default. eexists. split; [done|].
  destruct (sqft row) as [a|]; simpl; [by apply H | done].
Qed.

(** X1.  On a row whose floor area is NULL or a 64-bit integer, which is
    all an INTEGER column holds, the figures of the engine are all there:
    [calc_current_weekly] of the area, [get_weekly] and
    [get_forward_monthly] return doubles and [get_arrears] returns a
    number; none of them raises. *)
Theorem engine_total_on_stored_rows (row : Parcel) :
  (∀ a, sqft row = Some a → in_int64 a = true) →
  (∃ w, calc_current_weekly (sqft_or_0 row) = Ok (Py.PFloat w))
  ∧ (∃ x, get_arrears row = Ok x)
  ∧ (∃ w, get_weekly row = Ok (Py.PFloat w))
  ∧ (∃ m, get_forward_monthly row = Ok (Py.PFloat m)).
Proof.
  intros H. destruct (sqft_or_0_int64 row H) as (a & Ha & Hr).
  destruct (calc_pct_int64 a Hr) as [pct Hpct].
  assert (∃ w, calc_current_weekly (sqft_or_0 row) = Ok (Py.PFloat w)) as [w Hw].
  { rewrite Ha. unfold calc_current_weekly. rewrite Hpct. by eexists. }
  assert (∃ w', get_weekly row = Ok (Py.PFloat w')) as [w' Hw'].
  { unfold get_weekly. destruct (weekly_rate row) as [r|]; [|by eexists].
    destruct (Py.float_nonzero r); by eexists. }
  split; [by eexists|]. split; [|split; [by eexists|]].
  - assert (∃ x, calc_arrears_36mo (sqft_or_0 row) = Ok x) as [x Hx].
    { rewrite Ha. unfold calc_arrears_36mo, calc_historic_weekly. rewrite Hpct.
      by eexists. }
    unfold get_arrears.
    destruct (past_due_balance row) as [b|];
      [destruct (Py.float_nonzero b)|]; destruct (non_payer (status row)); by eexists.
  - unfold get_forward_monthly. rewrite Hw'. by eexists.
Qed.

Lemma engine_total_on_stored_rows_witness :
  (∃ w, calc_current_weekly (sqft_or_0 row_delinquent) = Ok (Py.PFloat w))
  ∧ (∃ x, get_arrears row_delinquent = Ok x)
  ∧ (∃ w, get_weekly row_delinquent = Ok (Py.PFloat w))
  ∧ (∃ m, get_forward_monthly row_delinquent = Ok (Py.PFloat m)).
Proof.
  apply engine_total_on_stored_rows. intros a [= <-]. reflexivity.
Defined.

Lemma calc_pct_float_or_overflow (sqft : Py.pynum) :
  (∃ f, calc_pct sqft = Ok (Py.PFloat f))
  ∨ (calc_pct sqft = Raise OverflowError ∧ ∃ a, sqft = Py.PInt a ∧ Py.is_small a = false).
Proof.
  unfold calc_pct, pct_of. destruct sqft as [a|f].
  - cbn [Py.truediv]. unfold Py.int_truediv.
    change (TOTAL_CAMPUS_SQFT =? 0) with false. cbv iota.
    destruct (Py.is_small a) eqn:Ha; simpl.
    + left. by eexists.
    + destruct (_ <=? _); simpl; [right | left; by eexists].
      split; [done|]. by exists a.
  - left. by eexists.
Qed.

Lemma scaled_float_or_overflow (r : result Py.pynum) (k : Py.pynum → result Py.pynum) :
  float_or_overflow r →
  (∀ f, ∃ g, k (Py.PFloat f) = Ok (Py.PFloat g)) →
  float_or_overflow (p ← r; k p).
Proof.
  intros [[f ->]| ->] Hk; [|by right].
  destruct (Hk f) as [g Hg]. left. exists g. exact Hg.
Qed.

(** X21.  The engine divides by the campus area, the positive constant
    672718, and checks nothing.  For every number given as the area, zero
    and negative ones included, [calc_pct], [calc_historic_weekly],
    [calc_current_weekly], [calc_arrears_36mo] and [calc_forward_monthly]
    return a double, or raise the OverflowError of an int too large for
    the division; none ever raises ZeroDivisionError, and a float area
    never raises. *)
Theorem engine_never_divides_by_zero (sqft : Py.pynum) :
  0 < TOTAL_CAMPUS_SQFT
  ∧ float_or_overflow (calc_pct sqft)
  ∧ float_or_overflow (calc_historic_weekly sqft)
  ∧ float_or_overflow (calc_current_weekly sqft)
  ∧ float_or_overflow (calc_arrears_36mo sqft)
  ∧ float_or_overflow (calc_forward_monthly sqft)
  ∧ (calc_pct sqft = Raise OverflowError →
     ∃ a, sqft = Py.PInt a ∧ Py.is_small a = false).
Proof.
  assert (float_or_overflow (calc_pct sqft)) as Hp.
  { destruct (calc_pct_float_or_overflow sqft) as [H|[H _]]; [by left | by right]. }
  assert (float_or_overflow (calc_historic_weekly sqft)) as Hh.
  { apply scaled_float_or_overflow; [done|]. intros f. by eexists. }
  assert (float_or_overflow (calc_current_weekly sqft)) as Hc.
  { apply scaled_float_or_overflow; [done|]. intros f. by eexists. }
  split; [done|]. split; [done|]. split; [done|]. split; [done|].
  split; [|split].
  - apply scaled_float_or_overflow; [done|]. intros f. by eexists.
  - apply scaled_float_or_overflow; [done|]. intros f. by eexists.
  - intros E. destruct (calc_pct_float_or_overflow sqft) as [[f H]|[_ H]]; [|done].
    congruence.
Qed.

(** ** Commands on a missing parcel, and text columns *)

Lemma tables_eta (t : Tables) :
  {| parcels := parcels t; enforcement_log := enforcement_log t |} = t.
Proof. by destruct t. Qed.

Lemma conn_eta (c : Conn) :
  {| committed := committed c; session := session c |} = c.
Proof. by destruct c. Qed.

Lemma alter_missing (f : Parcel → Parcel) (pid : Z) (m : gmap Z Parcel) :
  m !! pid = None → alter f pid m = m.
Proof.
  intros Hp. apply map_eq. intros j. destruct (decide (j = pid)) as [->|Hne].
  - by rewrite lookup_alter_eq, Hp.
  - by rewrite lookup_alter_ne.
Qed.

Lemma update_parcels_missing (pid : Z) (f : Parcel → Parcel) (c : Conn) :
  parcels (session c) !! pid = None → update_parcels pid f c = (Ok (), c).
Proof.
  intros Hp. unfold update_parcels. by rewrite (alter_missing f pid _ Hp), tables_eta, conn_eta.
Qed.

Lemma insert_log_missing (e : LogEntry) (pid : Z) (c : Conn) :
  parcel_id e = Some pid → parcels (session c) !! pid = None →
  insert_log e c = (Raise IntegrityError, c).
Proof.
  intros He Hp. unfold insert_log. rewrite He, Hp.
  rewrite bool_decide_eq_false_2; [done|]. by intros [? [=]].
Qed.

(** X2.  [set_packet_sent] does not look the parcel up.  For an ID of 64
    bits, which SQLite can bind, that has no row, the UPDATE changes
    nothing and the audit row fails its foreign key:
    sqlite3.IntegrityError is raised and nothing is written.  When the
    date does not give three deadlines, the exception of [calc_deadlines]
    is raised first, and nothing is written either. *)
Theorem set_packet_sent_missing_parcel (now : string) (pid : Z) (s : string)
    (tracking : option string) (c : Conn) :
  in_int64 pid = true →
  parcels (session c) !! pid = None →
  set_packet_sent now pid s tracking c
  = match calc_deadlines s with
    | Ok _ => (Raise IntegrityError, c)
    | Raise e => (Raise e, c)
    end.
Proof.
  intros _ Hp. unfold set_packet_sent.
  destruct (calc_deadlines s) as [d|e]; [|by rewrite bind_lift_raise].
  rewrite bind_lift_ok, cmd_bind_unfold, (update_parcels_missing _ _ _ Hp).
  rewrite cmd_bind_unfold.
  by rewrite (insert_log_missing (packet_sent_entry now pid s tracking d) pid c
                eq_refl Hp).
Qed.

Lemma set_packet_sent_missing_parcel_witness :
  in_int64 11 = true
  ∧ parcels (session conn_sample) !! 11 = None
  ∧ set_packet_sent "2026-03-02 09:00:00" 11 "2026-01-01" None conn_sample
    = (Raise IntegrityError, conn_sample)
  ∧ set_packet_sent "2026-03-02 09:00:00" 11 "2026-02-30" None conn_sample
    = (Raise ValueError, conn_sample).
Proof.
  split; [reflexivity|]. split; [reflexivity|]. split.
  - exact (set_packet_sent_missing_parcel "2026-03-02 09:00:00" 11 "2026-01-01"
             None conn_sample eq_refl eq_refl).
  - exact (set_packet_sent_missing_parcel "2026-03-02 09:00:00" 11 "2026-02-30"
             None conn_sample eq_refl eq_refl).
Defined.

(** columns of a row other than the texts *)
Lemma chosen_value_spec (options : option (list string)) (sel : string) :
  chosen_value options sel = sel
  ∨ ∃ opts k, options = Some opts ∧ Str.py_int sel = Some k
      ∧ 1 ≤ k ≤ Z.of_nat (length opts)
      ∧ opts !! Z.to_nat (k - 1) = Some (chosen_value options sel).
Proof.
  unfold chosen_value. destruct options as [opts|]; [|by left].
  destruct (Str.py_int sel) as [k|]; [|by left].
  destruct ((0 <=? k - 1) && (k - 1 <? Z.of_nat (length opts))) eqn:Hk; [|by left].
  right. exists opts, k. split; [done|]. split; [done|]. split; [lia|].
  destruct (nth_lookup_or_length opts (Z.to_nat (k - 1)) sel); [done | lia].
Qed.

(** X3.  [update_parcel] on an existing parcel.  A choice that is none of
    the nineteen of [field_map] ends the command with nothing changed.  A
    choice of a text column stores the value chosen - for Status and
    Enforcement Step the option whose number was typed, when that is in
    range, and otherwise the text as typed, whatever it is - commits it
    with one audit row of the parcel, and leaves every other column as it
    was. *)
Theorem update_parcel_text_field (now pid_in choice sel : string) (pid : Z)
    (p : Parcel) (c : Conn) :
  Str.py_int pid_in = Some pid →
  parcels (session c) !! pid = Some p →
  match assoc choice field_map with
  | None => update_parcel now pid_in choice sel c = (Ok Cancelled, c)
  | Some (field, label, options) =>
    field ∉ ["sqft"; "past_due_balance"; "weekly_rate"] →
    ∃ c' p',
      update_parcel now pid_in choice sel c = (Ok Updated, c')
      ∧ written c c' pid p'
      ∧ text p' !! field = Some (chosen_value options sel)
      ∧ (∀ g, g ≠ field → text p' !! g = text p !! g)
      ∧ sqft p' = sqft p ∧ pct_campus p' = pct_campus p
      ∧ past_due_balance p' = past_due_balance p
      ∧ weekly_rate p' = weekly_rate p
  end.
Proof.
  intros Hpid Hp. rewrite (update_parcel_choice now pid_in choice sel pid p c Hpid Hp).
  destruct (assoc choice field_map) as [[[field label] options]|]; [|done].
  intros Hf. cbv zeta.
  rewrite !bool_decide_eq_false_2 by (intros ->; apply Hf; set_solver).
  destruct (update_log_commit Updated pid p
              (λ p, set_text (<[field := chosen_value options sel]> (text p)) p)
              (change_entry now pid
                 [Txt "Updated "; Txt label; Txt " to: ";
                  Txt (chosen_value options sel)] "Changed by user") c Hp eq_refl)
    as (c' & Hrun & Hw).
  exists c', (set_text (<[field := chosen_value options sel]> (text p)) p).
  split; [done|]. split; [done|]. simpl.
  split; [apply lookup_insert_eq|]. split; [|done].
  intros g Hg. by apply lookup_insert_ne.
Qed.

Lemma update_parcel_text_field_witness :
  (∃ c' p',
     update_parcel "2026-03-02 09:00:00" "10" "1" "6" conn_sample = (Ok Updated, c')
     ∧ written conn_sample c' 10 p'
     ∧ text p' !! "status" = Some "SETTLED")
  ∧ (∃ c' p',
     update_parcel "2026-03-02 09:00:00" "10" "1" "settled" conn_sample = (Ok Updated, c')
     ∧ written conn_sample c' 10 p'
     ∧ text p' !! "status" = Some "settled")
  ∧ update_parcel "2026-03-02 09:00:00" "10" "20" "x" conn_sample
    = (Ok Cancelled, conn_sample).
Proof.
  assert (assoc "1" field_map = Some ("status", "Status", Some VALID_STATUSES)) as E1
    by reflexivity.
  assert ("status" ∉ ["sqft"; "past_due_balance"; "weekly_rate"]) as Hn
    by (apply (bool_decide_eq_false (_ ∈ _)); reflexivity).
  split; [|split].
  - pose proof (update_parcel_text_field "2026-03-02 09:00:00" "10" "1" "6" 10
                  row_delinquent conn_sample eq_refl eq_refl) as H.
    rewrite E1 in H. destruct (H Hn) as (c' & p' & H1 & H2 & H3 & _).
    by exists c', p'.
  - pose proof (update_parcel_text_field "2026-03-02 09:00:00" "10" "1" "settled" 10
                  row_delinquent conn_sample eq_refl eq_refl) as H.
    rewrite E1 in H. destruct (H Hn) as (c' & p' & H1 & H2 & H3 & _).
    by exists c', p'.
  - exact (update_parcel_text_field "2026-03-02 09:00:00" "10" "20" "x" 10
             row_delinquent conn_sample eq_refl eq_refl).
Defined.

(** X4.  The four counts below the table of [view_deadlines] are the
    numbers of deadlines that [urgency_flag] marks overdue, urgent, soon and
    normal: every deadline is counted once, and the counts add up to the
    number of deadlines. *)
Theorem summary_counts_partition (ds : list DeadlineEntry) :
  let count (u : urgency) :=
    length (filter (λ d, urgency_flag (de_days_left d) = u) ds) in
  summary_counts ds = (count Overdue, count Urgent, count Soon, count Normal)
  ∧ (count Overdue + count Urgent + count Soon + count Normal = length ds)%nat.
Proof.
  cbv zeta. split.
  - unfold summary_counts. cbv zeta.
    assert (∀ (P : Z → bool) u, (∀ d, P d = true ↔ urgency_flag d = u) →
              length (filter (λ d, P (de_days_left d) = true) ds)
              = length (filter (λ d, urgency_flag (de_days_left d) = u) ds)) as Hc.
    { intros P u H. induction ds as [|d ds IH]; [done|].
      rewrite !filter_cons. specialize (H (de_days_left d)).
      destruct (decide (P (de_days_left d) = true)),
        (decide (urgency_flag (de_days_left d) = u)); simpl; try congruence; tauto. }
    rewrite <- (Hc (λ d, d <? 0) Overdue), <- (Hc (λ d, (0 <=? d) && (d <=? 7)) Urgent),
      <- (Hc (λ d, (7 <? d) && (d <=? 14)) Soon), <- (Hc (λ d, 14 <? d) Normal);
      [done|..]; intros d; by destruct (summary_counts_by_flag d) as (?&?&?&?).
  - induction ds as [|d ds IH]; [done|].
    rewrite !filter_cons.
    destruct (urgency_flag (de_days_left d)) eqn:E;
      repeat match goal with |- context [decide ?P] => destruct (decide P); try done end;
      simpl; lia.
Qed.

(** ** Dates printed and parsed *)

Lemma digit_val_digit_char (n : Z) :
  Str.digit_val (Cal.digit_char n) = Some (n mod 10).
Proof.
  assert (∃ k : nat, (k < 10)%nat ∧ n mod 10 = Z.of_nat k) as (k & Hk & E).
  { exists (Z.to_nat (n mod 10)). pose proof (Z.mod_pos_bound n 10). lia. }
  unfold Cal.digit_char. rewrite E.
  do 10 (destruct k as [|k]; [reflexivity|]). lia.
Qed.

Lemma two_digits_pad (n : Z) :
  0 ≤ n < 100 →
  Cal.two_digits (Cal.digit_char (n / 10)) (Cal.digit_char n) = Some n.
Proof.
  intros Hn. unfold Cal.two_digits. rewrite !digit_val_digit_char. simpl.
  f_equal. Z.div_mod_to_equations. lia.
Qed.

Lemma zero_pad_2 (n : Z) :
  Cal.zero_pad 2 n = [Cal.digit_char (n / 10); Cal.digit_char n].
Proof. reflexivity. Qed.

Lemma zero_pad_4 (n : Z) :
  Cal.zero_pad 4 n
  = [Cal.digit_char (n / 10 / 10 / 10); Cal.digit_char (n / 10 / 10);
     Cal.digit_char (n / 10); Cal.digit_char n].
Proof. reflexivity. Qed.

Lemma chars_of_chars (l : list ascii) : Str.chars (Str.of_chars l) = l.
Proof. apply list_ascii_of_string_of_list_ascii. Qed.

Lemma scan_month_pad (m : Z) (rest : list ascii) :
  1 ≤ m ≤ 12 →
  Cal.scan_month (Cal.zero_pad 2 m ++ "-"%char :: rest) = Some (m, rest).
Proof.
  intros Hm.
  assert (∃ k : nat, (k < 12)%nat ∧ m = 1 + Z.of_nat k) as (k & Hk & ->)
    by (exists (Z.to_nat (m - 1)); lia).
  do 12 (destruct k as [|k]; [reflexivity|]). lia.
Qed.

Lemma scan_day_pad (d : Z) :
  1 ≤ d ≤ 31 → Cal.scan_day (Cal.zero_pad 2 d) = Some d.
Proof.
  intros Hd.
  assert (∃ k : nat, (k < 31)%nat ∧ d = 1 + Z.of_nat k) as (k & Hk & ->)
    by (exists (Z.to_nat (d - 1)); lia).
  do 31 (destruct k as [|k]; [reflexivity|]). lia.
Qed.

Lemma days_in_month_le_31 (y m : Z) : Cal.days_in_month y m ≤ 31.
Proof.
  unfold Cal.days_in_month. case_match; [lia|].
  destruct (Z.to_nat m) as [|k]; [simpl; lia|].
  do 12 (destruct k as [|k]; [simpl; lia|]). simpl. destruct k; lia.
Qed.

Lemma valid_bounds (d : Cal.date) :
  Cal.valid d = true →
  1 ≤ Cal.year d ≤ 9999 ∧ 1 ≤ Cal.month d ≤ 12
  ∧ 1 ≤ Cal.day d ≤ Cal.days_in_month (Cal.year d) (Cal.month d).
Proof.
  unfold Cal.valid, Cal.MINYEAR, Cal.MAXYEAR. intros H.
  repeat (apply andb_true_iff in H as [H ?]). lia.
Qed.

(** What [strftime] writes, [strptime] reads back. *)
Lemma strptime_strftime (d : Cal.date) :
  Cal.valid d = true → Cal.strptime (Cal.strftime d) = Ok d.
Proof.
  intros Hv. destruct (valid_bounds d Hv) as (Hy & Hm & Hd).
  pose proof (days_in_month_le_31 (Cal.year d) (Cal.month d)).
  unfold Cal.strptime, Cal.strftime. rewrite chars_of_chars, zero_pad_4.
  cbn [app].
  replace (Cal.year d / 10 / 10 / 10) with (Cal.year d / 100 / 10)
    by (Z.div_mod_to_equations; lia).
  replace (Cal.year d / 10 / 10) with (Cal.year d / 100)
    by (Z.div_mod_to_equations; lia).
  rewrite (two_digits_pad (Cal.year d / 100)) by (Z.div_mod_to_equations; lia).
  assert (Cal.two_digits (Cal.digit_char (Cal.year d / 10)) (Cal.digit_char (Cal.year d))
          = Some (Cal.year d mod 100)) as ->.
  { unfold Cal.two_digits. rewrite !digit_val_digit_char. simpl. f_equal.
    Z.div_mod_to_equations. lia. }
  rewrite scan_month_pad by done. rewrite scan_day_pad by lia.
  replace (100 * (Cal.year d / 100) + Cal.year d mod 100) with (Cal.year d)
    by (Z.div_mod_to_equations; lia).
  destruct d as [y m dd]. simpl in *. by rewrite Hv.
Qed.

Lemma strftime_nonempty (d : Cal.date) : Cal.strftime d ≠ "".
Proof.
  unfold Cal.strftime. rewrite zero_pad_4. cbn [app]. done.
Qed.

Lemma month_day_in_month_sweep :
  all_in_range 9 0 (month_day_in_month false) = true
  ∧ all_in_range 9 0 (month_day_in_month true) = true.
Proof. split; vm_compute; reflexivity. Qed.

Lemma month_day_le (leapyear : bool) (n : Z) :
  0 ≤ n < 365 + (if leapyear then 1 else 0) →
  ∀ m d, Cal.month_day n leapyear = (m, d) →
    d ≤ (if (m =? 2) && leapyear then 29
         else nth (Z.to_nat m) [-1; 31; 28; 31; 30; 31; 30; 31; 31; 30; 31; 30; 31] 0).
Proof.
  intros Hn m d Hmd.
  assert (month_day_in_month leapyear n = true) as H.
  { destruct month_day_in_month_sweep as [Hf Ht].
    destruct leapyear;
      [apply (all_in_range_spec _ _ _ Ht) | apply (all_in_range_spec _ _ _ Hf)];
      change (2 ^ Z.of_nat 9) with 512; lia. }
  unfold month_day_in_month in H.
  assert ((n <? 365 + (if leapyear then 1 else 0)) = true) as Hlt
    by (apply Z.ltb_lt; lia).
  rewrite Hlt, Hmd in H. lia.
Qed.

Lemma days_before_year_mono (y : Z) :
  10000 ≤ y → Cal.MAXORDINAL ≤ Cal.days_before_year y.
Proof.
  intros Hy. unfold Cal.days_before_year, Cal.MAXORDINAL. cbv zeta.
  Z.div_mod_to_equations. lia.
Qed.

Lemma days_before_month_nonneg (y m : Z) : 1 ≤ m → 0 ≤ Cal.days_before_month y m.
Proof.
  intros Hm. unfold Cal.days_before_month.
  assert (0 ≤ nth (Z.to_nat m) Cal.DAYS_BEFORE_MONTH 0).
  { destruct (Z.to_nat m) as [|k] eqn:E; [lia|]. simpl.
    do 12 (destruct k as [|k]; [simpl; lia|]). simpl. destruct k; lia. }
  case_match; lia.
Qed.

(** The date of an ordinal up to the last one is a date the constructor
    accepts. *)
Lemma ord2ymd_valid (n : Z) :
  1 ≤ n ≤ Cal.MAXORDINAL → Cal.valid (Cal.ord2ymd n) = true.
Proof.
  intros Hn. pose proof (ymd2ord_ord2ymd n (proj1 Hn)) as Hord.
  assert (1 ≤ Cal.year (Cal.ord2ymd n)
          ∧ 1 ≤ Cal.month (Cal.ord2ymd n) ≤ 12
          ∧ 1 ≤ Cal.day (Cal.ord2ymd n)
              ≤ Cal.days_in_month (Cal.year (Cal.ord2ymd n)) (Cal.month (Cal.ord2ymd n)))
    as (Hy & Hm & Hd).
  { clear Hord. unfold Cal.ord2ymd. cbv zeta.
    unfold Cal.DI400Y, Cal.DI100Y, Cal.DI4Y.
    set (q400 := (n - 1) / 146097). set (r400 := (n - 1) mod 146097).
    set (q100 := r400 / 36524). set (r100 := r400 mod 36524).
    set (q4 := r100 / 1461). set (r4 := r100 mod 1461).
    set (q1 := r4 / 365). set (r1 := r4 mod 365).
    assert (n - 1 = q400 * 146097 + r400 ∧ 0 ≤ r400 < 146097 ∧ 0 ≤ q400) as (E400 & B400 & P400).
    { subst q400 r400. Z.div_mod_to_equations. lia. }
    assert (r400 = q100 * 36524 + r100 ∧ 0 ≤ r100 < 36524 ∧ 0 ≤ q100 ≤ 4) as (E100 & B100 & P100).
    { subst q100 r100. Z.div_mod_to_equations. lia. }
    assert (r100 = q4 * 1461 + r4 ∧ 0 ≤ r4 < 1461 ∧ 0 ≤ q4 ≤ 24) as (E4 & B4 & P4).
    { subst q4 r4. Z.div_mod_to_equations. lia. }
    assert (r4 = q1 * 365 + r1 ∧ 0 ≤ r1 < 365 ∧ 0 ≤ q1 ≤ 4) as (E1 & B1 & P1).
    { subst q1 r1. Z.div_mod_to_equations. lia. }
    clearbody q400 r400 q100 r100 q4 r4 q1 r1.
    destruct (Z.eqb_spec q1 4) as [Hq1|Hq1]; simpl.
    { unfold Cal.days_in_month. simpl. lia. }
    destruct (Z.eqb_spec q100 4) as [Hq100|Hq100]; simpl.
    { unfold Cal.days_in_month. simpl. lia. }
    set (leapyear := (q1 =? 3) && (negb (q4 =? 24) || (q100 =? 3))).
    assert (0 ≤ r1 < 365 + (if leapyear then 1 else 0)) as Hr1
      by (destruct leapyear; lia).
    destruct (Cal.month_day r1 leapyear) as [m d] eqn:Hmd.
    destruct (month_day_spec leapyear r1 Hr1 m d Hmd) as (Hm & Hd & Hsum).
    pose proof (month_day_le leapyear r1 Hr1 m d Hmd) as Hle.
    cbn [Cal.year Cal.month Cal.day].
    unfold Cal.days_in_month. rewrite is_leap_cycles by lia. fold leapyear. lia. }
  assert (Cal.year (Cal.ord2ymd n) ≤ 9999) as Hy'.
  { destruct (Z.le_gt_cases (Cal.year (Cal.ord2ymd n)) 9999) as [|Hbig]; [done|].
    pose proof (days_before_year_mono (Cal.year (Cal.ord2ymd n))).
    pose proof (days_before_month_nonneg (Cal.year (Cal.ord2ymd n))
                  (Cal.month (Cal.ord2ymd n))).
    unfold Cal.ymd2ord in Hord. lia. }
  unfold Cal.valid, Cal.MINYEAR, Cal.MAXYEAR. lia.
Qed.

Lemma add_days_valid (d r : Cal.date) (k : Z) :
  Cal.add_days d k = Ok r → Cal.valid r = true.
Proof.
  unfold Cal.add_days. cbv zeta. case_match eqn:E; [|done]. intros [= <-].
  apply ord2ymd_valid. lia.
Qed.

Lemma add_days_ok_ordinal (d r : Cal.date) (k : Z) :
  Cal.add_days d k = Ok r →
  Cal.valid r = true ∧ Cal.ymd2ord r = Cal.ymd2ord d + k.
Proof.
  intros H. split; [by apply (add_days_valid d r k)|].
  revert H. unfold Cal.add_days. cbv zeta. case_match eqn:E; [|done]. intros [= <-].
  apply ymd2ord_ord2ymd. lia.
Qed.

Lemma calc_deadlines_ok (s : string) (d : Deadlines) :
  calc_deadlines s = Ok d →
  ∃ sent cure lien att,
    Cal.strptime s = Ok sent
    ∧ Cal.add_days sent 30 = Ok cure ∧ Cal.add_days sent 45 = Ok lien
    ∧ Cal.add_days sent 60 = Ok att
    ∧ d = {| dl_cure := Cal.strftime cure; dl_lien := Cal.strftime lien;
             dl_attorney := Cal.strftime att |}.
Proof.
  unfold calc_deadlines.
  destruct (Cal.strptime s) as [sent|]; simpl; [|done].
  destruct (Cal.add_days sent 30) as [cure|] eqn:Hc; simpl; [|done].
  destruct (Cal.add_days sent 45) as [lien|] eqn:Hl; simpl; [|done].
  destruct (Cal.add_days sent 60) as [att|] eqn:Ha; simpl; [|done].
  intros [= <-]. by exists sent, cure, lien, att.
Qed.

(** The row a successful [set_packet_sent] leaves. *)
Lemma set_packet_sent_ok (now : string) (pid : Z) (s : string)
    (tracking : option string) (p : Parcel) (c c' : Conn) (d : Deadlines) :
  parcels (session c) !! pid = Some p →
  set_packet_sent now pid s tracking c = (Ok d, c') →
  calc_deadlines s = Ok d
  ∧ written c c' pid (set_text (packet_sent_columns s tracking d (text p)) p).
Proof.
  intros Hp. unfold set_packet_sent.
  destruct (calc_deadlines s) as [d'|e]; [|by rewrite bind_lift_raise].
  rewrite bind_lift_ok.
  destruct (update_log_commit d' pid p
              (λ q, set_text (packet_sent_columns s tracking d' (text q)) q)
              (packet_sent_entry now pid s tracking d') c Hp eq_refl)
    as (c'' & Hrun & Hw).
  rewrite Hrun. intros [= <- <-]. split; [done | exact Hw].
Qed.

Lemma row_deadlines_canonical (today : Cal.date) (pid : Z) (r : Parcel)
    (cure lien att : Cal.date) :
  Cal.valid cure = true → Cal.valid lien = true → Cal.valid att = true →
  cure_deadline r = Some (Cal.strftime cure) →
  lien_filing_date r = Some (Cal.strftime lien) →
  attorney_referral_date r = Some (Cal.strftime att) →
  row_deadlines today pid r
  = Ok [ {| de_date := Cal.strftime cure; de_days_left := days_left cure today;
            de_type := "30-Day CURE"; de_id := pid |};
         {| de_date := Cal.strftime lien; de_days_left := days_left lien today;
            de_type := "45-Day LIEN"; de_id := pid |};
         {| de_date := Cal.strftime att; de_days_left := days_left att today;
            de_type := "60-Day ATTORNEY"; de_id := pid |} ].
Proof.
  intros Hc Hl Ha H1 H2 H3. unfold row_deadlines. rewrite H1, H2, H3.
  rewrite !bool_decide_eq_false_2 by apply strftime_nonempty.
  by rewrite !strptime_strftime.
Qed.

(** X5.  What [set_packet_sent] writes, [view_deadlines] reads back.
    After it has succeeded on an existing parcel with a date text that
    parses as [sent], in the year 1000 or later, the committed row gives
    exactly three deadlines, the cure, lien and attorney dates it returned,
    and on any day [today] their days left are those from [today] to 30, 45
    and 60 days after [sent]. *)
Theorem packet_deadlines_read_back (now : string) (pid : Z) (s : string)
    (tracking : option string) (p : Parcel) (c c' : Conn) (d : Deadlines)
    (sent : Cal.date) :
  parcels (session c) !! pid = Some p →
  Cal.strptime s = Ok sent →
  1000 ≤ Cal.year sent →
  set_packet_sent now pid s tracking c = (Ok d, c') →
  ∃ p', parcels (committed c') !! pid = Some p'
    ∧ ∀ today,
        row_deadlines today pid p'
        = Ok [ {| de_date := dl_cure d;
                  de_days_left := Cal.ymd2ord sent + 30 - Cal.ymd2ord today;
                  de_type := "30-Day CURE"; de_id := pid |};
               {| de_date := dl_lien d;
                  de_days_left := Cal.ymd2ord sent + 45 - Cal.ymd2ord today;
                  de_type := "45-Day LIEN"; de_id := pid |};
               {| de_date := dl_attorney d;
                  de_days_left := Cal.ymd2ord sent + 60 - Cal.ymd2ord today;
                  de_type := "60-Day ATTORNEY"; de_id := pid |} ].
Proof.
  intros Hp Hs _ Hrun.
  destruct (set_packet_sent_ok now pid s tracking p c c' d Hp Hrun) as [Hd Hw].
  destruct (calc_deadlines_ok s d Hd) as (sent' & cure & lien & att & Hs' & Hc & Hl & Ha & ->).
  rewrite Hs in Hs'. injection Hs' as <-.
  destruct (add_days_ok_ordinal _ _ _ Hc) as [Vc Oc].
  destruct (add_days_ok_ordinal _ _ _ Hl) as [Vl Ol].
  destruct (add_days_ok_ordinal _ _ _ Ha) as [Va Oa].
  eexists. split; [by apply (written_row c)|].
  intros today. cbn [dl_cure dl_lien dl_attorney].
  rewrite <- Oc, <- Ol, <- Oa.
  apply row_deadlines_canonical; try done.
  all: unfold cure_deadline, lien_filing_date, attorney_referral_date; cbn [text set_text];
    by destruct (packet_sent_columns_lookup s tracking
                   {| dl_cure := Cal.strftime cure; dl_lien := Cal.strftime lien;
                      dl_attorney := Cal.strftime att |} (text p))
      as (? & ? & ? & ? & ? & ?).
Qed.

Lemma packet_deadlines_read_back_witness :
  ∃ c' p',
    set_packet_sent "2026-03-02 09:00:00" 10 "2026-01-01" None conn_sample
    = (Ok {| dl_cure := "2026-01-31"; dl_lien := "2026-02-15";
             dl_attorney := "2026-03-02" |}, c')
    ∧ parcels (committed c') !! 10 = Some p'
    ∧ row_deadlines (Cal.Date 2026 1 1) 10 p'
      = Ok [ {| de_date := "2026-01-31"; de_days_left := 30;
                de_type := "30-Day CURE"; de_id := 10 |};
             {| de_date := "2026-02-15"; de_days_left := 45;
                de_type := "45-Day LIEN"; de_id := 10 |};
             {| de_date := "2026-03-02"; de_days_left := 60;
                de_type := "60-Day ATTORNEY"; de_id := 10 |} ].
Proof.
  destruct (set_packet_sent "2026-03-02 09:00:00" 10 "2026-01-01" None conn_sample)
    as [r c'] eqn:E.
  assert (r = Ok {| dl_cure := "2026-01-31"; dl_lien := "2026-02-15";
                    dl_attorney := "2026-03-02" |}) as ->
    by (vm_compute in E; congruence).
  destruct (packet_deadlines_read_back "2026-03-02 09:00:00" 10 "2026-01-01" None
              row_delinquent conn_sample c' _ (Cal.Date 2026 1 1)
              eq_refl eq_refl ltac:(simpl; lia) E) as (p' & Hp' & Hrows).
  exists c', p'. split; [done|]. split; [done|].
  exact (Hrows (Cal.Date 2026 1 1)).
Defined.

(** ** Days counted by the clock *)

(** X6.  The days that [view_timeline], [dashboard] and the main menu
    count from [datetime.now()] are the days [view_deadlines] counts from
    today's date, less one as soon as the time of day is past midnight.
    So a deadline that falls today is OVERDUE in the timeline while the
    deadline view gives it 0 days left and flags it urgent. *)
Theorem clock_days_one_short (now : datetime) (s : string) (d : Cal.date) :
  0 ≤ dt_us now < US_PER_DAY →
  Cal.strptime s = Ok d →
  days_until d now = days_left d (dt_date now) - (if dt_us now =? 0 then 0 else 1)
  ∧ (d = dt_date now → 0 < dt_us now →
       timeline_due now s = Ok PastDue
       ∧ days_left d (dt_date now) = 0
       ∧ urgency_flag (days_left d (dt_date now)) = Urgent).
Proof.
  intros Hus Hs.
  assert (days_until d now
          = days_left d (dt_date now) - (if dt_us now =? 0 then 0 else 1)) as Hd.
  { unfold days_until, days_left, Cal.days_between, US_PER_DAY in *.
    destruct (Z.eqb_spec (dt_us now) 0); Z.div_mod_to_equations; lia. }
  split; [done|]. intros -> Hpos.
  rewrite days_left_same in *. split; [|done].
  unfold timeline_due. rewrite Hs. simpl. rewrite Hd.
  by assert ((dt_us now =? 0) = false) as -> by lia.
Qed.

Lemma clock_days_one_short_witness :
  days_until (Cal.Date 2026 4 1) {| dt_date := Cal.Date 2026 3 31; dt_us := 36000000000 |}
  = days_left (Cal.Date 2026 4 1) (Cal.Date 2026 3 31) - 1
  ∧ timeline_due {| dt_date := Cal.Date 2026 4 1; dt_us := 36000000000 |} "2026-04-01"
    = Ok PastDue
  ∧ urgency_flag (days_left (Cal.Date 2026 4 1) (Cal.Date 2026 4 1)) = Urgent.
Proof.
  split.
  - apply (proj1 (clock_days_one_short
                    {| dt_date := Cal.Date 2026 3 31; dt_us := 36000000000 |}
                    "2026-04-01" (Cal.Date 2026 4 1) ltac:(unfold US_PER_DAY; simpl; lia)
                    eq_refl)).
  - pose proof (proj2 (clock_days_one_short
                    {| dt_date := Cal.Date 2026 4 1; dt_us := 36000000000 |}
                    "2026-04-01" (Cal.Date 2026 4 1) ltac:(unfold US_PER_DAY; simpl; lia)
                    eq_refl) eq_refl ltac:(simpl; lia)) as (H1 & _ & H3).
    by split.
Defined.

(** ** The order of dates is the order of their texts *)

Lemma compare_of_chars (l1 l2 : list ascii) :
  String.compare (Str.of_chars l1) (Str.of_chars l2) = lcompare l1 l2.
Proof.
  revert l2. induction l1 as [|c1 l1 IH]; intros [|c2 l2]; simpl; try done.
  by rewrite IH.
Qed.

Lemma compare_digit_char (a b : Z) :
  Ascii.compare (Cal.digit_char a) (Cal.digit_char b) = (a mod 10 ?= b mod 10).
Proof.
  unfold Ascii.compare, Cal.digit_char.
  pose proof (Z.mod_pos_bound a 10). pose proof (Z.mod_pos_bound b 10).
  rewrite !N_ascii_embedding by lia.
  rewrite <- N2Z.inj_compare, !Z2N.id by lia. apply Z.add_compare_mono_l.
Qed.

Lemma lcompare_zero_pad (w : nat) (a b : Z) (r1 r2 : list ascii) :
  0 ≤ a < 10 ^ Z.of_nat w → 0 ≤ b < 10 ^ Z.of_nat w →
  lcompare (Cal.zero_pad w a ++ r1) (Cal.zero_pad w b ++ r2)
  = match a ?= b with Eq => lcompare r1 r2 | o => o end.
Proof.
  revert a b r1 r2. induction w as [|w IH]; intros a b r1 r2 Ha Hb.
  - simpl in *. by assert (a = 0 ∧ b = 0) as [-> ->] by lia.
  - rewrite Nat2Z.inj_succ, Z.pow_succ_r in Ha, Hb by lia.
    cbn [Cal.zero_pad]. rewrite <- !app_assoc. cbn [app].
    rewrite IH by (Z.div_mod_to_equations; lia).
    cbn [lcompare]. rewrite compare_digit_char.
    destruct (Z.compare_spec (a / 10) (b / 10)), (Z.compare_spec (a mod 10) (b mod 10)),
      (Z.compare_spec a b); try done; exfalso; Z.div_mod_to_equations; lia.
Qed.

Lemma compare_strftime (d1 d2 : Cal.date) :
  Cal.valid d1 = true → Cal.valid d2 = true →
  String.compare (Cal.strftime d1) (Cal.strftime d2)
  = lex3 (Cal.year d1 ?= Cal.year d2) (Cal.month d1 ?= Cal.month d2)
         (Cal.day d1 ?= Cal.day d2).
Proof.
  intros H1 H2.
  destruct (valid_bounds d1 H1) as (Hy1 & Hm1 & Hd1).
  destruct (valid_bounds d2 H2) as (Hy2 & Hm2 & Hd2).
  pose proof (days_in_month_le_31 (Cal.year d1) (Cal.month d1)).
  pose proof (days_in_month_le_31 (Cal.year d2) (Cal.month d2)).
  unfold Cal.strftime. rewrite compare_of_chars.
  rewrite (lcompare_zero_pad 4) by (simpl; lia). cbn [app lcompare].
  change (Ascii.compare "-" "-") with Eq. cbv iota.
  rewrite (lcompare_zero_pad 2) by (simpl; lia). cbn [app lcompare].
  change (Ascii.compare "-" "-") with Eq. cbv iota.
  rewrite <- (app_nil_r (Cal.zero_pad 2 (Cal.day d1))),
    <- (app_nil_r (Cal.zero_pad 2 (Cal.day d2))).
  rewrite (lcompare_zero_pad 2) by (simpl; lia). cbn [lcompare].
  unfold lex3. by repeat case_match.
Qed.

Lemma days_before_year_succ (y : Z) :
  Cal.days_before_year (y + 1)
  = Cal.days_before_year y + 365 + (if Cal.is_leap y then 1 else 0).
Proof.
  unfold Cal.days_before_year, Cal.is_leap. cbv zeta.
  destruct (Z.eqb_spec (y mod 4) 0), (Z.eqb_spec (y mod 100) 0),
    (Z.eqb_spec (y mod 400) 0); simpl; Z.div_mod_to_equations; lia.
Qed.

Lemma days_before_year_le (y1 y2 : Z) :
  y1 ≤ y2 → Cal.days_before_year y1 ≤ Cal.days_before_year y2.
Proof.
  intros H. unfold Cal.days_before_year. cbv zeta. Z.div_mod_to_equations. lia.
Qed.

(** Within a year, the months before a date and its day stay within the year,
    and grow with the month and the day. *)
Lemma day_of_year_bounds (y m1 d1 m2 d2 : Z) :
  1 ≤ m1 ≤ 12 → 1 ≤ d1 ≤ Cal.days_in_month y m1 →
  1 ≤ m2 ≤ 12 → 1 ≤ d2 ≤ Cal.days_in_month y m2 →
  1 ≤ Cal.days_before_month y m1 + d1 ≤ 365 + (if Cal.is_leap y then 1 else 0)
  ∧ (m1 < m2 → Cal.days_before_month y m1 + d1 < Cal.days_before_month y m2 + d2).
Proof.
  intros Hm1 Hd1 Hm2 Hd2. revert Hd1 Hd2.
  unfold Cal.days_before_month, Cal.days_in_month.
  assert (∃ k : nat, (k < 12)%nat ∧ m1 = 1 + Z.of_nat k) as (k1 & Hk1 & ->)
    by (exists (Z.to_nat (m1 - 1)); lia).
  assert (∃ k : nat, (k < 12)%nat ∧ m2 = 1 + Z.of_nat k) as (k2 & Hk2 & ->)
    by (exists (Z.to_nat (m2 - 1)); lia).
  destruct (Cal.is_leap y);
    do 12 (destruct k1 as [|k1]; [do 12 (destruct k2 as [|k2]; [simpl; lia|]); lia|]);
    lia.
Qed.

Lemma ymd2ord_lt (d1 d2 : Cal.date) :
  Cal.valid d1 = true → Cal.valid d2 = true →
  lex3 (Cal.year d1 ?= Cal.year d2) (Cal.month d1 ?= Cal.month d2)
       (Cal.day d1 ?= Cal.day d2) = Lt →
  Cal.ymd2ord d1 < Cal.ymd2ord d2.
Proof.
  intros H1 H2.
  destruct (valid_bounds d1 H1) as (Hy1 & Hm1 & Hd1).
  destruct (valid_bounds d2 H2) as (Hy2 & Hm2 & Hd2).
  unfold Cal.ymd2ord, lex3.
  destruct (Z.compare_spec (Cal.year d1) (Cal.year d2)) as [Ey|Ly|]; [| |done].
  - rewrite Ey in *.
    destruct (day_of_year_bounds (Cal.year d2) _ _ _ _ Hm1 Hd1 Hm2 Hd2) as [_ Hlt].
    destruct (Z.compare_spec (Cal.month d1) (Cal.month d2)) as [Em|Lm|]; [| |done].
    + rewrite Em. destruct (Z.compare_spec (Cal.day d1) (Cal.day d2)); [done| |done]. lia.
    + intros _. specialize (Hlt Lm). lia.
  - intros _.
    destruct (day_of_year_bounds (Cal.year d1) _ _ _ _ Hm1 Hd1 Hm1 Hd1) as [B1 _].
    destruct (day_of_year_bounds (Cal.year d2) _ _ _ _ Hm2 Hd2 Hm2 Hd2) as [B2 _].
    pose proof (days_before_year_succ (Cal.year d1)).
    pose proof (days_before_year_le (Cal.year d1 + 1) (Cal.year d2)). lia.
Qed.

Lemma lex3_opp (a b c : comparison) :
  CompOpp (lex3 a b c) = lex3 (CompOpp a) (CompOpp b) (CompOpp c).
Proof. by destruct a, b, c. Qed.

(** The order of two dates as texts is their order as days. *)
Lemma strftime_leb (d1 d2 : Cal.date) :
  Cal.valid d1 = true → Cal.valid d2 = true →
  String.leb (Cal.strftime d1) (Cal.strftime d2) = true
  ↔ Cal.ymd2ord d1 ≤ Cal.ymd2ord d2.
Proof.
  intros H1 H2. unfold String.leb. rewrite (compare_strftime d1 d2 H1 H2).
  pose proof (ymd2ord_lt d1 d2 H1 H2) as Hlt.
  pose proof (ymd2ord_lt d2 d1 H2 H1) as Hgt.
  rewrite (Z.compare_antisym (Cal.year d1)), (Z.compare_antisym (Cal.month d1)),
    (Z.compare_antisym (Cal.day d1)), <- lex3_opp in Hgt.
  destruct (lex3 _ _ _) eqn:E.
  - split; [|done]. intros _. unfold lex3 in E.
    destruct (Z.compare_spec (Cal.year d1) (Cal.year d2)); try done.
    destruct (Z.compare_spec (Cal.month d1) (Cal.month d2)); try done.
    destruct (Z.compare_spec (Cal.day d1) (Cal.day d2)); try done.
    unfold Cal.ymd2ord. by replace (Cal.year d1) with (Cal.year d2);
      replace (Cal.month d1) with (Cal.month d2); replace (Cal.day d1) with (Cal.day d2).
  - split; [|done]. intros _. specialize (Hlt eq_refl). lia.
  - split; [done|]. specialize (Hgt eq_refl). lia.
Qed.

(** ** The deadline view *)

Lemma insert_by_perm {A} (le : A → A → bool) (x : A) (l : list A) :
  insert_by le x l ≡ₚ x :: l.
Proof.
  induction l as [|y l IH]; simpl; [done|].
  case_match; [done|]. by rewrite IH, Permutation_swap.
Qed.

Lemma sort_by_perm {A} (le : A → A → bool) (l : list A) : sort_by le l ≡ₚ l.
Proof.
  induction l as [|x l IH]; simpl; [done|]. by rewrite insert_by_perm, IH.
Qed.

Lemma insert_by_sorted {A} (le : A → A → bool) (x : A) (l : list A) :
  (∀ a b, le a b = true ∨ le b a = true) →
  Sorted (λ a b, le a b = true) l → Sorted (λ a b, le a b = true) (insert_by le x l).
Proof.
  intros Htot. induction l as [|y l IH]; intros Hs; simpl.
  - by repeat constructor.
  - destruct (le x y) eqn:E.
    + constructor; [done|]. by constructor.
    + apply Sorted_inv in Hs as [Hs Hhd]. constructor; [by apply IH|].
      destruct l as [|z l]; simpl.
      * constructor. by destruct (Htot x y) as [?|?]; [congruence|].
      * apply HdRel_inv in Hhd. destruct (le x z); constructor; [|done].
        by destruct (Htot x y) as [?|?]; [congruence|].
Qed.

Lemma sort_by_sorted {A} (le : A → A → bool) (l : list A) :
  (∀ a b, le a b = true ∨ le b a = true) →
  Sorted (λ a b, le a b = true) (sort_by le l).
Proof.
  intros Htot. induction l as [|x l IH]; simpl; [constructor|].
  by apply insert_by_sorted.
Qed.

Lemma Sorted_map_on {A B} (R : A → A → Prop) (R' : B → B → Prop) (P : A → Prop)
    (f : A → B) (l : list A) :
  (∀ x y, P x → P y → R x y → R' (f x) (f y)) →
  Forall P l → Sorted R l → Sorted R' (map f l).
Proof.
  intros H HP Hs. induction Hs as [|x l Hs IH Hhd]; simpl; [constructor|].
  apply Forall_cons in HP as [Hx HP]. constructor; [by apply IH|].
  destruct Hhd as [|y l Hxy]; simpl; constructor.
  apply Forall_cons in HP as [Hy _]. by apply H.
Qed.

Lemma canonical_date_spec (s : string) :
  canonical_date s = true ↔ ∃ d, Cal.valid d = true ∧ s = Cal.strftime d.
Proof.
  unfold canonical_date. split.
  - destruct (Cal.strptime s) as [d|] eqn:E; [|done].
    intros H%bool_decide_eq_true. exists d. split; [|done]. by apply (strptime_valid s).
  - intros (d & Hv & ->). rewrite strptime_strftime by done. by apply bool_decide_eq_true.
Qed.

Lemma row_deadlines_ok (today : Cal.date) (pid : Z) (r : Parcel) :
  dates_canonical r →
  ∃ es, row_deadlines today pid r = Ok es ∧ Forall (entry_canonical today) es.
Proof.
  intros Hc. unfold row_deadlines.
  assert (∀ (col : Parcel → option string) name label,
            (∀ p, col p = text p !! name) →
            name ∈ deadline_columns →
            ∃ es,
              match col r with
              | Some s =>
                if bool_decide (s = "") then Ok []
                else dl ← Cal.strptime s;
                     Ok [{| de_date := s; de_days_left := days_left dl today;
                            de_type := label; de_id := pid |}]
              | None => Ok []
              end = Ok es ∧ Forall (entry_canonical today) es) as Hcol.
  { intros col name label Hcol Hin. rewrite Hcol.
    destruct (text r !! name) as [s|] eqn:Hs; [|by exists []].
    destruct (proj1 (canonical_date_spec s) (Hc name s Hin Hs)) as (d & Hv & ->).
    rewrite bool_decide_eq_false_2 by apply strftime_nonempty.
    rewrite strptime_strftime by done. simpl. eexists. split; [done|].
    constructor; [|done]. by exists d. }
  destruct (Hcol cure_deadline "cure_deadline" "30-Day CURE") as (a & -> & Ha);
    [done | unfold deadline_columns; set_solver |].
  destruct (Hcol lien_filing_date "lien_filing_date" "45-Day LIEN") as (b & -> & Hb);
    [done | unfold deadline_columns; set_solver |].
  destruct (Hcol attorney_referral_date "attorney_referral_date" "60-Day ATTORNEY")
    as (c & -> & Hc'); [done | unfold deadline_columns; set_solver |].
  simpl. eexists. split; [done|]. by rewrite !Forall_app.
Qed.

Lemma mapM_result_ok {A B} (f : A → result (list B)) (P : B → Prop) (l : list A) :
  (∀ x, x ∈ l → ∃ es, f x = Ok es ∧ Forall P es) →
  ∃ ds, mapM f l = Ok ds ∧ Forall P (concat ds).
Proof.
  induction l as [|x l IH]; intros H.
  - by exists [].
  - destruct (H x) as (es & Hes & HP); [set_solver|].
    destruct IH as (ds & Hds & HPs); [intros y Hy; apply H; set_solver|].
    exists (es :: ds). split.
    + simpl. unfold mbind, result_bind. rewrite Hes. 
      change (mapM f l) with (mapM f l). rewrite Hds. done.
    + simpl. by rewrite Forall_app.
Qed.

Lemma elem_of_rows_by_id (t : Tables) (pid : Z) (p : Parcel) :
  (pid, p) ∈ rows_by_id t ↔ parcels t !! pid = Some p.
Proof.
  unfold rows_by_id. rewrite sort_by_perm. apply elem_of_map_to_list.
Qed.

(** X7.  When the deadline columns of every row hold NULL or a date as
    [strftime] writes it, [view_deadlines] raises nothing and changes
    nothing, and its deadlines, which it sorts by their text, come in the
    order of their days left, the earliest first; the days to the hard
    lien deadline are those from today to 2026-04-01. *)
Theorem view_deadlines_chronological (today : Cal.date) (c : Conn) :
  rows_ok dates_canonical (session c) →
  ∃ v, view_deadlines today c = (Ok v, c)
    ∧ ∀ dv, v = Some dv →
        Sorted Z.le (map de_days_left (dv_deadlines dv))
        ∧ dv_lien_days dv = days_left (Cal.Date 2026 4 1) today.
Proof.
  intros Hok. unfold view_deadlines. cbv zeta.
  set (rows := sort_by _ (filter _ (rows_by_id (session c)))).
  assert (∀ r, r ∈ rows → dates_canonical r.2) as Hrows.
  { intros [pid p]. unfold rows. rewrite sort_by_perm, list_elem_of_filter.
    intros [_ Hin]. apply elem_of_rows_by_id in Hin. by apply (Hok pid). }
  destruct (mapM_result_ok (λ r, row_deadlines today r.1 r.2) (entry_canonical today) rows)
    as (ds & Hds & Hcan).
  { intros r Hr. by apply row_deadlines_ok, Hrows. }
  destruct rows as [|r0 rows0] eqn:Erows; [by exists None|].
  rewrite Hds. simpl. eexists. split; [done|].
  intros dv [= <-]. cbn [dv_deadlines dv_lien_days]. split; [|done].
  apply (Sorted_map_on (λ a b, String.leb (de_date a) (de_date b) = true) Z.le
           (entry_canonical today)).
  - intros x y (dx & Vx & Ex & Dx) (dy & Vy & Ey & Dy) Hle.
    rewrite Ex, Ey in Hle. apply strftime_leb in Hle; [|done..].
    rewrite Dx, Dy. unfold days_left, Cal.days_between. lia.
  - by rewrite sort_by_perm.
  - apply (sort_by_sorted (λ a b, String.leb (de_date a) (de_date b))).
    intros a b. apply String.leb_total.
Qed.

(** ** Logging an action, marking a packet as sent *)

Lemma select_by_id_run (pid : Z) (c : Conn) :
  select_by_id pid c
  = if in_int64 pid then (Ok (parcels (session c) !! pid), c)
    else (Raise OverflowError, c).
Proof.
  unfold select_by_id. rewrite cmd_bind_unfold. unfold lift, bind_int.
  by destruct (in_int64 pid).
Qed.

Lemma stored_real_entered_cost (s : string) :
  ∃ v, stored_real (entered_cost s) = Ok v.
Proof.
  unfold entered_cost. repeat case_match; by eexists.
Qed.

(** An audit row alone, and the commit. *)
Lemma log_commit {A} (a : A) (e : LogEntry) (c : Conn) :
  match parcel_id e with
  | Some pid => is_Some (parcels (session c) !! pid)
  | None => True
  end →
  (_ ← insert_log e; _ ← commit; mret a) c
  = (Ok a,
     {| committed := {| parcels := parcels (session c);
                        enforcement_log := (enforcement_log (session c) ++ [e])%list |};
        session := {| parcels := parcels (session c);
                      enforcement_log := (enforcement_log (session c) ++ [e])%list |} |}).
Proof.
  intros He. rewrite cmd_bind_unfold. unfold insert_log.
  destruct (parcel_id e) as [pid|]; [rewrite bool_decide_eq_true_2 by done|];
    reflexivity.
Qed.

Lemma log_action_run (now action_in sent_in due_in next_in attorney_in cost_in
    notes_in : string) (parcel : option Z) (c : Conn) :
  match parcel with
  | Some pid => is_Some (parcels (session c) !! pid)
  | None => True
  end →
  if bool_decide (stripped action_in = "") then
    log_action now action_in sent_in due_in next_in attorney_in cost_in notes_in
      parcel c = (Ok NoAction, c)
  else
    ∃ c', log_action now action_in sent_in due_in next_in attorney_in cost_in notes_in
            parcel c = (Ok Done, c')
          ∧ logged now action_in parcel c c'.
Proof.
  intros Hparcel. unfold log_action. cbv zeta.
  destruct (bool_decide (stripped action_in = "")); [done|].
  destruct (stored_real_entered_cost (stripped cost_in)) as [v Hv].
  rewrite Hv, bind_lift_ok, log_commit by done.
  eexists. split; [done|]. eexists. cbn. by repeat split.
Qed.

(** X8.  [log_enforcement] either commits exactly one audit row or leaves
    the database as it was.  It writes only for an action that is not
    blank: the row carries the time of the call, the action stripped and
    no response received; it refers to no parcel when [all] was typed, in
    letters of either case, and otherwise to the parcel whose ID was typed,
    which exists; no parcel row changes.  For [all] and an action that is
    not blank it always writes, whatever was typed for the cost. *)
Theorem log_enforcement_effect (now pid_in action_in sent_in due_in next_in
    attorney_in cost_in notes_in : string) (c : Conn) :
  ∃ r c',
    log_enforcement now pid_in action_in sent_in due_in next_in attorney_in cost_in
      notes_in c = (r, c')
    ∧ match r with
      | Ok Done =>
        stripped action_in ≠ ""
        ∧ ∃ parcel,
            logged now action_in parcel c c'
            ∧ match parcel with
              | None => lowered (stripped pid_in) = "all"
              | Some pid => Str.py_int (stripped pid_in) = Some pid
                            ∧ is_Some (parcels (session c) !! pid)
              end
      | _ => c' = c
      end
    ∧ (lowered (stripped pid_in) = "all" → stripped action_in ≠ "" → r = Ok Done).
Proof.
  cut (∃ r c',
    log_enforcement now pid_in action_in sent_in due_in next_in attorney_in cost_in
      notes_in c = (r, c')
    ∧ match r with
      | Ok Done =>
        stripped action_in ≠ ""
        ∧ ∃ parcel,
            logged now action_in parcel c c'
            ∧ match parcel with
              | None => lowered (stripped pid_in) = "all"
              | Some pid => Str.py_int (stripped pid_in) = Some pid
                            ∧ is_Some (parcels (session c) !! pid)
              end
      | _ => c' = c
      end).
  { intros (r & c' & Hrun & Hr). exists r, c'. split; [done|]. split; [done|].
    intros Hall Ha. revert Hrun. unfold log_enforcement. cbv zeta.
    rewrite bool_decide_eq_true_2 by done.
    pose proof (log_action_run now action_in sent_in due_in next_in attorney_in
                  cost_in notes_in None c I) as H.
    rewrite bool_decide_eq_false_2 in H by done. destruct H as (c'' & -> & _).
    by intros [= <- _]. }
  assert (∀ parcel,
            match parcel with
            | None => lowered (stripped pid_in) = "all"
            | Some pid => Str.py_int (stripped pid_in) = Some pid
                          ∧ is_Some (parcels (session c) !! pid)
            end →
            ∃ r c',
              log_action now action_in sent_in due_in next_in attorney_in cost_in
                notes_in parcel c = (r, c')
              ∧ match r with
                | Ok Done =>
                  stripped action_in ≠ ""
                  ∧ ∃ parcel,
                      logged now action_in parcel c c'
                      ∧ match parcel with
                        | None => lowered (stripped pid_in) = "all"
                        | Some pid => Str.py_int (stripped pid_in) = Some pid
                                      ∧ is_Some (parcels (session c) !! pid)
                        end
                | _ => c' = c
                end) as Hlog.
  { intros parcel Hparcel.
    pose proof (log_action_run now action_in sent_in due_in next_in attorney_in
                  cost_in notes_in parcel c) as H.
    destruct (decide (stripped action_in = "")) as [Ha|Ha].
    - rewrite bool_decide_eq_true_2 in H by done. eexists _, _. split; [apply H|done].
      destruct parcel; tauto.
    - rewrite bool_decide_eq_false_2 in H by done.
      destruct H as (c' & Hrun & Hl); [destruct parcel; tauto|].
      exists (Ok Done), c'. split; [done|]. split; [done|]. by exists parcel. }
  unfold log_enforcement. cbv zeta.
  destruct (decide (lowered (stripped pid_in) = "all")) as [Hall|Hall].
  - rewrite bool_decide_eq_true_2 by done. by apply Hlog.
  - rewrite bool_decide_eq_false_2 by done.
    destruct (Str.py_int (stripped pid_in)) as [pid|] eqn:Hpid; [|by exists (Ok BadID), c].
    rewrite cmd_bind_unfold, select_by_id_run.
    destruct (in_int64 pid); [|by eexists _, _].
    destruct (parcels (session c) !! pid) as [p|] eqn:Hp; [|by exists (Ok NoSuchParcel), c].
    apply (Hlog (Some pid)). split; [done|]. by rewrite Hp.
Qed.

Lemma strptime_exn (s : string) (e : exn) : Cal.strptime s = Raise e → e = ValueError.
Proof.
  unfold Cal.strptime. repeat case_match; try discriminate; by intros [= <-].
Qed.

Lemma add_days_exn (d : Cal.date) (k : Z) (e : exn) :
  Cal.add_days d k = Raise e → e = OverflowError.
Proof. unfold Cal.add_days. cbv zeta. case_match; [done|]. by intros [= <-]. Qed.

Lemma calc_deadlines_exn (s : string) (sent : Cal.date) (e : exn) :
  Cal.strptime s = Ok sent → calc_deadlines s = Raise e → e = OverflowError.
Proof.
  intros Hs. unfold calc_deadlines. rewrite Hs. simpl.
  destruct (Cal.add_days sent 30) eqn:E1; simpl;
    [|intros [= <-]; by apply add_days_exn in E1].
  destruct (Cal.add_days sent 45) eqn:E2; simpl;
    [|intros [= <-]; by apply add_days_exn in E2].
  destruct (Cal.add_days sent 60) eqn:E3; simpl;
    [|intros [= <-]; by apply add_days_exn in E3].
  done.
Qed.

(** [set_packet_sent] on a parcel that exists: what it writes, or the
    error of the dates with nothing written. *)
Lemma set_packet_sent_run (now : string) (pid : Z) (s : string)
    (tracking : option string) (p : Parcel) (c : Conn) :
  parcels (session c) !! pid = Some p →
  match calc_deadlines s with
  | Ok d =>
    ∃ c', set_packet_sent now pid s tracking c = (Ok d, c')
          ∧ written c c' pid (set_text (packet_sent_columns s tracking d (text p)) p)
  | Raise e => set_packet_sent now pid s tracking c = (Raise e, c)
  end.
Proof.
  intros Hp. unfold set_packet_sent.
  destruct (calc_deadlines s) as [d|e]; [|by rewrite bind_lift_raise].
  rewrite bind_lift_ok.
  destruct (update_log_commit d pid p
              (λ q, set_text (packet_sent_columns s tracking d (text q)) q)
              (packet_sent_entry now pid s tracking d) c Hp eq_refl)
    as (c' & Hrun & Hw).
  by exists c'.
Qed.

Lemma mark_packet_sent_run (now : string) (today : Cal.date)
    (pid_in date_in tracking_in : string) (pid : Z) (p : Parcel) (c : Conn) :
  Cal.valid today = true →
  Str.py_int (stripped pid_in) = Some pid →
  in_int64 pid = true →
  parcels (session c) !! pid = Some p →
  match Cal.strptime (date_sent_of today date_in) with
  | Raise _ => mark_packet_sent now today pid_in date_in tracking_in c = (Ok BadDate, c)
  | Ok _ =>
    match calc_deadlines (date_sent_of today date_in) with
    | Ok d =>
      ∃ c', mark_packet_sent now today pid_in date_in tracking_in c = (Ok (Sent d), c')
            ∧ written c c' pid
                (set_text (packet_sent_columns (date_sent_of today date_in)
                             (or_none (stripped tracking_in)) d (text p)) p)
    | Raise e =>
      mark_packet_sent now today pid_in date_in tracking_in c = (Raise e, c)
      ∧ e = OverflowError
    end
  end.
Proof.
  intros Hv Hpid H64 Hp. unfold mark_packet_sent, date_sent_of. rewrite Hpid.
  rewrite cmd_bind_unfold, select_by_id_run, H64, Hp. cbv zeta.
  destruct (decide (stripped date_in = "")) as [Hd|Hd].
  - rewrite !bool_decide_eq_true_2 by done. rewrite strptime_strftime by done.
    pose proof (set_packet_sent_run now pid (Cal.strftime today)
                  (or_none (stripped tracking_in)) p c Hp) as H.
    destruct (calc_deadlines (Cal.strftime today)) as [d|e] eqn:E.
    + destruct H as (c' & Hrun & Hw). exists c'. split; [|done].
      by rewrite cmd_bind_unfold, Hrun.
    + split; [by rewrite cmd_bind_unfold, H|].
      by apply (calc_deadlines_exn _ today e (strptime_strftime today Hv)).
  - rewrite !bool_decide_eq_false_2 by done.
    destruct (Cal.strptime (stripped date_in)) as [sent|e] eqn:Hs.
    + pose proof (set_packet_sent_run now pid (stripped date_in)
                    (or_none (stripped tracking_in)) p c Hp) as H.
      destruct (calc_deadlines (stripped date_in)) as [d|e] eqn:E.
      * destruct H as (c' & Hrun & Hw). exists c'. split; [|done].
        by rewrite cmd_bind_unfold, Hrun.
      * split; [by rewrite cmd_bind_unfold, H|].
        by apply (calc_deadlines_exn _ sent e Hs).
    + by rewrite (strptime_exn _ _ Hs).
Qed.

(** X9.  On a valid day [mark_packet_sent] never raises ValueError: a
    date typed that does not parse is refused, with nothing written.  When
    it reports the packet as sent, the ID typed is that of an existing
    parcel, the deadlines are those of [calc_deadlines] on the date typed
    (on today's date when none was typed) and the row and its audit row
    are written and committed as [set_packet_sent] writes them; in every
    other case the database is as it was. *)
Theorem mark_packet_sent_checks_date (now : string) (today : Cal.date)
    (pid_in date_in tracking_in : string) (c : Conn) :
  Cal.valid today = true →
  ∃ r c',
    mark_packet_sent now today pid_in date_in tracking_in c = (r, c')
    ∧ r ≠ Raise ValueError
    ∧ match r with
      | Ok (Sent d) =>
        ∃ pid p,
          Str.py_int (stripped pid_in) = Some pid
          ∧ parcels (session c) !! pid = Some p
          ∧ calc_deadlines (date_sent_of today date_in) = Ok d
          ∧ written c c' pid
              (set_text (packet_sent_columns (date_sent_of today date_in)
                           (or_none (stripped tracking_in)) d (text p)) p)
      | _ => c' = c
      end
    ∧ (r = Ok BadDate →
       stripped date_in ≠ "" ∧ Cal.strptime (stripped date_in) = Raise ValueError).
Proof.
  intros Hv.
  destruct (Str.py_int (stripped pid_in)) as [pid|] eqn:Hpid.
  2:{ exists (Ok BadID), c. unfold mark_packet_sent. rewrite Hpid. by repeat split. }
  destruct (in_int64 pid) eqn:H64.
  2:{ exists (Raise OverflowError), c. unfold mark_packet_sent.
      rewrite Hpid, cmd_bind_unfold, select_by_id_run, H64. by repeat split. }
  destruct (parcels (session c) !! pid) as [p|] eqn:Hp.
  2:{ exists (Ok NoSuchParcel), c. unfold mark_packet_sent.
      rewrite Hpid, cmd_bind_unfold, select_by_id_run, H64, Hp. by repeat split. }
  pose proof (mark_packet_sent_run now today pid_in date_in tracking_in pid p c
                Hv Hpid H64 Hp) as H.
  destruct (Cal.strptime (date_sent_of today date_in)) as [sent|e] eqn:Hs.
  - destruct (calc_deadlines (date_sent_of today date_in)) as [d|e] eqn:Hd.
    + destruct H as (c' & Hrun & Hw). exists (Ok (Sent d)), c'.
      split; [done|]. split; [done|]. split; [|done]. by exists pid, p.
    + destruct H as [Hrun ->]. exists (Raise OverflowError), c. by repeat split.
  - exists (Ok BadDate), c. split; [done|]. split; [done|]. split; [done|].
    intros _. revert Hs. unfold date_sent_of.
    destruct (decide (stripped date_in = "")) as [Hd|Hd].
    + rewrite bool_decide_eq_true_2 by done. by rewrite strptime_strftime.
    + rewrite bool_decide_eq_false_2 by done. intros Hs. split; [done|].
      by rewrite (strptime_exn _ _ Hs) in Hs.
Qed.

(** ** Columns written and columns kept *)

Lemma packet_sent_columns_other (s : string) (tracking : option string)
    (d : Deadlines) (t : gmap string string) (col : string) :
  col ∉ packet_columns → packet_sent_columns s tracking d t !! col = t !! col.
Proof.
  intros Hcol. unfold packet_sent_columns. cbv zeta.
  assert (col ≠ "date_packet_sent" ∧ col ≠ "certified_mail_tracking"
          ∧ col ≠ "cure_deadline" ∧ col ≠ "lien_filing_date"
          ∧ col ≠ "attorney_referral_date" ∧ col ≠ "enforcement_step"
          ∧ col ≠ "next_action") as (?&?&?&?&?&?&?).
  { unfold packet_columns in Hcol. repeat split; intros ->; apply Hcol; set_solver. }
  destruct tracking; by simplify_map_eq.
Qed.

Lemma packet_sent_columns_tracking (s : string) (tracking : option string)
    (d : Deadlines) (t : gmap string string) :
  packet_sent_columns s tracking d t !! "certified_mail_tracking"
  = match tracking with Some n => Some n | None => t !! "certified_mail_tracking" end
  ∧ packet_sent_columns s tracking d t !! "next_action"
    = Some ("Await cure by " +:+ dl_cure d).
Proof.
  unfold packet_sent_columns. cbv zeta. destruct tracking; by simplify_map_eq.
Qed.

(** X10.  After [mark_packet_sent] has reported a packet as sent, the
    committed row carries the date as typed (today's when none was typed),
    the three deadlines returned, the step [Demand Sent] and the next
    action [Await cure by] the cure date.  A tracking number typed
    replaces the one stored; with none typed the one stored stays.  No
    other column changes. *)
Theorem mark_packet_sent_keeps_tracking (now : string) (today : Cal.date)
    (pid_in date_in tracking_in : string) (pid : Z) (p : Parcel) (c c' : Conn)
    (d : Deadlines) :
  Cal.valid today = true →
  Str.py_int (stripped pid_in) = Some pid →
  parcels (session c) !! pid = Some p →
  mark_packet_sent now today pid_in date_in tracking_in c = (Ok (Sent d), c') →
  ∃ p',
    parcels (committed c') !! pid = Some p'
    ∧ certified_mail_tracking p'
      = (if bool_decide (stripped tracking_in = "") then certified_mail_tracking p
         else Some (stripped tracking_in))
    ∧ date_packet_sent p'
      = Some (if bool_decide (stripped date_in = "") then Cal.strftime today
              else stripped date_in)
    ∧ cure_deadline p' = Some (dl_cure d)
    ∧ lien_filing_date p' = Some (dl_lien d)
    ∧ attorney_referral_date p' = Some (dl_attorney d)
    ∧ enforcement_step p' = Some "Demand Sent"
    ∧ next_action p' = Some ("Await cure by " +:+ dl_cure d)
    ∧ (∀ col, col ∉ packet_columns → text p' !! col = text p !! col)
    ∧ sqft p' = sqft p ∧ pct_campus p' = pct_campus p
    ∧ past_due_balance p' = past_due_balance p ∧ weekly_rate p' = weekly_rate p.
Proof.
  intros Hv Hpid Hp Hrun.
  destruct (in_int64 pid) eqn:H64.
  2:{ unfold mark_packet_sent in Hrun.
      by rewrite Hpid, cmd_bind_unfold, select_by_id_run, H64 in Hrun. }
  pose proof (mark_packet_sent_run now today pid_in date_in tracking_in pid p c
                Hv Hpid H64 Hp) as H.
  destruct (Cal.strptime (date_sent_of today date_in)); [|congruence].
  destruct (calc_deadlines (date_sent_of today date_in)) as [d'|e];
    [|destruct H; congruence].
  destruct H as (c'' & Hrun' & Hw). rewrite Hrun in Hrun'. injection Hrun' as <- <-.
  eexists. split; [by apply (written_row c)|].
  destruct (packet_sent_columns_lookup (date_sent_of today date_in)
              (or_none (stripped tracking_in)) d (text p)) as (L1 & L2 & L3 & L4 & L5 & _).
  destruct (packet_sent_columns_tracking (date_sent_of today date_in)
              (or_none (stripped tracking_in)) d (text p)) as (L6 & L7).
  unfold certified_mail_tracking, date_packet_sent, cure_deadline, lien_filing_date,
    attorney_referral_date, enforcement_step, next_action. cbn [text set_text].
  split. { rewrite L6. unfold or_none. by case_bool_decide. }
  split; [done|]. repeat (split; [done|]).
  split; [|done]. intros col Hcol. by apply packet_sent_columns_other.
Qed.

Lemma foldl_insert_lookup (kvs : list (string * string)) (t : gmap string string)
    (k : string) :
  NoDup kvs.*1 →
  foldl (λ t kv, <[kv.1 := kv.2]> t) t kvs !! k
  = match list_find (λ kv, kv.1 = k) kvs with
    | Some (_, kv) => Some kv.2
    | None => t !! k
    end.
Proof.
  revert t. induction kvs as [|[k' v'] kvs IH]; intros t Hnd; [done|].
  apply NoDup_cons in Hnd as [Hk' Hnd]. cbn [foldl]. rewrite IH by done.
  cbn [list_find]. simpl. destruct (decide (k' = k)) as [->|Hne].
  - simpl. destruct (list_find (λ kv, kv.1 = k) kvs) as [[i kv]|] eqn:E.
    + apply list_find_Some in E as (Hi & Hkv & _).
      exfalso. apply Hk'. apply list_elem_of_fmap. exists kv. split; [done|].
      by apply list_elem_of_lookup_2 in Hi.
    + simpl. apply lookup_insert_eq.
  - destruct (list_find (λ kv, kv.1 = k) kvs) as [[i kv]|]; simpl; [done|].
    by apply lookup_insert_ne.
Qed.

Lemma omap_entry_keys (typed : string → string) (l : list string) :
  sublist (omap (entry_of typed) l).*1 l.
Proof.
  induction l as [|f l IH]; [done|]. cbn [omap list_omap]. unfold entry_of at 1. cbv zeta.
  case_bool_decide; simpl; by constructor.
Qed.

Lemma omap_entry_find (typed : string → string) (l : list string) (k : string) :
  match list_find (λ kv, kv.1 = k) (omap (entry_of typed) l) with
  | Some (_, kv) => kv.2 = stripped (typed k) ∧ k ∈ l ∧ stripped (typed k) ≠ ""
  | None => k ∉ l ∨ stripped (typed k) = ""
  end.
Proof.
  induction l as [|f l IH]; [left; set_solver|].
  cbn [omap list_omap]. unfold entry_of at 1. cbv zeta. case_bool_decide as Hf; simpl.
  - destruct (list_find _ _) as [[i kv]|].
    + destruct IH as (?&?&?). repeat split; [done|by apply elem_of_cons; right|done].
    + destruct IH as [?|?]; [|by right].
      destruct (decide (k = f)) as [->|]; [by right|].
      left. intros [?|?]%elem_of_cons; done.
  - destruct (decide (f = k)) as [->|Hne]; simpl.
    + repeat split; [by apply elem_of_cons; left|done].
    + destruct (list_find _ _) as [[i kv]|]; simpl.
      * destruct IH as (?&?&?). repeat split; [done|by apply elem_of_cons; right|done].
      * destruct IH as [?|?]; [|by right].
        left. intros [?|?]%elem_of_cons; done.
Qed.

Lemma lender_quick_entry_run (now pid_in : string) (typed : string → string)
    (pid : Z) (p : Parcel) (c : Conn) :
  Str.py_int (stripped pid_in) = Some pid →
  in_int64 pid = true →
  parcels (session c) !! pid = Some p →
  if bool_decide (Forall (λ f, stripped (typed f) = "") lender_fields) then
    lender_quick_entry now pid_in typed c = (Ok NoChanges, c)
  else
    ∃ c' p',
      lender_quick_entry now pid_in typed c = (Ok Done, c')
      ∧ written c c' pid p'
      ∧ (∀ f, f ∈ lender_fields →
           text p' !! f = if bool_decide (stripped (typed f) = "") then text p !! f
                          else Some (stripped (typed f)))
      ∧ (∀ g, g ∉ lender_fields → text p' !! g = text p !! g)
      ∧ sqft p' = sqft p ∧ pct_campus p' = pct_campus p
      ∧ past_due_balance p' = past_due_balance p ∧ weekly_rate p' = weekly_rate p.
Proof.
  intros Hpid H64 Hp. unfold lender_quick_entry. rewrite Hpid.
  rewrite cmd_bind_unfold, select_by_id_run, H64, Hp. cbv zeta.
  change (entered typed) with (omap (entry_of typed) lender_fields).
  assert (∀ k, foldl (λ t kv, <[kv.1 := kv.2]> t) (text p)
                 (omap (entry_of typed) lender_fields) !! k
               = if bool_decide (k ∈ lender_fields ∧ stripped (typed k) ≠ "")
                 then Some (stripped (typed k)) else text p !! k) as Hlook.
  { intros k. rewrite foldl_insert_lookup.
    - pose proof (omap_entry_find typed lender_fields k) as H.
      destruct (list_find _ _) as [[i kv]|].
      + destruct H as (-> & ? & ?). by rewrite bool_decide_eq_true_2.
      + rewrite bool_decide_eq_false_2; [done|]. destruct H; tauto.
    - eapply sublist_NoDup; [|apply omap_entry_keys].
      apply (bool_decide_unpack (NoDup lender_fields)). reflexivity. }
  case_bool_decide as Hall.
  - assert (omap (entry_of typed) lender_fields = []) as ->; [|done].
    revert Hall. generalize lender_fields. intros l Hl.
    induction Hl as [|f l Hf Hl IH]; [done|]. cbn [omap list_omap]. unfold entry_of at 1.
    cbv zeta. by rewrite bool_decide_eq_true_2.
  - destruct (omap (entry_of typed) lender_fields) as [|kv kvs] eqn:E.
    { exfalso. apply Hall. apply Forall_forall. intros f Hf.
      pose proof (omap_entry_find typed lender_fields f) as H. rewrite E in H.
      simpl in H. destruct H; [done|]. done. }
    rewrite <- E in *.
    destruct (update_log_commit Done pid p
                (λ p, set_text (foldl (λ t kv, <[kv.1 := kv.2]> t) (text p)
                                  (omap (entry_of typed) lender_fields)) p)
                (change_entry now pid
                   [Txt ("Lender research updated: "
                         +:+ join_comma (omap (entry_of typed) lender_fields).*1)]
                   "Research tracker entry") c Hp eq_refl) as (c' & Hrun & Hw).
    eexists c', _. split; [exact Hrun|]. split; [exact Hw|]. cbn [text set_text].
    split; [|split; [|done]].
    + intros f Hf. rewrite Hlook. repeat case_bool_decide; try done; tauto.
    + intros g Hg. rewrite Hlook. rewrite bool_decide_eq_false_2; [done|]. tauto.
Qed.

Lemma update_parcels_id (pid : Z) (c : Conn) : update_parcels pid (λ p, p) c = (Ok (), c).
Proof.
  unfold update_parcels.
  assert (alter (λ p : Parcel, p) pid (parcels (session c)) = parcels (session c)) as ->.
  { apply map_eq. intros j. destruct (decide (j = pid)) as [->|].
    - rewrite lookup_alter_eq. by destruct (_ !! _).
    - by rewrite lookup_alter_ne. }
  by rewrite tables_eta, conn_eta.
Qed.

Lemma mark_verified_run (now pid_in : string) (what : verified) (pid : Z)
    (c : Conn) :
  Str.py_int (stripped pid_in) = Some pid →
  if in_int64 pid then
    match parcels (session c) !! pid with
    | None => mark_verified now pid_in what c = (Raise IntegrityError, c)
    | Some _ =>
      ∃ c' e,
        mark_verified now pid_in what c = (Ok Done, c')
        ∧ committed c' = session c'
        ∧ parcels (session c') = parcels (session c)
        ∧ enforcement_log (session c') = (enforcement_log (session c) ++ [e])%list
        ∧ parcel_id e = Some pid
    end
  else mark_verified now pid_in what c = (Raise OverflowError, c).
Proof.
  intros Hpid. unfold mark_verified. rewrite Hpid.
  unfold bind_int. destruct (in_int64 pid); [|by rewrite bind_lift_raise].
  rewrite bind_lift_ok, cmd_bind_unfold, update_parcels_id.
  destruct (parcels (session c) !! pid) as [p|] eqn:Hp.
  - rewrite log_commit by (cbn; by rewrite Hp). eexists _, _. by repeat split.
  - rewrite cmd_bind_unfold.
    by rewrite (insert_log_missing (change_entry now pid _ _) pid c eq_refl Hp).
Qed.

(** ** The timeline *)

Lemma mapM_result_raise {A B} (f : A → result B) (l : list A) (x : A) (e : exn) :
  x ∈ l → (∃ e', f x = Raise e') → (∀ y e', f y = Raise e' → e' = e) →
  mapM f l = Raise e.
Proof.
  intros Hx [e0 Hfx] Hall. induction l as [|y l IH]; [by apply elem_of_nil in Hx|].
  cbn [mapM].
  destruct (f y) as [b|e'] eqn:Hy; [|by rewrite (Hall y e' Hy)].
  apply elem_of_cons in Hx as [->|Hx]; [congruence|].
  by rewrite (IH Hx).
Qed.

Lemma update_parcel_deadline_run (now pid_in sel : string) (pid : Z) (p : Parcel)
    (c : Conn) :
  Str.py_int pid_in = Some pid →
  parcels (session c) !! pid = Some p →
  ∃ c', update_parcel now pid_in "4" sel c = (Ok Updated, c')
        ∧ written c c' pid (set_text (<["deadline" := sel]> (text p)) p).
Proof.
  intros Hpid Hp. rewrite (update_parcel_choice now pid_in "4" sel pid p c Hpid Hp).
  change (assoc "4" field_map) with (Some ("deadline", "Deadline (YYYY-MM-DD)", @None (list string))).
  cbv zeta. cbn [chosen_value].
  rewrite !bool_decide_eq_false_2 by done.
  apply (update_log_commit Updated pid p
           (λ p, set_text (<["deadline" := sel]> (text p)) p)); done.
Qed.

(** X13.  [update_parcel] stores a deadline as typed, without parsing it.
    Once it has stored a text that [strptime] rejects, [view_timeline]
    raises ValueError at its key deadlines, at whatever time it is run, and
    changes nothing. *)
Theorem free_text_deadline_breaks_timeline (now pid_in sel : string) (c c' : Conn)
    (at_time : datetime) :
  update_parcel now pid_in "4" sel c = (Ok Updated, c') →
  sel ≠ "" →
  Cal.strptime sel = Raise ValueError →
  view_timeline at_time c' = (Raise ValueError, c').
Proof.
  intros Hrun Hne Hbad.
  destruct (Str.py_int pid_in) as [pid|] eqn:Hpid;
    [|unfold update_parcel in Hrun; by rewrite Hpid in Hrun].
  destruct (parcels (session c) !! pid) as [p|] eqn:Hp.
  2:{ unfold update_parcel in Hrun. rewrite Hpid, cmd_bind_unfold in Hrun.
      unfold select_parcel in Hrun. by rewrite Hp in Hrun. }
  destruct (update_parcel_deadline_run now pid_in sel pid p c Hpid Hp)
    as (c'' & Hrun' & Hw).
  rewrite Hrun in Hrun'. injection Hrun' as <-.
  destruct Hw as (Hcommit & Hrows & e & Hlog & He).
  unfold view_timeline. rewrite Hlog.
  destruct (enforcement_log (session c) ++ [e])%list as [|e0 log] eqn:El;
    [by destruct (enforcement_log (session c))|].
  cbv zeta.
  set (p' := set_text (<["deadline" := sel]> (text p)) p) in *.
  rewrite (mapM_result_raise _ _ (pid, p') ValueError); [done| | |].
  - rewrite sort_by_perm. apply list_elem_of_filter. split.
    + unfold has_deadline, deadline, p'. cbn [text set_text snd].
      rewrite lookup_insert_eq. by rewrite bool_decide_eq_false_2.
    + apply elem_of_rows_by_id. rewrite Hrows. apply lookup_insert_eq.
  - exists ValueError. unfold deadline, p'. cbn [text set_text snd].
    rewrite lookup_insert_eq. cbn [default from_option id]. unfold timeline_due.
    by rewrite Hbad.
  - intros y e' Hy. cbv zeta in Hy. unfold timeline_due in Hy.
    destruct (Cal.strptime (default "" (deadline y.2))) eqn:E; [done|].
    apply strptime_exn in E as ->. by injection Hy as <-.
Qed.

Lemma free_text_deadline_breaks_timeline_witness :
  ∃ c',
    update_parcel "2026-03-02 09:00:00" "10" "4" "March 15" conn_sample = (Ok Updated, c')
    ∧ view_timeline {| dt_date := Cal.Date 2026 3 2; dt_us := 0 |} c'
      = (Raise ValueError, c').
Proof.
  destruct (update_parcel "2026-03-02 09:00:00" "10" "4" "March 15" conn_sample)
    as [r c'] eqn:E.
  assert (r = Ok Updated) as -> by (vm_compute in E; congruence).
  exists c'. split; [done|].
  by apply (free_text_deadline_breaks_timeline _ _ _ _ _ _ E).
Defined.

(** ** The lender research tracker *)

Lemma elem_of_tracker_rows (t : Tables) (pid : Z) (p : Parcel) :
  (pid, p) ∈ tracker_rows t ↔ parcels t !! pid = Some p ∧ non_current p = true.
Proof.
  unfold tracker_rows. rewrite sort_by_perm, list_elem_of_filter, elem_of_rows_by_id.
  simpl. tauto.
Qed.

Lemma mapM_result_total {A B} (f : A → result B) (l : list A) :
  (∀ x, x ∈ l → ∃ b, f x = Ok b) → ∃ bs, mapM f l = Ok bs.
Proof.
  induction l as [|x l IH]; intros H; [by exists []|].
  destruct (H x) as [b Hb]; [by apply elem_of_cons; left|].
  destruct IH as [bs Hbs]; [intros y Hy; apply H; by apply elem_of_cons; right|].
  exists (b :: bs). cbn [mapM]. rewrite Hb. simpl. by rewrite Hbs.
Qed.

Lemma lender_research_tracker_run (now choice_in pid_in : string)
    (typed : string → string) (c : Conn) :
  (¬ has_target (session c) →
   lender_research_tracker now choice_in pid_in typed c = (Ok NoTargets, c))
  ∧ ((∃ pid p, parcels (session c) !! pid = Some p ∧ non_current p = true
               ∧ business_name p = None) →
     lender_research_tracker now choice_in pid_in typed c = (Raise TypeError, c))
  ∧ (has_target (session c) → targets_named (session c) →
     lender_research_tracker now choice_in pid_in typed c
     = tracker_choice now choice_in pid_in typed c).
Proof.
  unfold lender_research_tracker.
  split; [|split].
  - intros Hno. destruct (tracker_rows (session c)) as [|[pid p] rows] eqn:E; [done|].
    exfalso. apply Hno. exists pid, p. apply elem_of_tracker_rows. rewrite E.
    by apply elem_of_cons; left.
  - intros (pid & p & Hp & Hn & Hname).
    assert ((pid, p) ∈ tracker_rows (session c)) as Hin by by apply elem_of_tracker_rows.
    destruct (tracker_rows (session c)) as [|r rows] eqn:E;
      [by apply elem_of_nil in Hin|].
    rewrite (mapM_result_raise summary_line (r :: rows) (pid, p) TypeError Hin).
    + by rewrite bind_lift_raise.
    + exists TypeError. unfold summary_line. simpl. by rewrite Hname.
    + intros y e. unfold summary_line. by destruct (business_name y.2); intros [= <-].
  - intros (pid & p & Hp & Hn) Hnamed.
    assert ((pid, p) ∈ tracker_rows (session c)) as Hin by by apply elem_of_tracker_rows.
    destruct (mapM_result_total summary_line (tracker_rows (session c))) as [bs Hbs].
    { intros [q r] [Hq Hr]%elem_of_tracker_rows. unfold summary_line. simpl.
      destruct (Hnamed q r Hq Hr) as [n ->]. by exists (). }
    destruct (tracker_rows (session c)) as [|r rows] eqn:E;
      [by apply elem_of_nil in Hin|].
    by rewrite Hbs, bind_lift_ok.
Qed.

Lemma tracker_choice_entry (now choice_in pid_in : string) (typed : string → string)
    (c : Conn) :
  stripped choice_in = "2" →
  tracker_choice now choice_in pid_in typed c
  = (r ← lender_quick_entry now pid_in typed; mret (Answered r)) c.
Proof. intros H. unfold tracker_choice. by rewrite H. Qed.

Lemma tracker_choice_verified (now choice_in pid_in : string) (typed : string → string)
    (what : verified) (c : Conn) :
  stripped choice_in = verified_choice what →
  tracker_choice now choice_in pid_in typed c
  = (r ← mark_verified now pid_in what; mret (Answered r)) c.
Proof. intros H. unfold tracker_choice. rewrite H. by destruct what. Qed.

(** X11.  The quick entry of [lender_research_tracker], choice 2, for an
    existing parcel, in a table where some parcel is other than CURRENT and
    every such parcel has a business name, so that the summary is printed.
    With all eight prompts left blank it writes nothing.  Otherwise it
    stores what was typed, stripped, in the columns typed into, keeps the
    columns left blank and every other column, and commits the change with
    one audit row of the parcel. *)
Theorem lender_quick_entry_effect (now choice_in pid_in : string)
    (typed : string → string) (pid : Z) (p : Parcel) (c : Conn) :
  stripped choice_in = "2" →
  Str.py_int (stripped pid_in) = Some pid →
  in_int64 pid = true →
  parcels (session c) !! pid = Some p →
  has_target (session c) →
  targets_named (session c) →
  if bool_decide (Forall (λ f, stripped (typed f) = "") lender_fields) then
    lender_research_tracker now choice_in pid_in typed c = (Ok (Answered NoChanges), c)
  else
    ∃ c' p',
      lender_research_tracker now choice_in pid_in typed c = (Ok (Answered Done), c')
      ∧ written c c' pid p'
      ∧ (∀ f, f ∈ lender_fields →
           text p' !! f = if bool_decide (stripped (typed f) = "") then text p !! f
                          else Some (stripped (typed f)))
      ∧ (∀ g, g ∉ lender_fields → text p' !! g = text p !! g)
      ∧ sqft p' = sqft p ∧ pct_campus p' = pct_campus p
      ∧ past_due_balance p' = past_due_balance p ∧ weekly_rate p' = weekly_rate p.
Proof.
  intros Hchoice Hpid H64 Hp Htarget Hnamed.
  rewrite (proj2 (proj2 (lender_research_tracker_run now choice_in pid_in typed c))
             Htarget Hnamed).
  rewrite tracker_choice_entry by done. rewrite cmd_bind_unfold.
  pose proof (lender_quick_entry_run now pid_in typed pid p c Hpid H64 Hp) as H.
  destruct (bool_decide (Forall (λ f, stripped (typed f) = "") lender_fields)).
  - by rewrite H.
  - destruct H as (c' & p' & Hrun & H). exists c', p'. by rewrite Hrun.
Qed.

(** X12.  Choices 3 and 4 of [lender_research_tracker] do not look the
    parcel up.  Once the summary is printed (some parcel is other than
    CURRENT, and every such parcel has a business name): for an ID of 64
    bits that has no row the UPDATE changes nothing and the audit row fails
    its foreign key, so sqlite3.IntegrityError is raised and nothing is
    written; an ID beyond 64 bits cannot be bound, OverflowError is raised
    and nothing is written; for an existing parcel one audit row of that
    parcel is committed, and no column kept in a [Parcel] changes. *)
Theorem mark_verified_unchecked (now choice_in pid_in : string)
    (typed : string → string) (what : verified) (pid : Z) (c : Conn) :
  stripped choice_in = verified_choice what →
  Str.py_int (stripped pid_in) = Some pid →
  has_target (session c) →
  targets_named (session c) →
  if in_int64 pid then
    match parcels (session c) !! pid with
    | None =>
      lender_research_tracker now choice_in pid_in typed c = (Raise IntegrityError, c)
    | Some _ =>
      ∃ c' e,
        lender_research_tracker now choice_in pid_in typed c = (Ok (Answered Done), c')
        ∧ committed c' = session c'
        ∧ parcels (session c') = parcels (session c)
        ∧ enforcement_log (session c') = (enforcement_log (session c) ++ [e])%list
        ∧ parcel_id e = Some pid
    end
  else
    lender_research_tracker now choice_in pid_in typed c = (Raise OverflowError, c).
Proof.
  intros Hchoice Hpid Htarget Hnamed.
  rewrite (proj2 (proj2 (lender_research_tracker_run now choice_in pid_in typed c))
             Htarget Hnamed).
  rewrite (tracker_choice_verified now choice_in pid_in typed what c Hchoice).
  rewrite cmd_bind_unfold.
  pose proof (mark_verified_run now pid_in what pid c Hpid) as H.
  destruct (in_int64 pid); [|by rewrite H].
  destruct (parcels (session c) !! pid) as [p|]; [|by rewrite H].
  destruct H as (c' & e & Hrun & H). exists c', e. by rewrite Hrun.
Qed.

(** X20.  [lender_research_tracker] before it asks for anything.  When no
    parcel has a status other than CURRENT it returns at once, whatever
    would have been typed.  When a parcel other than CURRENT has no
    business name, the summary raises TypeError, whatever the choice.  In
    both cases nothing is written.  Otherwise a choice that is none of 1
    to 4 leads back to the menu with nothing written. *)
Theorem lender_research_tracker_summary (now choice_in pid_in : string)
    (typed : string → string) (c : Conn) :
  (¬ has_target (session c) →
   lender_research_tracker now choice_in pid_in typed c = (Ok NoTargets, c))
  ∧ ((∃ pid p, parcels (session c) !! pid = Some p ∧ non_current p = true
               ∧ business_name p = None) →
     lender_research_tracker now choice_in pid_in typed c = (Raise TypeError, c))
  ∧ (has_target (session c) → targets_named (session c) →
     stripped choice_in ∉ ["1"; "2"; "3"; "4"] →
     lender_research_tracker now choice_in pid_in typed c = (Ok Back, c)).
Proof.
  destruct (lender_research_tracker_run now choice_in pid_in typed c) as (H1 & H2 & H3).
  split; [exact H1|]. split; [exact H2|].
  intros Ht Hn Hc. rewrite (H3 Ht Hn). unfold tracker_choice. cbv zeta.
  rewrite !bool_decide_eq_false_2; [done|..]; intros E; apply Hc; rewrite E;
    repeat ((by apply elem_of_cons; left) || (apply elem_of_cons; right)).
Qed.

(** ** An invariant of the deadline columns *)

Section row_invariant.
Variable P : Parcel → Prop.

Lemma rows_ok_alter (t : Tables) (pid : Z) (f : Parcel → Parcel)
    (l : list LogEntry) :
  rows_ok P t → (∀ p, P p → P (f p)) →
  rows_ok P {| parcels := alter f pid (parcels t); enforcement_log := l |}.
Proof.
  intros Ht Hf q p'. simpl. destruct (decide (q = pid)) as [->|Hne].
  - rewrite lookup_alter_eq. destruct (parcels t !! pid) as [p|] eqn:Hp; [|done].
    intros [= <-]. by apply Hf, (Ht pid).
  - rewrite lookup_alter_ne by done. apply Ht.
Qed.

Lemma update_log_commit_rows {A} (a : A) (pid : Z) (f : Parcel → Parcel)
    (e : LogEntry) (c : Conn) :
  conn_rows_ok P c → (∀ p, P p → P (f p)) →
  conn_rows_ok P (snd ((_ ← update_parcels pid f; _ ← insert_log e; _ ← commit; mret a) c)).
Proof.
  intros [Hc Hs] Hf.
  pose proof (rows_ok_alter (session c) pid f (enforcement_log (session c)) Hs Hf)
    as Halt.
  rewrite cmd_bind_unfold. unfold update_parcels at 1. cbv iota beta.
  rewrite cmd_bind_unfold. unfold insert_log at 1.
  cbn [session committed parcels enforcement_log].
  destruct (match parcel_id e with Some _ => _ | None => _ end);
    cbv iota beta; [|by split].
  split; intros q p'; simpl; apply Halt.
Qed.

Lemma log_commit_rows {A} (a : A) (e : LogEntry) (c : Conn) :
  conn_rows_ok P c →
  conn_rows_ok P (snd ((_ ← insert_log e; _ ← commit; mret a) c)).
Proof.
  intros [Hc Hs]. rewrite cmd_bind_unfold. unfold insert_log at 1.
  destruct (match parcel_id e with Some _ => _ | None => _ end);
    cbv iota beta; [|by split].
  split; intros q p'; simpl; apply Hs.
Qed.
End row_invariant.

Lemma field_map_columns (choice field label : string) (options : option (list string)) :
  assoc choice field_map = Some (field, label, options) →
  field ∉ deadline_columns.
Proof.
  unfold field_map. cbn [assoc].
  repeat (case_bool_decide; [intros [= <- _ _]; by apply (bool_decide_unpack _)|]).
  done.
Qed.

Lemma snd_bind_mret {A B} (m : cmd A) (g : A → B) (c : Conn) :
  snd ((a ← m; mret (g a)) c) = snd (m c).
Proof. rewrite cmd_bind_unfold. by destruct (m c) as [[a|e] c']. Qed.

Lemma canonical_strftime (d : Cal.date) :
  Cal.valid d = true → canonical_date (Cal.strftime d) = true.
Proof. intros. apply canonical_date_spec. by exists d. Qed.

Lemma dates_canonical_same_text (p q : Parcel) :
  text q = text p → dates_canonical p → dates_canonical q.
Proof. intros E H col s. rewrite E. apply H. Qed.

Lemma dates_canonical_insert (p : Parcel) (k v : string) :
  k ∉ deadline_columns → dates_canonical p →
  dates_canonical (set_text (<[k := v]> (text p)) p).
Proof.
  intros Hk H col s Hcol. cbn [text set_text].
  rewrite lookup_insert_ne by (intros ->; by apply Hk). by apply H.
Qed.

Lemma dates_canonical_packet (s : string) (tracking : option string) (d : Deadlines)
    (p : Parcel) :
  calc_deadlines s = Ok d → dates_canonical p →
  dates_canonical (set_text (packet_sent_columns s tracking d (text p)) p).
Proof.
  intros Hd H col v Hcol. cbn [text set_text].
  destruct (calc_deadlines_ok s d Hd) as (sent & cure & lien & att & Hs & Hc & Hl & Ha & ->).
  destruct (packet_sent_columns_lookup s tracking
              {| dl_cure := Cal.strftime cure; dl_lien := Cal.strftime lien;
                 dl_attorney := Cal.strftime att |} (text p))
    as (_ & L2 & L3 & L4 & _).
  unfold deadline_columns in Hcol.
  repeat (apply elem_of_cons in Hcol as [->|Hcol]);
    [rewrite L2 | rewrite L3 | rewrite L4 | by apply elem_of_nil in Hcol];
    intros [= <-]; apply canonical_strftime; by eapply add_days_valid.
Qed.

Lemma set_packet_sent_dates (now : string) (pid : Z) (s : string)
    (tracking : option string) (c : Conn) :
  dates_ok c → dates_ok (snd (set_packet_sent now pid s tracking c)).
Proof.
  intros Hc. unfold set_packet_sent.
  destruct (calc_deadlines s) as [d|x] eqn:Hd;
    [rewrite bind_lift_ok | by rewrite bind_lift_raise].
  apply update_log_commit_rows; [done|]. intros p. by apply dates_canonical_packet.
Qed.

Lemma entered_lookup (typed : string → string) (t : gmap string string) (k : string) :
  foldl (λ t kv, <[kv.1 := kv.2]> t) t (entered typed) !! k
  = if bool_decide (k ∈ lender_fields ∧ stripped (typed k) ≠ "")
    then Some (stripped (typed k)) else t !! k.
Proof.
  change (entered typed) with (omap (entry_of typed) lender_fields).
  rewrite foldl_insert_lookup.
  - pose proof (omap_entry_find typed lender_fields k) as H.
    destruct (list_find _ _) as [[i kv]|].
    + destruct H as (-> & ? & ?). by rewrite bool_decide_eq_true_2.
    + rewrite bool_decide_eq_false_2; [done|]. destruct H; tauto.
  - eapply sublist_NoDup; [|apply omap_entry_keys].
    apply (bool_decide_unpack (NoDup lender_fields)). reflexivity.
Qed.

Lemma lender_quick_entry_dates (now pid_in : string) (typed : string → string)
    (c : Conn) :
  dates_ok c → dates_ok (snd (lender_quick_entry now pid_in typed c)).
Proof.
  intros Hc. unfold lender_quick_entry.
  destruct (Str.py_int (stripped pid_in)) as [pid|]; [|done].
  rewrite cmd_bind_unfold, select_by_id_run.
  destruct (in_int64 pid); [|done].
  destruct (parcels (session c) !! pid) as [p|]; [|done].
  cbv zeta. destruct (entered typed) as [|kv kvs] eqn:E; [done|]. rewrite <- E.
  apply update_log_commit_rows; [done|]. intros q Hq col s Hcol.
  cbn [text set_text]. rewrite entered_lookup.
  rewrite bool_decide_eq_false_2; [by apply Hq|].
  intros [Hin _]. revert Hcol Hin. unfold deadline_columns, lender_fields.
  rewrite !elem_of_cons, !elem_of_nil. intros [->|[->|[->|[]]]]; intros H;
    repeat (destruct H as [H|H]; [discriminate H|]); done.
Qed.

Lemma mark_verified_dates (now pid_in : string) (what : verified) (c : Conn) :
  dates_ok c → dates_ok (snd (mark_verified now pid_in what c)).
Proof.
  intros Hc. unfold mark_verified.
  destruct (Str.py_int (stripped pid_in)) as [pid|]; [|done].
  unfold bind_int. destruct (in_int64 pid);
    [rewrite bind_lift_ok | by rewrite bind_lift_raise].
  by apply update_log_commit_rows.
Qed.

Lemma lender_research_tracker_dates (now choice_in pid_in : string)
    (typed : string → string) (c : Conn) :
  dates_ok c → dates_ok (snd (lender_research_tracker now choice_in pid_in typed c)).
Proof.
  intros Hc. unfold lender_research_tracker.
  destruct (tracker_rows (session c)) as [|r rows]; [done|].
  destruct (mapM summary_line (r :: rows)) as [bs|e];
    [rewrite bind_lift_ok | by rewrite bind_lift_raise].
  unfold tracker_choice. cbv zeta. repeat case_bool_decide.
  - unfold view_detail. destruct (Str.py_int (stripped pid_in)) as [pid|]; [|done].
    rewrite cmd_bind_unfold, select_by_id_run.
    destruct (in_int64 pid); [|done].
    by destruct (parcels (session c) !! pid).
  - rewrite snd_bind_mret. by apply lender_quick_entry_dates.
  - rewrite snd_bind_mret. by apply mark_verified_dates.
  - rewrite snd_bind_mret. by apply mark_verified_dates.
  - done.
Qed.

(** X14.  No command writes into the cure, lien-filing and
    attorney-referral columns anything but a valid date in the form
    YYYY-MM-DD, zeros included.  If these columns of every row, committed
    or not, hold NULL or such a date, they still do after [update_parcel],
    the adjustment of [prorata_calculator], [log_enforcement] and
    [lender_research_tracker], and after [set_packet_sent] and
    [mark_packet_sent] for a date sent (today's, when none is typed) in the
    year 1000 or later, whether the command writes, refuses or raises. *)
Theorem deadline_columns_stay_canonical :
  (∀ now pid_in choice sel c,
     dates_ok c → dates_ok (snd (update_parcel now pid_in choice sel c)))
  ∧ (∀ now adjust new_sf c,
       dates_ok c → dates_ok (snd (prorata_adjust now adjust new_sf c)))
  ∧ (∀ now pid s tracking c,
       (∀ sent, Cal.strptime s = Ok sent → 1000 ≤ Cal.year sent) →
       dates_ok c → dates_ok (snd (set_packet_sent now pid s tracking c)))
  ∧ (∀ now today pid_in date_in tracking_in c,
       1000 ≤ Cal.year today →
       (∀ sent, Cal.strptime (stripped date_in) = Ok sent → 1000 ≤ Cal.year sent) →
       dates_ok c →
       dates_ok (snd (mark_packet_sent now today pid_in date_in tracking_in c)))
  ∧ (∀ now pid_in action_in sent_in due_in next_in attorney_in cost_in notes_in c,
       dates_ok c →
       dates_ok (snd (log_enforcement now pid_in action_in sent_in due_in next_in
                        attorney_in cost_in notes_in c)))
  ∧ (∀ now choice_in pid_in typed c,
       dates_ok c →
       dates_ok (snd (lender_research_tracker now choice_in pid_in typed c))).
Proof.
  split; [|split; [|split; [|split; [|split]]]].
  - intros now pid_in choice sel c Hc. unfold update_parcel.
    destruct (Str.py_int pid_in) as [pid|]; [|done].
    rewrite cmd_bind_unfold. unfold select_parcel at 1. cbv iota beta.
    destruct (parcels (session c) !! pid) as [p|]; [|done].
    destruct (assoc choice field_map) as [[[field label] options]|] eqn:Hf; [|done].
    apply field_map_columns in Hf.
    cbv zeta. repeat case_match; try done.
    + destruct (Py.int_truediv _ _) as [pct|x];
        [rewrite bind_lift_ok | by rewrite bind_lift_raise].
      rewrite !cmd_bind_unfold, execute_area_update_run.
      destruct (in_int64 _); [|done].
      rewrite <- !cmd_bind_unfold. by apply update_log_commit_rows.
    + by apply update_log_commit_rows.
    + by apply update_log_commit_rows.
    + apply update_log_commit_rows; [done|]. intros q. by apply dates_canonical_insert.
  - intros now adjust new_sf c Hc. unfold prorata_adjust.
    destruct (Str.py_int adjust) as [pid|]; [|done].
    rewrite cmd_bind_unfold. unfold select_parcel at 1. cbv iota beta.
    destruct (parcels (session c) !! pid) as [p|]; [|done].
    destruct (Str.py_int (Str.remove_char "," new_sf)) as [v|]; [|done].
    destruct (Py.int_truediv _ _) as [pct|x];
      [rewrite bind_lift_ok | by rewrite bind_lift_raise].
    rewrite !cmd_bind_unfold, execute_area_update_run.
    destruct (in_int64 _); [|done].
    rewrite <- !cmd_bind_unfold. by apply update_log_commit_rows.
  - intros now pid s tracking c _ Hc. by apply set_packet_sent_dates.
  - intros now today pid_in date_in tracking_in c _ _ Hc. unfold mark_packet_sent.
    destruct (Str.py_int (stripped pid_in)) as [pid|]; [|done].
    rewrite cmd_bind_unfold, select_by_id_run.
    destruct (in_int64 pid); [|done].
    destruct (parcels (session c) !! pid) as [p|]; [|done].
    cbv zeta. case_bool_decide.
    + rewrite snd_bind_mret. by apply set_packet_sent_dates.
    + destruct (Cal.strptime (stripped date_in)) as [sent|[]]; try done.
      rewrite snd_bind_mret. by apply set_packet_sent_dates.
  - intros now pid_in action_in sent_in due_in next_in attorney_in cost_in notes_in c Hc.
    assert (∀ parcel,
              dates_ok (snd (log_action now action_in sent_in due_in next_in attorney_in
                               cost_in notes_in parcel c))) as Hlog.
    { intros parcel. unfold log_action. cbv zeta. case_bool_decide; [done|].
      destruct (stored_real_entered_cost (stripped cost_in)) as [v ->].
      rewrite bind_lift_ok. by apply log_commit_rows. }
    unfold log_enforcement. cbv zeta. case_bool_decide; [done|].
    destruct (Str.py_int (stripped pid_in)) as [pid|]; [|done].
    rewrite cmd_bind_unfold, select_by_id_run.
    destruct (in_int64 pid); [|done].
    by destruct (parcels (session c) !! pid) as [p|].
  - intros. by apply lender_research_tracker_dates.
Qed.

(** ** Display helpers *)

Lemma len_of_chars (l : list ascii) : len (Str.of_chars l) = Z.of_nat (length l).
Proof. unfold len. by rewrite chars_of_chars. Qed.

Lemma of_chars_chars (s : string) : Str.of_chars (Str.chars s) = s.
Proof. apply string_of_list_ascii_of_string. Qed.

(** X15.  [trunc] returns a text that is not empty as it is when it has
    at most [width] characters, and otherwise its first [width - 1]
    characters - a negative bound counting from the end, as Python slices -
    followed by a tilde.  For a width of at least 1 the result has the
    smaller of the two lengths, so never more than [width] characters; for
    a width of 0 or less it has [len + width - 1] characters, or none, and
    the tilde, so more than [width]. *)
Theorem trunc_width (s : string) (width : Z) :
  s ≠ "" →
  ∃ r, trunc (Some s) width = Shown r
    ∧ (len s ≤ width → r = s)
    ∧ (width < len s →
       r = Str.of_chars (slice_to (width - 1) (Str.chars s) ++ ["~"%char]))
    ∧ (1 ≤ width → len r = Z.min (len s) width)
    ∧ (width ≤ 0 → width < len s → len r = Z.max (len s + width - 1) 0 + 1).
Proof.
  intros Hs. unfold trunc. rewrite bool_decide_eq_false_2 by done.
  destruct (Z.leb_spec (len s) width) as [Hle|Hgt].
  - exists s. split; [done|]. split; [done|]. split; [lia|lia].
  - eexists. split; [done|]. split; [lia|]. split; [done|].
    rewrite len_of_chars, length_app. unfold slice_to. rewrite length_take.
    unfold len in *. cbn [length]. split; intros; case_match; lia.
Qed.

Lemma trunc_width_witness :
  ∃ r, trunc (Some "Freedom Plasma Center") 12 = Shown r
    ∧ (len "Freedom Plasma Center" ≤ 12 → r = "Freedom Plasma Center")
    ∧ (12 < len "Freedom Plasma Center" →
       r = Str.of_chars (slice_to (12 - 1) (Str.chars "Freedom Plasma Center")
                         ++ ["~"%char]))
    ∧ (1 ≤ 12 → len r = Z.min (len "Freedom Plasma Center") 12)
    ∧ (12 ≤ 0 → 12 < len "Freedom Plasma Center" →
       len r = Z.max (len "Freedom Plasma Center" + 12 - 1) 0 + 1).
Proof. apply trunc_width. discriminate. Defined.

(** ** Amounts shown can be typed back *)

Lemma scan_digits_run (l rest : list ascii) (acc n : Z) :
  digits l → stops rest →
  ∃ v, Str.scan_digits (l ++ rest) acc n = (v, n + Z.of_nat (length l), rest).
Proof.
  intros Hl Hrest. revert acc n. induction Hl as [|c l [d Hd] Hl IH]; intros acc n.
  - exists acc. simpl. rewrite Z.add_0_r. destruct rest as [|c rest]; [done|].
    destruct Hrest as [Hc Hu]. simpl. rewrite Hc.
    by rewrite bool_decide_eq_false_2.
  - destruct (IH (10 * acc + d) (n + 1)) as [v Hv]. exists v.
    cbn [app Str.scan_digits]. rewrite Hd, Hv. f_equal. f_equal.
    rewrite length_cons. lia.
Qed.

Lemma digit_char_digit (n : Z) : is_Some (Str.digit_val (Cal.digit_char n)).
Proof. rewrite digit_val_digit_char. by eexists. Qed.

Lemma zero_pad_digits (w : nat) (n : Z) : digits (Cal.zero_pad w n).
Proof.
  revert n. induction w as [|w IH]; intros n; [constructor|].
  cbn [Cal.zero_pad]. apply Forall_app. split; [apply IH|].
  constructor; [apply digit_char_digit | constructor].
Qed.

Lemma below_1000_digits (n : Z) : digits (Fmt.below_1000 n).
Proof. unfold Fmt.below_1000. repeat case_match; apply zero_pad_digits. Qed.

Lemma below_1000_nonempty (n : Z) : Fmt.below_1000 n ≠ [].
Proof. unfold Fmt.below_1000. by repeat case_match. Qed.

Lemma digit_kept (c : ascii) : is_Some (Str.digit_val c) → kept c.
Proof. intros [d Hd]. split; intros ->; by vm_compute in Hd. Qed.

Lemma cleaned_filter (l : list ascii) :
  Str.chars (Str.remove_char "," (Str.remove_char "$" (Str.of_chars l)))
  = filter kept l.
Proof.
  unfold Str.remove_char. rewrite !chars_of_chars.
  induction l as [|c l IH]; [done|].
  rewrite (filter_cons kept), (filter_cons (λ x, x ≠ "$"%char)).
  destruct (decide (c ≠ "$"%char)) as [H1|H1].
  - rewrite filter_cons. destruct (decide (c ≠ ","%char)) as [H2|H2].
    + rewrite decide_True by done. by rewrite IH.
    + rewrite decide_False by (intros [_ ?]; done). by rewrite IH.
  - rewrite decide_False by (intros [? _]; done). by rewrite IH.
Qed.

Lemma filter_kept_digits (l : list ascii) : digits l → filter kept l = l.
Proof.
  intros Hl. induction Hl as [|c l Hc Hl IH]; [done|].
  rewrite filter_cons, decide_True by by apply digit_kept. by rewrite IH.
Qed.

Lemma grouped_cleaned (fuel : nat) (n : Z) :
  digits (filter kept (Fmt.grouped fuel n)) ∧ filter kept (Fmt.grouped fuel n) ≠ [].
Proof.
  revert n. induction fuel as [|fuel IH]; intros n; cbn [Fmt.grouped].
  - rewrite filter_kept_digits by apply below_1000_digits.
    split; [apply below_1000_digits | apply below_1000_nonempty].
  - case_match.
    + rewrite filter_kept_digits by apply below_1000_digits.
      split; [apply below_1000_digits | apply below_1000_nonempty].
    + destruct (IH (n / 1000)) as [Hd Hne].
      rewrite filter_app, filter_cons, decide_False by (unfold kept; tauto).
      rewrite (filter_kept_digits (Cal.zero_pad 3 _)) by apply zero_pad_digits.
      split.
      * apply Forall_app. split; [done | apply zero_pad_digits].
      * intros [? _]%app_eq_nil. done.
Qed.

Lemma lstrip_head (c : ascii) (l : list ascii) :
  Str.is_space c = false → Str.lstrip (c :: l) = c :: l.
Proof. intros H. simpl. by rewrite H. Qed.

Lemma digit_not_space (c : ascii) : is_Some (Str.digit_val c) → Str.is_space c = false.
Proof.
  intros [d Hd]. unfold Str.digit_val in Hd. unfold Str.is_space. cbv zeta in *.
  destruct ((48 <=? Str.code c) && (Str.code c <=? 57)) eqn:E; [|done]. lia.
Qed.

(** A text that begins and ends with something other than a space is its
    own [strip()]. *)
Lemma strip_id (a z : ascii) (l : list ascii) :
  Str.is_space a = false → Str.is_space z = false →
  Str.strip (a :: l ++ [z]) = a :: l ++ [z].
Proof.
  intros Ha Hz. unfold Str.strip. rewrite lstrip_head by done.
  change (a :: l ++ [z])%list with ((a :: l) ++ [z])%list.
  rewrite rev_app_distr. cbn [rev app]. rewrite lstrip_head by done.
  change (z :: (rev l ++ [a]))%list with ([z] ++ rev (a :: l))%list.
  by rewrite rev_app_distr, rev_involutive.
Qed.

Lemma digit_plain (d : ascii) :
  is_Some (Str.digit_val d) →
  Str.lower d = d ∧ (∀ l, Str.scan_sign (d :: l) = (false, d :: l))
  ∧ d ≠ "i"%char ∧ d ≠ "n"%char.
Proof.
  intros [v Hv].
  destruct d as [[] [] [] [] [] [] [] []]; vm_compute in Hv; try discriminate Hv;
    repeat split; done.
Qed.

Lemma py_float_digits (neg : bool) (D1 D2 : list ascii) :
  digits D1 → D1 ≠ [] → digits D2 → D2 ≠ [] →
  is_Some (Str.py_float (Str.of_chars (Fmt.sign neg ++ D1 ++ "."%char :: D2))).
Proof.
  intros H1 N1 H2 N2.
  destruct D1 as [|d D1]; [done|]. apply Forall_cons in H1 as [Hd H1].
  destruct (exists_last N2) as (D2' & z & ->).
  apply Forall_app in H2 as [H2 Hz]. apply Forall_cons in Hz as [Hz _].
  destruct (digit_plain d Hd) as (Hlow & Hsign & Hi & Hn).
  unfold Str.py_float. rewrite chars_of_chars.
  assert (Str.strip (Fmt.sign neg ++ (d :: D1) ++ "."%char :: D2' ++ [z])
          = (Fmt.sign neg ++ (d :: D1) ++ "."%char :: D2' ++ [z])%list) as ->.
  { assert (∃ a mid, (Fmt.sign neg ++ (d :: D1) ++ "."%char :: D2' ++ [z])%list
                       = (a :: mid ++ [z])%list ∧ Str.is_space a = false)
      as (a & mid & -> & Ha).
    { destruct neg; cbn [Fmt.sign app].
      - exists "-"%char, (d :: D1 ++ "."%char :: D2')%list. split; [|done].
        cbn [app]. by rewrite <- app_assoc.
      - exists d, (D1 ++ "."%char :: D2')%list. split; [|by apply digit_not_space].
        by rewrite <- app_assoc. }
    apply strip_id; [done | by apply digit_not_space]. }
  assert (Str.scan_sign (Fmt.sign neg ++ (d :: D1) ++ "."%char :: D2' ++ [z])
          = (neg, (d :: D1) ++ "."%char :: D2' ++ [z])%list) as ->.
  { destruct neg; cbn [Fmt.sign app]; [done | apply Hsign]. }
  cbn [map app]. rewrite Hlow.
  rewrite !bool_decide_eq_false_2 by (intros [=]; done).
  cbn [orb].
  destruct (scan_digits_run (d :: D1) ("."%char :: D2' ++ [z]) 0 0) as [ip Hip];
    [by constructor | done |].
  cbn [app] in Hip. rewrite Hip.
  destruct (scan_digits_run (D2' ++ [z]) [] ip 0) as [m Hm];
    [apply Forall_app; split; [done | by constructor] | done |].
  rewrite app_nil_r in Hm. rewrite Hm.
  assert ((0 <? 0 + Z.of_nat (length (d :: D1)) + (0 + Z.of_nat (length (D2' ++ [z]))))
          = true) as -> by (apply Z.ltb_lt; rewrite length_cons; lia).
  by eexists.
Qed.

Lemma round_cents_nonneg (m : positive) (e : Z) : 0 ≤ Fmt.round_cents m e.
Proof.
  unfold Fmt.round_cents. cbv zeta.
  destruct (Z.leb_spec 0 e).
  - assert (0 < 2 ^ e) by (apply Z.pow_pos_nonneg; lia). nia.
  - assert (0 < 2 ^ (- e)) by (apply Z.pow_pos_nonneg; lia).
    assert (0 ≤ 100 * Z.pos m / 2 ^ (- e)) by (apply Z.div_pos; lia).
    repeat case_match; lia.
Qed.

Lemma amount_reads_back (neg : bool) (c : Z) :
  is_Some (Str.py_float
             (Str.remove_char "," (Str.remove_char "$"
                (Str.of_chars ("$"%char :: Fmt.sign neg ++ Fmt.amount c))))).
Proof.
  rewrite <- (of_chars_chars (Str.remove_char _ _)), cleaned_filter.
  rewrite filter_cons, decide_False by (intros [? _]; done).
  unfold Fmt.amount, Fmt.group_digits. rewrite !filter_app, filter_cons.
  rewrite decide_True by done.
  rewrite (filter_kept_digits (Cal.zero_pad 2 _)) by apply zero_pad_digits.
  assert (filter kept (Fmt.sign neg) = Fmt.sign neg) as -> by by destruct neg.
  destruct (grouped_cleaned (Z.to_nat (Z.log2 (c / 100))) (c / 100)) as [Hd Hne].
  apply py_float_digits; [done | done | apply zero_pad_digits | done].
Qed.

(** X16.  [money] shows the dash for NULL and for a number equal to 0,
    and for no other number.  For any other number it shows a text that
    starts with a dollar sign and that, once the dollar sign and the commas
    are removed, as [update_parcel] and [log_enforcement] remove them from
    an amount typed, [float] reads: an amount other than zero can be typed
    back as it is shown.  The one failure is the OverflowError of an int
    too large for a float. *)
Theorem money_reads_back (x : Py.pynum) :
  money None = Ok Dash
  ∧ match money (Some x) with
    | Ok Dash => Py.truthy x = false
    | Ok (Shown s) =>
      Py.truthy x = true
      ∧ String.get 0 s = Some "$"%char
      ∧ is_Some (Str.py_float (Str.remove_char "," (Str.remove_char "$" s)))
    | Raise e =>
      Py.truthy x = true ∧ e = OverflowError
      ∧ ∃ z, x = Py.PInt z ∧ Py.DBL_OVERFLOW ≤ Z.abs z
    end.
Proof.
  split; [done|]. unfold money. destruct (Py.truthy x); [|done].
  destruct x as [z|f]; cbn [Py.to_float].
  - unfold Py.float_of_int. destruct (Z.leb_spec Py.DBL_OVERFLOW (Z.abs z)); simpl.
    + split; [done|]. split; [done|]. by exists z.
    + split; [done|]. split; [done|]. unfold Fmt.fixed2.
      destruct (Prim2SF (Py.Z_to_float z)) as [neg|neg| |neg m e].
      * apply amount_reads_back.
      * destruct neg; vm_compute; by eexists.
      * vm_compute. by eexists.
      * apply amount_reads_back.
  - simpl. split; [done|]. split; [done|]. unfold Fmt.fixed2.
    destruct (Prim2SF f) as [neg|neg| |neg m e].
    + apply amount_reads_back.
    + destruct neg; vm_compute; by eexists.
    + vm_compute. by eexists.
    + apply amount_reads_back.
Qed.

Lemma money_reads_back_witness :
  money (Some (Py.PInt 0)) = Ok Dash
  ∧ money (Some (Py.PFloat (-0))) = Ok Dash
  ∧ money (Some (Py.PFloat 43718.105167871239)) = Ok (Shown "$43,718.11")
  ∧ String.get 0 "$43,718.11" = Some "$"%char
  ∧ is_Some (Str.py_float (Str.remove_char "," (Str.remove_char "$" "$43,718.11"))).
Proof.
  split; [reflexivity|]. split; [vm_compute; reflexivity|].
  assert (money (Some (Py.PFloat 43718.105167871239)) = Ok (Shown "$43,718.11")) as E
    by (vm_compute; reflexivity).
  destruct (money_reads_back (Py.PFloat 43718.105167871239)) as [_ H].
  destruct (money (Some (Py.PFloat 43718.105167871239))) as [[|s]|e];
    [discriminate E | | discriminate E].
  injection E as ->. split; [reflexivity|]. exact (proj2 H).
Defined.

(** ** The dashboard *)

Lemma add_zero_or_float (x y : Py.pynum) :
  zero_or_float x → zero_or_float y → ∃ z, Py.add x y = Ok z ∧ zero_or_float z.
Proof.
  intros [->|[a ->]] [->|[b ->]]; eexists; (split; [reflexivity|]);
    (by left) || (right; by eexists).
Qed.

Lemma get_arrears_stored (r : Parcel) :
  stored r → ∃ x, get_arrears r = Ok x ∧ zero_or_float x.
Proof.
  intros H. destruct (sqft_or_0_int64 r H) as (a & Ha & Hr).
  destruct (calc_pct_int64 a Hr) as [pct Hpct].
  assert (∃ f, calc_arrears_36mo (sqft_or_0 r) = Ok (Py.PFloat f)) as [f Hf].
  { rewrite Ha. unfold calc_arrears_36mo, calc_historic_weekly. rewrite Hpct.
    by eexists. }
  unfold get_arrears.
  destruct (past_due_balance r) as [b|]; [destruct (Py.float_nonzero b)|];
    try destruct (non_payer (status r)); eexists; (split; [done|]);
    (by left) || (right; by eexists).
Qed.

Lemma get_weekly_stored (r : Parcel) :
  stored r → ∃ x, get_weekly r = Ok x ∧ zero_or_float x.
Proof.
  intros H. destruct (sqft_or_0_int64 r H) as (a & Ha & Hr).
  destruct (calc_pct_int64 a Hr) as [pct Hpct].
  assert (∃ f, calc_current_weekly (sqft_or_0 r) = Ok (Py.PFloat f)) as [f Hf].
  { rewrite Ha. unfold calc_current_weekly. rewrite Hpct. by eexists. }
  unfold get_weekly.
  destruct (weekly_rate r) as [b|]; [destruct (Py.float_nonzero b)|];
    eexists; (split; [done|]); right; by eexists.
Qed.

Lemma sum_over_stored (get : Parcel → result Py.pynum) (rows : list Parcel) :
  (∀ r, stored r → ∃ x, get r = Ok x ∧ zero_or_float x) →
  Forall stored rows →
  ∃ s, sum_over get rows = Ok s ∧ zero_or_float s.
Proof.
  intros Hget Hrows. unfold sum_over.
  assert (∀ acc, zero_or_float acc →
            ∃ s, foldl (λ acc r, a ← acc; x ← get r; Py.add a x) (Ok acc) rows = Ok s
                 ∧ zero_or_float s) as H; [|apply H; by left].
  induction Hrows as [|r rows Hr Hrows IH]; intros acc Hacc; [by exists acc|].
  cbn [foldl]. destruct (Hget r Hr) as (x & Hx & Hzx).
  destruct (add_zero_or_float acc x Hacc Hzx) as (z & Hz & Hzz).
  simpl. rewrite Hx. simpl. rewrite Hz. by apply IH.
Qed.

Lemma dashboard_figures_stored (now : datetime) (c : Conn) :
  rows_ok stored (session c) →
  ∃ d, dashboard now c = (Ok d, c)
    ∧ zero_or_float (db_total_arrears d) ∧ zero_or_float (db_total_weekly d)
    ∧ db_days_to_lien d = days_until (Cal.Date 2026 4 1) now.
Proof.
  intros Hok. unfold dashboard. cbv zeta.
  assert (Forall stored (rows_by_id (session c)).*2) as Hall.
  { apply Forall_forall. intros r [[pid r'] [-> Hin]]%list_elem_of_fmap.
    apply elem_of_rows_by_id in Hin. by apply (Hok pid). }
  assert (∀ Q `{∀ r, Decision (Q r)},
            Forall stored (filter Q (rows_by_id (session c)).*2)) as Hf.
  { intros Q ?. apply Forall_forall. intros r [_ Hr]%list_elem_of_filter.
    by apply (proj1 (Forall_forall _ _) Hall). }
  destruct (sum_over_stored get_arrears _ get_arrears_stored
              (Hf (λ r, status_in ["DELINQUENT"] r = true) _)) as (a1 & -> & Z1).
  destruct (sum_over_stored get_arrears _ get_arrears_stored
              (Hf (λ r, status_in ["DISPUTED"] r = true) _)) as (a2 & -> & Z2).
  destruct (sum_over_stored get_arrears _ get_arrears_stored
              (Hf (λ r, status_in ["RECON"; "VERIFY"] r = true) _)) as (a3 & -> & Z3).
  destruct (add_zero_or_float a1 a2 Z1 Z2) as (s & Hs & Zs).
  destruct (add_zero_or_float s a3 Zs Z3) as (t & Ht & Zt).
  destruct (sum_over_stored get_weekly _ get_weekly_stored
              (Hf (λ r, status_in ["DELINQUENT"] r = true) _)) as (w1 & -> & W1).
  destruct (sum_over_stored get_weekly _ get_weekly_stored Hall) as (w2 & -> & W2).
  simpl. rewrite Hs. simpl. rewrite Ht. simpl.
  eexists. split; [reflexivity|]. by repeat split.
Qed.

Lemma money_zero_or_float (x : Py.pynum) :
  zero_or_float x → ∃ s, money (Some x) = Ok s.
Proof.
  intros [->|[f ->]]; unfold money; simpl; [by eexists|].
  destruct (Py.float_nonzero f); by eexists.
Qed.

Lemma ranking_line_stored (r : Parcel) :
  stored r →
  ranking_line r = match status r with Some _ => Ok () | None => Raise TypeError end.
Proof.
  intros Hr. unfold ranking_line.
  destruct (get_arrears_stored r Hr) as (x & -> & Hx).
  destruct (money_zero_or_float x Hx) as [s Hs]. cbn [mbind result_bind].
  by rewrite Hs.
Qed.

Lemma mapM_result_raise_in {A B} (f : A → result B) (l : list A) (x : A) (e : exn) :
  x ∈ l → (∃ e', f x = Raise e') →
  (∀ y e', y ∈ l → f y = Raise e' → e' = e) →
  mapM f l = Raise e.
Proof.
  intros Hx [e0 Hfx] Hall. induction l as [|y l IH]; [by apply elem_of_nil in Hx|].
  cbn [mapM].
  destruct (f y) as [b|e'] eqn:Hy;
    [|by rewrite (Hall y e' ltac:(by apply elem_of_cons; left) Hy)].
  apply elem_of_cons in Hx as [->|Hx]; [congruence|].
  rewrite IH; [done | done |].
  intros z e' Hz. apply Hall. by apply elem_of_cons; right.
Qed.

(** X17.  When every floor area stored is a 64-bit integer, [dashboard]
    computes its figures without raising: its totals of arrears and of
    weekly charges are each the integer 0 or a double, and its days to the
    lien deadline are those from now to 2026-04-01, counted by the clock.
    Whether it then ends well is decided by the ranking: when every parcel
    has a status it returns, with nothing changed, and when the status of
    some parcel is NULL the ranking raises TypeError. *)
Theorem dashboard_total_on_stored_rows (now : datetime) (c : Conn) :
  rows_ok stored (session c) →
  ∃ d, dashboard now c = (Ok d, c)
    ∧ zero_or_float (db_total_arrears d) ∧ zero_or_float (db_total_weekly d)
    ∧ db_days_to_lien d = days_until (Cal.Date 2026 4 1) now
    ∧ ((∀ pid r, parcels (session c) !! pid = Some r → is_Some (status r)) →
       dashboard_run now c = (Ok d, c))
    ∧ ((∃ pid r, parcels (session c) !! pid = Some r ∧ status r = None) →
       dashboard_run now c = (Raise TypeError, c)).
Proof.
  intros Hok.
  destruct (dashboard_figures_stored now c Hok) as (d & Hd & Ha & Hw & Hl).
  exists d. split; [done|]. split; [done|]. split; [done|]. split; [done|].
  unfold dashboard_run. rewrite cmd_bind_unfold, Hd, cmd_bind_unfold.
  unfold dashboard_ranking. cbv zeta.
  set (rows := filter (λ r, ranked r = true) (rows_by_id (session c)).*2).
  assert (∀ r, r ∈ rows → ∃ pid, parcels (session c) !! pid = Some r) as Hin.
  { intros r [_ [[pid r'] [-> Hr]]%list_elem_of_fmap]%list_elem_of_filter.
    exists pid. by apply elem_of_rows_by_id. }
  assert (∀ r, r ∈ rows → stored r) as Hst.
  { intros r Hr. destruct (Hin r Hr) as [pid Hpid]. by apply (Hok pid). }
  destruct (mapM_result_total get_arrears rows) as [keys Hkeys].
  { intros r Hr. destruct (get_arrears_stored r (Hst r Hr)) as (x & Hx & _).
    by exists x. }
  rewrite Hkeys. cbn [mbind result_bind].
  split.
  - intros Hall. destruct (mapM_result_total ranking_line rows) as [ls Hls].
    { intros r Hr. rewrite (ranking_line_stored r (Hst r Hr)).
      destruct (Hin r Hr) as [pid Hpid]. destruct (Hall pid r Hpid) as [s ->].
      by exists (). }
    by rewrite Hls.
  - intros (pid & r & Hr & Hnone).
    assert (r ∈ rows) as Hrow.
    { apply list_elem_of_filter. split.
      - unfold ranked. by rewrite Hnone.
      - apply list_elem_of_fmap. exists (pid, r). split; [done|].
        by apply elem_of_rows_by_id. }
    rewrite (mapM_result_raise_in ranking_line rows r TypeError Hrow); [done| |].
    + exists TypeError. rewrite (ranking_line_stored r (Hst r Hrow)). by rewrite Hnone.
    + intros y e Hy. rewrite (ranking_line_stored y (Hst y Hy)).
      destruct (status y); by intros [= <-].
Qed.

Lemma status_buckets (r : Parcel) :
  (Nat.b2n (status_in ["CURRENT"] r) + Nat.b2n (status_in ["DELINQUENT"] r)
   + Nat.b2n (status_in ["DISPUTED"] r) + Nat.b2n (status_in ["RECON"; "VERIFY"] r)
   + Nat.b2n (status_in ["SETTLED"] r))%nat
  = Nat.b2n (status_in VALID_STATUSES r).
Proof.
  unfold status_in. destruct (status r) as [s|]; [|done].
  unfold VALID_STATUSES.
  destruct (decide (s = "CURRENT")) as [->|H1]; [reflexivity|].
  destruct (decide (s = "DELINQUENT")) as [->|H2]; [reflexivity|].
  destruct (decide (s = "DISPUTED")) as [->|H3]; [reflexivity|].
  destruct (decide (s = "RECON")) as [->|H4]; [reflexivity|].
  destruct (decide (s = "VERIFY")) as [->|H5]; [reflexivity|].
  destruct (decide (s = "SETTLED")) as [->|H6]; [reflexivity|].
  rewrite !bool_decide_eq_false_2; [done|..];
    rewrite ?elem_of_cons, elem_of_nil; tauto.
Qed.

Lemma length_filter_b2n (f : Parcel → bool) (rows : list Parcel) :
  length (filter (λ r, f r = true) rows) = foldr (λ r n, (Nat.b2n (f r) + n)%nat) 0%nat rows.
Proof.
  induction rows as [|r rows IH]; [done|]. rewrite filter_cons. cbn [foldr].
  destruct (decide (f r = true)) as [E|E].
  - rewrite E. simpl. by rewrite IH.
  - apply not_true_is_false in E. rewrite E. by rewrite IH.
Qed.

(** X18.  In the head line of [dashboard] no parcel is counted twice: the
    parcels counted as current, delinquent, disputed, recon or verify and
    settled, together with those whose status is NULL or none of the six
    valid ones, which no bucket counts, make up the total, and the total is
    the number of rows of the table. *)
Theorem dashboard_buckets (now : datetime) (c : Conn) (d : Dashboard) :
  dashboard now c = (Ok d, c) →
  let unlisted :=
    length (filter (λ r, status_in VALID_STATUSES r = false) (rows_by_id (session c)).*2) in
  (db_current d + db_delinquent d + db_disputed d + db_recon d + db_settled d + unlisted
   = db_parcels d)%nat
  ∧ db_parcels d = size (parcels (session c)).
Proof.
  unfold dashboard. cbv zeta. intros H.
  destruct (sum_over get_arrears (filter (λ r, status_in ["DELINQUENT"] r = true) _))
    as [a1|]; simpl in H; [|done].
  destruct (sum_over get_arrears (filter (λ r, status_in ["DISPUTED"] r = true) _))
    as [a2|]; simpl in H; [|done].
  destruct (sum_over get_arrears (filter (λ r, status_in ["RECON"; "VERIFY"] r = true) _))
    as [a3|]; simpl in H; [|done].
  destruct (Py.add a1 a2) as [s|]; simpl in H; [|done].
  destruct (Py.add s a3) as [t|]; simpl in H; [|done].
  destruct (sum_over get_weekly (filter (λ r, status_in ["DELINQUENT"] r = true) _))
    as [w1|]; simpl in H; [|done].
  destruct (sum_over get_weekly _) as [w2|]; simpl in H; [|done].
  injection H as <-. cbn.
  split.
  - rewrite !length_filter_b2n.
    assert (length (filter (λ r, status_in VALID_STATUSES r = false)
                      (rows_by_id (session c)).*2)
            = foldr (λ r n, (Nat.b2n (negb (status_in VALID_STATUSES r)) + n)%nat) 0%nat
                (rows_by_id (session c)).*2) as ->.
    { induction ((rows_by_id (session c)).*2) as [|r rows IH]; [done|].
      rewrite filter_cons. cbn [foldr].
      destruct (decide (status_in VALID_STATUSES r = false)) as [E|E].
      - rewrite E. simpl. by rewrite IH.
      - apply not_false_is_true in E. rewrite E. by rewrite IH. }
    induction ((rows_by_id (session c)).*2) as [|r rows IH]; [done|].
    cbn [foldr length]. pose proof (status_buckets r).
    destruct (status_in VALID_STATUSES r); simpl in *; lia.
  - rewrite length_fmap. unfold rows_by_id. rewrite sort_by_perm.
    by rewrite length_map_to_list.
Qed.

(** ** Seeding a new database *)

Lemma next_id_insert (m : gmap Z Parcel) (i : Z) (p : Parcel) :
  m !! i = None → next_id (<[i := p]> m) = 1 + Z.max i (next_id m - 1).
Proof.
  intros Hi. unfold next_id.
  rewrite (map_fold_insert_L (λ k _ acc, Z.max k acc) 0 i p m).
  - lia.
  - intros j1 j2 z1 z2 y _ _ _. lia.
  - done.
Qed.

Lemma keys_to_insert (k : Z) (m : gmap Z Parcel) (p : Parcel) :
  0 ≤ k → keys_to k m →
  m !! (k + 1) = None ∧ keys_to (k + 1) (<[next_id m := p]> m).
Proof.
  intros Hk [Hn Hkeys].
  assert (m !! (k + 1) = None) as Hfresh.
  { destruct (m !! (k + 1)) eqn:E; [|done]. specialize (Hkeys (k + 1)).
    rewrite E in Hkeys. specialize (Hkeys (mk_is_Some _ _ eq_refl)). lia. }
  split; [done|]. rewrite Hn. split.
  - rewrite next_id_insert by done. lia.
  - intros j. destruct (decide (j = k + 1)) as [->|Hne]; [lia|].
    rewrite lookup_insert_ne by done. intros H. specialize (Hkeys j H). lia.
Qed.

Lemma seed_row_ok (s : Seed) :
  in_int64 (sd_sqft s) = true →
  ∃ p, seed_row s = Ok p ∧ campus_share_ok p ∧ dates_canonical p ∧ stored p
       ∧ sqft p = Some (sd_sqft s) ∧ status p = Some (sd_status s).
Proof.
  intros H64. destruct (int_truediv_total_int64 (sd_sqft s)) as [pct Hpct].
  { unfold in_int64 in H64. lia. }
  unfold seed_row, bind_int. rewrite Hpct, H64. simpl. eexists. split; [done|].
  split; [|split; [|split; [|split]]].
  - intros a [= <-]. exists pct. split.
    + unfold calc_pct, pct_of. simpl. by rewrite Hpct.
    + simpl. by apply (bind_real_share (sd_sqft s)).
  - intros col v Hcol. cbn [text]. unfold deadline_columns in Hcol.
    repeat (apply elem_of_cons in Hcol as [->|Hcol]);
      [| | | by apply elem_of_nil in Hcol]; by simplify_map_eq.
  - by intros a [= <-].
  - done.
  - unfold status. cbn [text]. by simplify_map_eq.
Qed.

Lemma seed_parcels_run (seeds : list Seed) (k : Z) (c : Conn) :
  Forall (λ s, in_int64 (sd_sqft s) = true) seeds →
  0 ≤ k → keys_to k (parcels (session c)) →
  ∃ c',
    seed_parcels seeds c = (Ok (), c')
    ∧ committed c' = committed c
    ∧ enforcement_log (session c') = enforcement_log (session c)
    ∧ keys_to (k + Z.of_nat (length seeds)) (parcels (session c'))
    ∧ size (parcels (session c')) = (size (parcels (session c)) + length seeds)%nat
    ∧ (∀ j, j ≤ k → parcels (session c') !! j = parcels (session c) !! j)
    ∧ (∀ i s, seeds !! i = Some s →
         ∃ p, parcels (session c') !! (k + 1 + Z.of_nat i) = Some p ∧ seed_row s = Ok p)
    ∧ (∀ P : Parcel → Prop,
         (∀ s p, in_int64 (sd_sqft s) = true → seed_row s = Ok p → P p) →
         rows_ok P (session c) → rows_ok P (session c')).
Proof.
  intros Hseeds. revert k c. induction Hseeds as [|s seeds Hs Hseeds IH]; intros k c Hk Hkeys.
  - exists c. cbn [length]. rewrite Z.add_0_r.
    split; [done|]. split; [done|]. split; [done|]. split; [done|].
    split; [lia|]. split; [done|].
    split; [|done]. intros i s Hs. by rewrite lookup_nil in Hs.
  - destruct (seed_row_ok s Hs) as (p & Hp & _).
    cbn [seed_parcels]. rewrite Hp, bind_lift_ok, cmd_bind_unfold.
    unfold insert_parcel at 1. cbv iota beta.
    destruct (keys_to_insert k (parcels (session c)) p Hk Hkeys) as [Hfresh Hkeys'].
    set (c1 := {| committed := committed c; session := _ |}).
    destruct (IH (k + 1) c1) as (c' & Hrun & Hcom & Hlog & Hk' & Hsize & Hold & Hnew & Hinv);
      [lia | exact Hkeys' |].
    exists c'. split; [done|]. split; [done|]. split; [done|].
    destruct Hkeys as [Hn _].
    split; [|split; [|split; [|split]]].
    + rewrite length_cons, Nat2Z.inj_succ.
      by replace (k + Z.succ (Z.of_nat (length seeds)))
        with (k + 1 + Z.of_nat (length seeds)) by lia.
    + rewrite Hsize. unfold c1. cbn [session parcels length].
      rewrite Hn, map_size_insert_None by done. lia.
    + intros j Hj. rewrite Hold by lia. unfold c1. cbn [session parcels].
      rewrite Hn. apply lookup_insert_ne. lia.
    + intros [|i] s' Hs'.
      * injection Hs' as <-. exists p. split; [|done].
        rewrite Z.add_0_r, Hold by lia. unfold c1. cbn [session parcels].
        rewrite Hn. apply lookup_insert_eq.
      * destruct (Hnew i s' Hs') as (p' & Hp' & Hrow). exists p'. split; [|done].
        rewrite <- Hp'. f_equal. lia.
    + intros P HP Hrows. apply Hinv; [done|].
      intros j q. unfold c1. cbn [session parcels].
      destruct (decide (j = next_id (parcels (session c)))) as [->|Hne].
      * rewrite lookup_insert_eq. intros [= <-]. by apply (HP s).
      * rewrite lookup_insert_ne by done. apply Hrows.
Qed.

Lemma seed_log_run (now : string) (entries : list LogSeed) (c : Conn) :
  Forall campus_wide entries →
  ∃ c' es,
    seed_log now entries c = (Ok (), c')
    ∧ committed c' = committed c
    ∧ parcels (session c') = parcels (session c)
    ∧ enforcement_log (session c') = (enforcement_log (session c) ++ es)%list
    ∧ length es = length entries
    ∧ Forall (λ e, parcel_id e = None ∧ timestamp e = now) es.
Proof.
  intros Hall. revert c. induction Hall as [|e rest [Hp Hc] Hall IH]; intros c.
  - exists c, []. rewrite app_nil_r. by repeat split.
  - cbn [seed_log]. rewrite Hp. cbn [bind_key]. rewrite bind_lift_ok.
    unfold stored_real, bind_int. rewrite Hc. cbn [mbind result_bind].
    rewrite bind_lift_ok, cmd_bind_unfold. unfold insert_log at 1.
    cbn [parcel_id]. cbv iota beta.
    set (c1 := {| committed := committed c; session := _ |}).
    destruct (IH c1) as (c' & es & Hrun & Hcom & Hrows & Hlog & Hlen & Hnone).
    eexists c', (_ :: es). split; [done|]. split; [done|]. split; [done|].
    unfold c1 in Hlog. cbn [session enforcement_log] in Hlog.
    rewrite <- app_assoc in Hlog. split; [exact Hlog|].
    split; [cbn [length]; by rewrite Hlen|]. by constructor.
Qed.

(** X19.  Seeding a new database, as [get_db] does.  For parcel seeds
    whose floor areas are 64-bit integers and log seeds that name no parcel
    and have a 64-bit cost, as [SEED_PARCELS] and [SEED_LOG] are, the
    seeding succeeds and commits everything.  The seed at position [i]
    (from 0) becomes the row of ID [i + 1], there are as many rows as
    seeds, and as many audit rows as log seeds, none of a parcel.  The
    database it leaves has every campus share recomputed from its area,
    every packet deadline column NULL, and every area a 64-bit integer. *)
Theorem seed_db_invariants (now : string) (seeds : list Seed)
    (entries : list LogSeed) :
  Forall (λ s, in_int64 (sd_sqft s) = true) seeds →
  Forall campus_wide entries →
  ∃ c',
    seed_db now seeds entries empty_conn = (Ok (), c')
    ∧ committed c' = session c'
    ∧ conn_ok c' ∧ dates_ok c' ∧ rows_ok stored (session c')
    ∧ size (parcels (session c')) = length seeds
    ∧ (∀ i s, seeds !! i = Some s →
         ∃ p, parcels (session c') !! (Z.of_nat i + 1) = Some p ∧ seed_row s = Ok p)
    ∧ length (enforcement_log (session c')) = length entries
    ∧ Forall (λ e, parcel_id e = None) (enforcement_log (session c')).
Proof.
  intros Hseeds Hentries.
  destruct (seed_parcels_run seeds 0 empty_conn Hseeds) as
    (c1 & Hrun1 & Hcom1 & Hlog1 & Hkeys & Hsize & _ & Hnew & Hinv).
  { lia. }
  { split.
    - unfold next_id. cbn. by rewrite map_fold_empty.
    - intros j [q Hq]. cbn in Hq. by rewrite lookup_empty in Hq. }
  destruct (seed_log_run now entries c1 Hentries) as (c2 & es & Hrun2 & Hcom2 & Hrows2 & Hlog2 & Hlen & Hnone).
  unfold seed_db. rewrite cmd_bind_unfold, Hrun1, cmd_bind_unfold, Hrun2.
  eexists. split; [reflexivity|]. cbn [committed session].
  assert (∀ P : Parcel → Prop,
            (∀ s p, in_int64 (sd_sqft s) = true → seed_row s = Ok p → P p) →
            rows_ok P (session c2)) as Hall.
  { intros P HP j q. rewrite Hrows2. apply (Hinv P HP). intros j' q'. cbn.
    by rewrite lookup_empty. }
  assert (rows_ok campus_share_ok (session c2)) as H1.
  { apply Hall. intros s p Hs Hp. destruct (seed_row_ok s Hs) as (p' & Hp' & ? & _).
    by assert (p = p') as -> by congruence. }
  assert (rows_ok dates_canonical (session c2)) as H2.
  { apply Hall. intros s p Hs Hp. destruct (seed_row_ok s Hs) as (p' & Hp' & _ & ? & _).
    by assert (p = p') as -> by congruence. }
  assert (rows_ok stored (session c2)) as H3.
  { apply Hall. intros s p Hs Hp. destruct (seed_row_ok s Hs) as (p' & Hp' & _ & _ & ? & _).
    by assert (p = p') as -> by congruence. }
  split; [done|]. split; [by split|]. split; [by split|]. split; [done|].
  rewrite Hrows2, Hlog2, Hlog1. cbn [empty_conn session empty_tables enforcement_log app].
  split; [|split; [|split; [done|]]].
  - rewrite Hsize. cbn. by rewrite map_size_empty.
  - intros i s Hs. destruct (Hnew i s Hs) as (p & Hp & Hrow). exists p.
    split; [|done]. rewrite <- Hp. f_equal. lia.
  - eapply Forall_impl; [exact Hnone|]. by intros e [? _].
Qed.

Lemma seed_db_invariants_witness :
  Forall (λ s, in_int64 (sd_sqft s) = true) SEED_PARCELS
  ∧ Forall campus_wide SEED_LOG
  ∧ ∃ c',
      seed_db "2026-03-02 09:00:00" SEED_PARCELS SEED_LOG empty_conn = (Ok (), c')
      ∧ committed c' = session c'
      ∧ conn_ok c' ∧ dates_ok c' ∧ rows_ok stored (session c')
      ∧ size (parcels (session c')) = length SEED_PARCELS
      ∧ (∀ i s, SEED_PARCELS !! i = Some s →
           ∃ p, parcels (session c') !! (Z.of_nat i + 1) = Some p ∧ seed_row s = Ok p)
      ∧ length (enforcement_log (session c')) = length SEED_LOG
      ∧ Forall (λ e, parcel_id e = None) (enforcement_log (session c')).
Proof.
  assert (Forall (λ s, in_int64 (sd_sqft s) = true) SEED_PARCELS) as H1.
  { repeat constructor. }
  assert (Forall campus_wide SEED_LOG) as H2.
  { repeat constructor. }
  split; [exact H1|]. split; [exact H2|].
  exact (seed_db_invariants "2026-03-02 09:00:00" SEED_PARCELS SEED_LOG H1 H2).
Defined.

(** ** The views and commands on sample rows *)

Lemma tables_packets_rows (P : Parcel → Prop) :
  P row_noticed_later → P row_noticed → P row_verify → P (row_billed 125.5) →
  rows_ok P tables_packets.
Proof.
  intros H1 H2 H3 H4 pid p. unfold tables_packets. cbn [parcels].
  rewrite !lookup_insert_Some, lookup_singleton_Some.
  intros [[_ <-]|[_ [[_ <-]|[_ [[_ <-]|[_ [_ <-]]]]]]]; done.
Qed.

Lemma tables_packets_canonical : rows_ok dates_canonical tables_packets.
Proof.
  apply tables_packets_rows; intros col s Hcol Hs;
    unfold deadline_columns in Hcol;
    repeat (apply elem_of_cons in Hcol as [->|Hcol]);
    try (by apply elem_of_nil in Hcol);
    vm_compute in Hs; try discriminate; injection Hs as <-; vm_compute; reflexivity.
Qed.

Lemma view_deadlines_chronological_witness :
  rows_ok dates_canonical (session conn_packets)
  ∧ ∃ v, view_deadlines (Cal.Date 2026 3 20) conn_packets = (Ok v, conn_packets)
    ∧ ∀ dv, v = Some dv →
        Sorted Z.le (map de_days_left (dv_deadlines dv))
        ∧ dv_lien_days dv = days_left (Cal.Date 2026 4 1) (Cal.Date 2026 3 20).
Proof.
  split; [exact tables_packets_canonical|].
  apply (view_deadlines_chronological (Cal.Date 2026 3 20) conn_packets).
  exact tables_packets_canonical.
Defined.

Lemma mark_packet_sent_checks_date_witness :
  Cal.valid (Cal.Date 2026 3 2) = true
  ∧ ∃ r c',
      mark_packet_sent "2026-03-02 09:00:00" (Cal.Date 2026 3 2)
        " 10 " "02/30/2026" "" conn_sample = (r, c')
      ∧ r ≠ Raise ValueError
      ∧ match r with
        | Ok (Sent d) =>
          ∃ pid p,
            Str.py_int (stripped " 10 ") = Some pid
            ∧ parcels (session conn_sample) !! pid = Some p
            ∧ calc_deadlines (date_sent_of (Cal.Date 2026 3 2) "02/30/2026") = Ok d
            ∧ written conn_sample c' pid
                (set_text (packet_sent_columns
                             (date_sent_of (Cal.Date 2026 3 2) "02/30/2026")
                             (or_none (stripped "")) d (text p)) p)
        | _ => c' = conn_sample
        end
      ∧ (r = Ok BadDate →
         stripped "02/30/2026" ≠ ""
         ∧ Cal.strptime (stripped "02/30/2026") = Raise ValueError).
Proof.
  split; [reflexivity|].
  apply (mark_packet_sent_checks_date "2026-03-02 09:00:00" (Cal.Date 2026 3 2)
           " 10 " "02/30/2026" "" conn_sample).
  reflexivity.
Defined.

Lemma mark_packet_sent_keeps_tracking_witness :
  ∃ c' d,
    mark_packet_sent "2026-03-02 09:00:00" (Cal.Date 2026 3 2)
      " 2 " "" "   " conn_packets = (Ok (Sent d), c')
    ∧ ∃ p',
        parcels (committed c') !! 2 = Some p'
        ∧ certified_mail_tracking p' = Some "7019 1640 0000 1234 5678"
        ∧ date_packet_sent p' = Some "2026-03-02"
        ∧ cure_deadline p' = Some (dl_cure d)
        ∧ lien_filing_date p' = Some (dl_lien d)
        ∧ attorney_referral_date p' = Some (dl_attorney d)
        ∧ enforcement_step p' = Some "Demand Sent"
        ∧ next_action p' = Some ("Await cure by " +:+ dl_cure d)
        ∧ (∀ col, col ∉ packet_columns → text p' !! col = text row_noticed !! col)
        ∧ sqft p' = sqft row_noticed ∧ pct_campus p' = pct_campus row_noticed
        ∧ past_due_balance p' = past_due_balance row_noticed
        ∧ weekly_rate p' = weekly_rate row_noticed.
Proof.
  destruct (mark_packet_sent "2026-03-02 09:00:00" (Cal.Date 2026 3 2)
              " 2 " "" "   " conn_packets) as [r c'] eqn:E.
  assert (r = Ok (Sent {| dl_cure := "2026-04-01"; dl_lien := "2026-04-16";
                          dl_attorney := "2026-05-01" |})) as ->.
  { change r with (r, c').1. rewrite <- E. vm_compute. reflexivity. }
  eexists c', _. split; [reflexivity|].
  exact (mark_packet_sent_keeps_tracking "2026-03-02 09:00:00" (Cal.Date 2026 3 2)
           " 2 " "" "   " 2 row_noticed conn_packets c' _ eq_refl eq_refl eq_refl E).
Defined.

Lemma tables_targets_rows (P : Parcel → Prop) :
  P row_noticed_later → P row_noticed → P row_credit → rows_ok P tables_targets.
Proof.
  intros H1 H2 H3 pid p. unfold tables_targets. cbn [parcels].
  rewrite !lookup_insert_Some, lookup_singleton_Some.
  intros [[_ <-]|[_ [[_ <-]|[_ [_ <-]]]]]; done.
Qed.

Lemma tables_targets_has_target : has_target tables_targets.
Proof. exists 2, row_noticed. split; reflexivity. Qed.

Lemma tables_targets_named : targets_named tables_targets.
Proof.
  apply (tables_targets_rows (λ p, non_current p = true → is_Some (business_name p)));
    intros H; try discriminate H; by eexists.
Qed.

Lemma lender_quick_entry_effect_witness :
  lender_research_tracker "2026-03-02 09:00:00" " 2 " "2" (λ _, "  ") conn_targets
  = (Ok (Answered NoChanges), conn_targets)
  ∧ ∃ c' p',
      lender_research_tracker "2026-03-02 09:00:00" " 2 " "2"
        (λ f, if bool_decide (f = "lender_name") then " First Horizon Bank " else "")
        conn_targets = (Ok (Answered Done), c')
      ∧ written conn_targets c' 2 p'
      ∧ (∀ f, f ∈ lender_fields →
           text p' !! f
           = if bool_decide
                  (stripped (if bool_decide (f = "lender_name")
                             then " First Horizon Bank " else "") = "")
             then text row_noticed !! f
             else Some (stripped (if bool_decide (f = "lender_name")
                                  then " First Horizon Bank " else "")))
      ∧ (∀ g, g ∉ lender_fields → text p' !! g = text row_noticed !! g)
      ∧ sqft p' = sqft row_noticed ∧ pct_campus p' = pct_campus row_noticed
      ∧ past_due_balance p' = past_due_balance row_noticed
      ∧ weekly_rate p' = weekly_rate row_noticed.
Proof.
  split.
  - exact (lender_quick_entry_effect "2026-03-02 09:00:00" " 2 " "2" (λ _, "  ")
             2 row_noticed conn_targets eq_refl eq_refl eq_refl eq_refl
             tables_targets_has_target tables_targets_named).
  - exact (lender_quick_entry_effect "2026-03-02 09:00:00" " 2 " "2"
             (λ f, if bool_decide (f = "lender_name") then " First Horizon Bank " else "")
             2 row_noticed conn_targets eq_refl eq_refl eq_refl eq_refl
             tables_targets_has_target tables_targets_named).
Defined.

Lemma mark_verified_unchecked_witness :
  lender_research_tracker "2026-03-02 09:00:00" "3" "99" (λ _, "") conn_targets
  = (Raise IntegrityError, conn_targets)
  ∧ lender_research_tracker "2026-03-02 09:00:00" "3" "9223372036854775808"
      (λ _, "") conn_targets
    = (Raise OverflowError, conn_targets)
  ∧ ∃ c' e,
      lender_research_tracker "2026-03-02 09:00:00" "4" "2" (λ _, "") conn_targets
      = (Ok (Answered Done), c')
      ∧ committed c' = session c'
      ∧ parcels (session c') = parcels (session conn_targets)
      ∧ enforcement_log (session c')
        = (enforcement_log (session conn_targets) ++ [e])%list
      ∧ parcel_id e = Some 2.
Proof.
  split; [|split].
  - exact (mark_verified_unchecked "2026-03-02 09:00:00" "3" "99" (λ _, "")
             AddressVerified 99 conn_targets eq_refl eq_refl
             tables_targets_has_target tables_targets_named).
  - exact (mark_verified_unchecked "2026-03-02 09:00:00" "3" "9223372036854775808"
             (λ _, "") AddressVerified 9223372036854775808 conn_targets eq_refl eq_refl
             tables_targets_has_target tables_targets_named).
  - exact (mark_verified_unchecked "2026-03-02 09:00:00" "4" "2" (λ _, "")
             LenderVerified 2 conn_targets eq_refl eq_refl
             tables_targets_has_target tables_targets_named).
Defined.

Lemma lender_research_tracker_summary_witness :
  lender_research_tracker "2026-03-02 09:00:00" "2" "1" (λ _, "x") conn_current
  = (Ok NoTargets, conn_current)
  ∧ lender_research_tracker "2026-03-02 09:00:00" "2" "2" (λ _, "x") conn_packets
    = (Raise TypeError, conn_packets)
  ∧ lender_research_tracker "2026-03-02 09:00:00" "0" "2" (λ _, "x") conn_targets
    = (Ok Back, conn_targets).
Proof.
  split; [|split].
  - apply (proj1 (lender_research_tracker_summary "2026-03-02 09:00:00" "2" "1"
                    (λ _, "x") conn_current)).
    intros (pid & p & Hp & Hn). cbn in Hp.
    apply lookup_singleton_Some in Hp as [_ <-]. discriminate Hn.
  - apply (proj1 (proj2 (lender_research_tracker_summary "2026-03-02 09:00:00" "2" "2"
                           (λ _, "x") conn_packets))).
    exists 3, row_verify. repeat split; reflexivity.
  - apply (proj2 (proj2 (lender_research_tracker_summary "2026-03-02 09:00:00" "0" "2"
                           (λ _, "x") conn_targets)));
      [exact tables_targets_has_target | exact tables_targets_named |].
    apply (bool_decide_unpack (_ ∉ _)). reflexivity.
Defined.

Lemma tables_packets_stored : rows_ok stored tables_packets.
Proof.
  apply tables_packets_rows; intros a [= <-]; reflexivity.
Qed.

Lemma tables_targets_stored : rows_ok stored tables_targets.
Proof.
  apply tables_targets_rows; intros a [= <-]; reflexivity.
Qed.

Lemma dashboard_total_on_stored_rows_witness :
  rows_ok stored (session conn_packets)
  ∧ dashboard_run {| dt_date := Cal.Date 2026 3 20; dt_us := 3600000000 |} conn_packets
    = (Raise TypeError, conn_packets)
  ∧ rows_ok stored (session conn_targets)
  ∧ ∃ d, dashboard_run {| dt_date := Cal.Date 2026 3 20; dt_us := 3600000000 |}
           conn_targets = (Ok d, conn_targets)
    ∧ zero_or_float (db_total_arrears d) ∧ zero_or_float (db_total_weekly d)
    ∧ db_days_to_lien d = 11.
Proof.
  split; [exact tables_packets_stored|]. split.
  - destruct (dashboard_total_on_stored_rows
                {| dt_date := Cal.Date 2026 3 20; dt_us := 3600000000 |} conn_packets
                tables_packets_stored) as (d & _ & _ & _ & _ & _ & Hnull).
    apply Hnull. exists 4, (row_billed 125.5). split; reflexivity.
  - split; [exact tables_targets_stored|].
    destruct (dashboard_total_on_stored_rows
                {| dt_date := Cal.Date 2026 3 20; dt_us := 3600000000 |} conn_targets
                tables_targets_stored) as (d & _ & Ha & Hw & Hl & Hrun & _).
    exists d. split.
    + apply Hrun. apply (tables_targets_rows (λ r, is_Some (status r))); by eexists.
    + split; [done|]. split; [done|]. rewrite Hl. vm_compute. reflexivity.
Defined.

Lemma dashboard_buckets_witness :
  ∃ d, dashboard {| dt_date := Cal.Date 2026 3 20; dt_us := 3600000000 |} conn_packets
       = (Ok d, conn_packets)
    ∧ (db_current d + db_delinquent d + db_disputed d + db_recon d + db_settled d
       + length (filter (λ r, status_in VALID_STATUSES r = false)
                   (rows_by_id (session conn_packets)).*2)
       = db_parcels d)%nat
    ∧ db_parcels d = size (parcels (session conn_packets)).
Proof.
  destruct (dashboard {| dt_date := Cal.Date 2026 3 20; dt_us := 3600000000 |}
              conn_packets) as [r c'] eqn:E.
  assert (is_ok r = true) as Hr.
  { change r with (r, c').1. rewrite <- E. vm_compute. reflexivity. }
  assert (c' = conn_packets) as ->.
  { change c' with (r, c').2. rewrite <- E. reflexivity. }
  destruct r as [d|e]; [|discriminate Hr].
  exists d. split; [reflexivity|].
  exact (dashboard_buckets {| dt_date := Cal.Date 2026 3 20; dt_us := 3600000000 |}
           conn_packets d E).
Defined.
